(** * Cart, order and payment workflow of the e-commerce backend

    A shallow embedding of the cart-to-order slice of the backend:
    the Mongoose schemas of [models/product.js] (product and cart),
    [models/order.js], and the request handlers [addToCart],
    [createOrder], [cancelOrder], [processPayment] and [processRefund].

    Conventions of the embedding.
    - The document store is an explicit value of type [Store]; a handler is
      a function from the store and its request to the new store and its
      reply.  Handlers run one at a time.
    - A JavaScript number holding an amount of money is an exact rational
      ([Q]), so a sum of amounts is the exact sum, which the doubles of the
      code give up to rounding.  [createOrder] tests the free-shipping
      threshold and rounds the tax on such a sum: the embedding decides
      both on the exact sum, and can differ from the code where the sum
      of the doubles falls on the other side of 5000 or of a half.  A
      number holding a quantity is an integer ([Z]); a [Date] is its
      millisecond timestamp ([Z]).
    - An ObjectId is a number ([N]).  A cart line holds the identifier of
      its product; where the code compares [item.product.toString()] on a
      cart loaded without [populate], the identifiers are compared, and
      where the cart is populated the comparison is that of the printed
      document with an identifier, which never holds.
    - [Date.now()], [Math.random()] and the identifier of a new document
      are inputs of the handler that consumes them; a request reads the
      clock once.
    - Strings are byte strings; the whitespace of [trim] and of the
      regular expression class [\S] is the ASCII whitespace.
    - Fields no modelled handler reads (images, ratings, order number,
      estimated delivery, ...) are left out of the records. *)

From Stdlib Require Import ZArith QArith Qround Qabs String Ascii List DecimalString.
From stdpp Require Import base gmap strings list.

Local Open Scope Z_scope.

(** ** Values shared by the handlers *)

Definition ObjectId := N.
Definition Date := Z.

(** What a handler hands to [next(...)]: an [AppError] with its HTTP status,
    a Mongoose validation failure, or a plain [Error] raised by a hook. *)
Inductive Exn :=
| AppError (message : string) (statusCode : Z)
| ValidationError (message : string)
| Error (message : string).

(** The reply of a handler: [next(err)] or [res.status(s).json(body)]. *)
Inductive Reply (A : Type) :=
| next (err : Exn)
| json (status : Z) (body : A).
Arguments next {A} err.
Arguments json {A} status body.

(** Template-literal rendering of an integer. *)
Definition show_Z (z : Z) : string := NilZero.string_of_int (Z.to_int z).

(** [Math.round]: the nearest integer, a tie going up. *)
Definition Math_round (x : Q) : Q := inject_Z (Qfloor (x + (1 # 2))).

(** [Array.prototype.includes] on strings. *)
Definition includes (l : list string) (s : string) : bool :=
  existsb (String.eqb s) l.

(** ** String setters and validators of the schemas *)

Fixpoint drop_space (s : string) : string :=
  match s with
  | String c s' => if Ascii.is_space c then drop_space s' else s
  | EmptyString => EmptyString
  end.

(** The [trim: true] setter. *)
Definition trim (s : string) : string :=
  String.rev (drop_space (String.rev (drop_space s))).

Definition lower_ascii (c : ascii) : ascii :=
  let n := N_of_ascii c in
  if ((65 <=? n) && (n <=? 90))%N then ascii_of_N (n + 32) else c.

(** The [lowercase: true] setter. *)
Fixpoint toLowerCase (s : string) : string :=
  match s with
  | String c s' => String (lower_ascii c) (toLowerCase s')
  | EmptyString => EmptyString
  end.

Fixpoint no_space (s : string) : bool :=
  match s with
  | String c s' => negb (Ascii.is_space c) && no_space s'
  | EmptyString => true
  end.

(** A ["."] with at least one character after it. *)
Fixpoint dot_then_some (s : string) : bool :=
  match s with
  | String c s' =>
      (Ascii.eqb c "."%char && negb (String.eqb s' "")) || dot_then_some s'
  | EmptyString => false
  end.

(** An ["@"] followed by one character or more, a ["."] and one character
    or more. *)
Fixpoint at_then_domain (s : string) : bool :=
  match s with
  | String c s' =>
      (Ascii.eqb c "@"%char
       && match s' with String _ r => dot_then_some r | EmptyString => false end)
      || at_then_domain s'
  | EmptyString => false
  end.

(** The [match] validator of the address e-mail, [/^\S+@\S+\.\S+$/]. *)
Definition email_match (s : string) : bool :=
  no_space s
  && match s with String _ r => at_then_domain r | EmptyString => false end.

(** The [required] validator of a string path. *)
Definition required (s : string) : bool := negb (String.eqb s "").

(** The [maxlength] validator. *)
Definition maxlength (n : nat) (s : string) : bool := (String.length s <=? n)%nat.

(** The [min] and [max] validators of a number path. *)
Definition minQ (lo x : Q) : bool := Qle_bool lo x.
Definition minZ (lo x : Z) : bool := lo <=? x.
Definition maxZ (hi x : Z) : bool := x <=? hi.

(** ** Product schema ([models/product.js]) *)

Module Product.
Record t := mk {
  name : string;
  description : string;
  price : Q;
  quantity : Z;
  category : string;
  status : string
}.

(** The [enum] of the [status] path. *)
Definition status_enum : list string :=
  ["active"; "revoked"; "pending"; "draft"]%string.

(** The [trim: true] setters of [name], [description] and [category],
    which run when a value is assigned to the path. *)
Definition cast (p : t) : t :=
  mk (trim (name p)) (trim (description p)) (price p) (quantity p)
     (trim (category p)) (status p).

(** Schema validation, as [save()] runs it, on the modelled paths. *)
Definition validate (p : t) : bool :=
  required (name p) && maxlength 200 (name p)
  && required (description p) && maxlength 2000 (description p)
  && minQ 0 (price p)
  && minZ 0 (quantity p)
  && required (category p)
  && includes status_enum (status p).

(** The [isAvailable] virtual. *)
Definition isAvailable (p : t) : bool :=
  String.eqb (status p) "active" && (0 <? quantity p).

Definition set_quantity (q : Z) (p : t) : t :=
  mk (name p) (description p) (price p) q (category p) (status p).
End Product.

(** ** Cart schema ([models/cart.js]) *)

Module CartItem.
Record t := mk {
  product : ObjectId;
  quantity : Z
}.

Definition validate (i : t) : bool :=
  minZ 1 (quantity i) && maxZ 100 (quantity i).
End CartItem.

(** The cart of a user.  The [user] path is unique and is the key under
    which the store keeps the cart, so the record holds the lines only. *)
Module Cart.
Record t := mk {
  items : list CartItem.t
}.

Definition validate (c : t) : bool := forallb CartItem.validate (items c).
End Cart.

(** ** Order schema ([models/order.js]) *)

Module OrderItem.
Record t := mk {
  product : ObjectId;
  quantity : Z;
  price : Q;
  total : Q
}.

Definition validate (i : t) : bool :=
  minZ 1 (quantity i) && minQ 0 (price i) && minQ 0 (total i).
End OrderItem.

Module ShippingAddress.
Record t := mk {
  firstName : string;
  lastName : string;
  email : string;
  phone : string;
  street : string;
  city : string;
  state : string;
  zipCode : string
}.

(** The setters run when the sub-document is built: every path is
    trimmed and the e-mail is lower-cased. *)
Definition cast (a : t) : t :=
  mk (trim (firstName a)) (trim (lastName a)) (toLowerCase (trim (email a)))
     (trim (phone a)) (trim (street a)) (trim (city a)) (trim (state a))
     (trim (zipCode a)).

Definition validate (a : t) : bool :=
  required (firstName a) && required (lastName a)
  && required (email a) && email_match (email a)
  && required (phone a) && required (street a) && required (city a)
  && required (state a) && required (zipCode a).
End ShippingAddress.

(** [a < b] on rationals, as a boolean. *)
Definition Qlt_bool (a b : Q) : bool := negb (Qle_bool b a).

(** The order document, with the paths of [OrderSchema] that the handlers
    read or write. *)
Module Order.
Record t := mk {
  user : ObjectId;
  items : list OrderItem.t;
  shippingAddress : ShippingAddress.t;
  status : string;
  paymentStatus : string;
  paymentMethod : string;
  subtotal : Q;
  shippingCost : Q;
  tax : Q;
  total : Q;
  notes : string;
  createdAt : Date;
  deliveredAt : option Date
}.

(** [order.paymentTransactionId] read from a stored order.  [OrderSchema]
    has no such path, and neither [refundReason] nor [refundedAt]: the
    payment controller assigns the three on the document in memory,
    [save()] writes schema paths only, so a document loaded from the store
    has none of them and the read is [undefined]. *)
Definition paymentTransactionId (o : t) : option string := None.

Definition status_enum : list string :=
  ["pending"; "confirmed"; "processing"; "shipped"; "delivered";
   "cancelled"; "refunded"]%string.
Definition paymentStatus_enum : list string :=
  ["pending"; "paid"; "failed"; "refunded"]%string.
Definition paymentMethod_enum : list string :=
  ["cash_on_delivery"; "credit_card"; "bank_transfer"; "wallet"]%string.

(** Schema validation on the modelled paths. *)
Definition validate (o : t) : bool :=
  negb (Nat.eqb (length (items o)) 0)
  && forallb OrderItem.validate (items o)
  && ShippingAddress.validate (shippingAddress o)
  && includes status_enum (status o)
  && includes paymentStatus_enum (paymentStatus o)
  && includes paymentMethod_enum (paymentMethod o)
  && minQ 0 (subtotal o) && minQ 0 (shippingCost o)
  && minQ 0 (tax o) && minQ 0 (total o)
  && maxlength 500 (notes o).

(** The test of the second [pre("save")] hook:
    [Math.abs(calculatedTotal - this.total) > 0.01]. *)
Definition total_mismatch (o : t) : bool :=
  let calculatedTotal := (subtotal o + shippingCost o + tax o)%Q in
  Qlt_bool (1 # 100) (Qabs (calculatedTotal - total o)).

(** [canBeCancelled]. *)
Definition canBeCancelled (o : t) : bool :=
  includes ["pending"; "confirmed"]%string (status o).

Definition set_status (s : string) (o : t) : t :=
  mk (user o) (items o) (shippingAddress o) s (paymentStatus o)
     (paymentMethod o) (subtotal o) (shippingCost o) (tax o) (total o)
     (notes o) (createdAt o) (deliveredAt o).

Definition set_paymentStatus (s : string) (o : t) : t :=
  mk (user o) (items o) (shippingAddress o) (status o) s
     (paymentMethod o) (subtotal o) (shippingCost o) (tax o) (total o)
     (notes o) (createdAt o) (deliveredAt o).

Definition set_paymentMethod (m : string) (o : t) : t :=
  mk (user o) (items o) (shippingAddress o) (status o) (paymentStatus o)
     m (subtotal o) (shippingCost o) (tax o) (total o)
     (notes o) (createdAt o) (deliveredAt o).
End Order.

(** ** The document store *)

(** The three collections.  [carts] is indexed by the unique [user] path of
    the cart schema, the other two by [_id]. *)
Record Store := mkStore {
  products : gmap ObjectId Product.t;
  carts : gmap ObjectId Cart.t;
  orders : gmap ObjectId Order.t
}.

Definition set_products (m : gmap ObjectId Product.t) (st : Store) : Store :=
  mkStore m (carts st) (orders st).
Definition set_carts (m : gmap ObjectId Cart.t) (st : Store) : Store :=
  mkStore (products st) m (orders st).
Definition set_orders (m : gmap ObjectId Order.t) (st : Store) : Store :=
  mkStore (products st) (carts st) m.

(** [product.save()] of a document built from the values [p]: the setters
    have run on them, then schema validation, then the write. *)
Definition Product_save (id : ObjectId) (p : Product.t) (st : Store)
  : Exn + Store :=
  let p := Product.cast p in
  if Product.validate p
  then inr (set_products (<[id := p]> (products st)) st)
  else inl (ValidationError "Product validation failed").

(** [Product.findByIdAndUpdate(id, { $inc: { quantity: d } })]: an update
    in place that runs no validator and does nothing for an unknown id. *)
Definition Product_inc_quantity (id : ObjectId) (d : Z) (st : Store) : Store :=
  set_products
    (alter (fun p => Product.set_quantity (Product.quantity p + d) p) id
       (products st)) st.

(** [cart.save()]. *)
Definition Cart_save (user : ObjectId) (c : Cart.t) (st : Store)
  : Exn + Store :=
  if Cart.validate c
  then inr (set_carts (<[user := c]> (carts st)) st)
  else inl (ValidationError "Cart validation failed").

(** [order.save()]: schema validation runs first, then the [pre("save")]
    hooks in the order of their registration.  The first hook assigns the
    order number and the estimated delivery, paths the model leaves out;
    the second hook rejects an order whose total does not match, and
    nothing is written then. *)
Definition Order_save (id : ObjectId) (o : Order.t) (st : Store)
  : Exn + Store :=
  if negb (Order.validate o)
  then inl (ValidationError "Order validation failed")
  else if Order.total_mismatch o
  then inl (Error "Order total does not match calculated total")
  else inr (set_orders (<[id := o]> (orders st)) st).

(** [Order.findOne({ _id: id, user: user })]. *)
Definition Order_findOne (id user : ObjectId) (st : Store) : option Order.t :=
  match orders st !! id with
  | Some o => if N.eqb (Order.user o) user then Some o else None
  | None => None
  end.

(** ** Cart methods ([models/cart.js]) *)

(** [this.items.find(item => item.product.toString() === productId.toString())]
    on a cart that was loaded without [populate]: [item.product] is then
    the identifier, and the comparison is that of the identifiers. *)
Definition Cart_findItem (productId : ObjectId) (c : Cart.t)
  : option CartItem.t :=
  List.find (fun item => N.eqb (CartItem.product item) productId) (Cart.items c).

(** [item.product.toString() === productId.toString()] on a line of a
    populated cart: [item.product] is then the product document, and the
    [toString()] of a document is the printed document, which is never the
    24 hexadecimal digits that [productId.toString()] gives. *)
Definition populated_matches (product : Product.t) (productId : ObjectId)
  : bool := false.

(** [this.items.find(item => item.product.toString() === productId.toString())]
    on a cart that [getOrCreate] has populated: the callback reads
    [item.product], which is [null] for a line whose product is no longer
    in the catalog, and the call of [toString] on it throws; on the other
    lines the comparison is the one above, so the search goes through
    every line. *)
Fixpoint find_populated (st : Store) (productId : ObjectId)
    (items : list CartItem.t) : Exn + option CartItem.t :=
  match items with
  | [] => inr None
  | item :: rest =>
      match products st !! CartItem.product item with
      | None => inl (Error "Cannot read properties of null (reading 'toString')")
      | Some product =>
          if populated_matches product productId
          then inr (Some item)
          else find_populated st productId rest
      end
  end.

(** [existingItem.quantity += quantity] on the line that [find] returned,
    the first one for the product. *)
Fixpoint add_quantity (productId : ObjectId) (quantity : Z)
    (items : list CartItem.t) : list CartItem.t :=
  match items with
  | [] => []
  | item :: rest =>
      if N.eqb (CartItem.product item) productId
      then CartItem.mk (CartItem.product item) (CartItem.quantity item + quantity)
             :: rest
      else item :: add_quantity productId quantity rest
  end.

(** [CartSchema.methods.addItem], called by [addToCart] on the cart that
    [getOrCreate] has populated. *)
Definition Cart_addItem (user productId : ObjectId) (quantity : Z)
    (c : Cart.t) (st : Store) : Exn + (Cart.t * Store) :=
  match find_populated st productId (Cart.items c) with
  | inl e => inl e
  | inr existingItem =>
  let c' :=
    match existingItem with
    | Some _ => Cart.mk (add_quantity productId quantity (Cart.items c))
    | None => Cart.mk (Cart.items c ++ [CartItem.mk productId quantity])
    end in
  match Cart_save user c' st with
  | inl e => inl e
  | inr st' => inr (c', st')
  end end.

(** [CartSchema.statics.getOrCreate].  The cart it finds is populated;
    the model keeps the lines with their references and resolves a
    reference in the store where the code reads the populated path. *)
Definition Cart_getOrCreate (user : ObjectId) (st : Store)
  : Exn + (Cart.t * Store) :=
  match carts st !! user with
  | Some cart => inr (cart, st)
  | None =>
      let cart := Cart.mk [] in
      match Cart_save user cart st with
      | inl e => inl e
      | inr st' => inr (cart, st')
      end
  end.

(** A cart line after [populate("items.product")]: [product] is the
    product document, or [None] (JavaScript [null]) when the catalog has no
    such product; [ref] is the identifier the line refers to. *)
Module PopulatedItem.
Record t := mk {
  ref : ObjectId;
  product : option Product.t;
  quantity : Z
}.
End PopulatedItem.

Definition populate (st : Store) (item : CartItem.t) : PopulatedItem.t :=
  PopulatedItem.mk (CartItem.product item)
    (products st !! CartItem.product item) (CartItem.quantity item).

(** [items.reduce((total, item) => total + item.product.price * item.quantity, 0)];
    reading [price] of a [null] product throws. *)
Definition reduce_totalPrice (items : list PopulatedItem.t) : option Q :=
  fold_left
    (fun total item =>
       match total, PopulatedItem.product item with
       | Some total, Some p =>
           Some (total + Product.price p * inject_Z (PopulatedItem.quantity item))%Q
       | _, _ => None
       end)
    items (Some 0%Q).

(** [items.reduce((total, item) => total + item.quantity, 0)]. *)
Definition reduce_totalItems (items : list CartItem.t) : Z :=
  fold_left (fun total item => total + CartItem.quantity item) items 0.

(** ** Cart controller: [addToCart] *)

Module CartBody.
Record t := mk {
  items : list CartItem.t;
  totalItems : Z;
  totalPrice : Q
}.
End CartBody.

(** [Product.findOne({ _id, status: "active", quantity: { $gt: 0 } })]. *)
Definition Product_findOne_inStock (id : ObjectId) (st : Store)
  : option Product.t :=
  match products st !! id with
  | Some p =>
      if String.eqb (Product.status p) "active" && (0 <? Product.quantity p)
      then Some p else None
  | None => None
  end.

Definition addToCart (user : ObjectId) (productId : option ObjectId)
    (quantity : option Z) (st : Store) : Store * Reply CartBody.t :=
  let quantity := default 1 quantity in
  match productId with
  | None => (st, next (AppError "Product ID is required" 400))
  | Some productId =>
  if (quantity <? 1) || (100 <? quantity)
  then (st, next (AppError "Quantity must be between 1 and 100" 400))
  else
  match Product_findOne_inStock productId st with
  | None => (st, next (AppError "Product not found or out of stock" 404))
  | Some product =>
  match Cart_getOrCreate user st with
  | inl e => (st, next e)
  | inr (cart, st1) =>
  match find_populated st1 productId (Cart.items cart) with
  | inl e => (st1, next e)
  | inr existingItem =>
  let currentQuantity :=
    match existingItem with
    | Some item => CartItem.quantity item
    | None => 0
    end in
  let newTotalQuantity := currentQuantity + quantity in
  if Product.quantity product <? newTotalQuantity
  then (st1, next (AppError
          ("Only " +:+ show_Z (Product.quantity product)
           +:+ " items available. You have " +:+ show_Z currentQuantity
           +:+ " in cart.") 400))
  else
  match Cart_addItem user productId quantity cart st1 with
  | inl e => (st1, next e)
  | inr (cart', st2) =>
  match reduce_totalPrice (map (populate st2) (Cart.items cart')) with
  | None => (st2, next (Error "Cannot read properties of null (reading 'price')"))
  | Some totalPrice =>
      (st2, json 200
              (CartBody.mk (Cart.items cart')
                 (reduce_totalItems (Cart.items cart')) totalPrice))
  end end end end end end.

(** ** Order controller: [createOrder] and [cancelOrder] *)

(** The truthiness test on the shipping address and its eight paths. *)
Definition address_complete (a : option ShippingAddress.t) : bool :=
  match a with
  | None => false
  | Some a =>
      negb (String.eqb (ShippingAddress.firstName a) "")
      && negb (String.eqb (ShippingAddress.lastName a) "")
      && negb (String.eqb (ShippingAddress.street a) "")
      && negb (String.eqb (ShippingAddress.city a) "")
      && negb (String.eqb (ShippingAddress.state a) "")
      && negb (String.eqb (ShippingAddress.zipCode a) "")
      && negb (String.eqb (ShippingAddress.phone a) "")
      && negb (String.eqb (ShippingAddress.email a) "")
  end.

(** One turn of the availability loop: what the turn pushes on
    [unavailableProducts], if anything. *)
Definition unavailable_entry (item : PopulatedItem.t) : option string :=
  match PopulatedItem.product item with
  | None => Some "Unknown product"
  | Some p =>
      if negb (String.eqb (Product.status p) "active")
      then Some (if String.eqb (Product.name p) "" then "Unknown product"
                 else Product.name p)
      else if Product.quantity p <? PopulatedItem.quantity item
      then Some (Product.name p +:+ " (only " +:+ show_Z (Product.quantity p)
                 +:+ " available)")
      else None
  end.

(** The array [unavailableProducts] after the loop. *)
Definition unavailableProducts (items : list PopulatedItem.t) : list string :=
  omap unavailable_entry items.

(** The [items] of the new order.  The map runs after the availability
    loop and the subtotal, which leave no line without its product. *)
Definition order_items (items : list PopulatedItem.t) : list OrderItem.t :=
  omap
    (fun item =>
       match PopulatedItem.product item with
       | Some p =>
           Some (OrderItem.mk (PopulatedItem.ref item) (PopulatedItem.quantity item)
                   (Product.price p)
                   (Product.price p * inject_Z (PopulatedItem.quantity item))%Q)
       | None => None
       end)
    items.

(** The loop that reduces the product quantities after the order is saved. *)
Definition reduce_quantities (items : list PopulatedItem.t) (st : Store) : Store :=
  fold_left
    (fun st item =>
       Product_inc_quantity (PopulatedItem.ref item) (- PopulatedItem.quantity item) st)
    items st.

Module CreateOrder.
Record body := mk {
  shippingAddress : option ShippingAddress.t;
  paymentMethod : option string;
  notes : option string
}.
End CreateOrder.

(** [createOrder].  [now] is the time of the request, which the first
    save records as [createdAt], and [newId] the identifier given to the
    new order document. *)
Definition createOrder (now : Date) (newId : ObjectId) (user : ObjectId)
    (body : CreateOrder.body) (st : Store) : Store * Reply Order.t :=
  let shippingAddress := CreateOrder.shippingAddress body in
  let paymentMethod := default "cash_on_delivery"%string (CreateOrder.paymentMethod body) in
  let notes := default ""%string (CreateOrder.notes body) in
  match shippingAddress with
  | None => (st, next (AppError "Complete shipping address is required" 400))
  | Some address =>
  if negb (address_complete shippingAddress)
  then (st, next (AppError "Complete shipping address is required" 400))
  else
  match carts st !! user with
  | None => (st, next (AppError "Cart is empty" 400))
  | Some cart =>
  if Nat.eqb (length (Cart.items cart)) 0
  then (st, next (AppError "Cart is empty" 400))
  else
  let items := map (populate st) (Cart.items cart) in
  let unavailable := unavailableProducts items in
  if (0 <? length unavailable)%nat
  then (st, next (AppError
          ("Some products are no longer available: "
           +:+ String.concat ", " unavailable) 400))
  else
  match reduce_totalPrice items with
  | None => (st, next (Error "Cannot read properties of null (reading 'price')"))
  | Some subtotal =>
  let shippingCost := if Qlt_bool 5000 subtotal then 0%Q else 200%Q in
  let tax := Math_round (subtotal * (5 # 100)) in
  let total := (subtotal + shippingCost + tax)%Q in
  let order :=
    Order.mk user (order_items items) (ShippingAddress.cast address)
      "pending"
      (if String.eqb paymentMethod "cash_on_delivery" then "pending" else "pending")
      paymentMethod subtotal shippingCost tax total (trim notes)
      now None in
  match Order_save newId order st with
  | inl e => (st, next e)
  | inr st1 =>
  let st2 := reduce_quantities items st1 in
  match Cart_save user (Cart.mk []) st2 with
  | inl e => (st2, next e)
  | inr st3 => (st3, json 201 order)
  end end end end end.

(** The loop of [cancelOrder] that restores the product quantities. *)
Definition restore_quantities (items : list OrderItem.t) (st : Store) : Store :=
  fold_left
    (fun st item =>
       Product_inc_quantity (OrderItem.product item) (OrderItem.quantity item) st)
    items st.

(** [cancelOrder]. *)
Definition cancelOrder (user id : ObjectId) (st : Store) : Store * Reply Order.t :=
  match Order_findOne id user st with
  | None => (st, next (AppError "Order not found" 404))
  | Some order =>
  if negb (includes ["pending"; "confirmed"]%string (Order.status order))
  then (st, next (AppError "Order cannot be cancelled at this stage" 400))
  else
  let st1 := restore_quantities (Order.items order) st in
  let order := Order.set_status "cancelled" order in
  let order := Order.set_paymentStatus "refunded" order in
  match Order_save id order st1 with
  | inl e => (st1, next e)
  | inr st2 => (st2, json 200 order)
  end end.

(** ** Payment controller: [processPayment] and [processRefund] *)

Module PaymentDetails.
Record t := mk {
  cardNumber : string;
  cvv : string
}.
End PaymentDetails.

Module PaymentResult.
Record t := mk {
  success : bool;
  transactionId : option string;
  message : string
}.
End PaymentResult.

Module PaymentBody.
Record t := mk {
  success : bool;
  message : string;
  orderId : ObjectId;
  transactionId : option string;
  amount : option Q;
  status : string;
  method : string
}.
End PaymentBody.

(** The truthiness of [paymentResult?.success]. *)
Definition opt_success (paymentResult : option PaymentResult.t) : bool :=
  match paymentResult with
  | Some r => PaymentResult.success r
  | None => false
  end.

(** The [switch (paymentMethod)] of [processPayment].  [paymentResult] is
    the value the variable of that name holds while the cases are
    evaluated; [now] is [Date.now()] and [random] is [Math.random()]. *)
Definition payment_switch (paymentResult : option PaymentResult.t)
    (now : Date) (random : Q) (order : Order.t) (paymentMethod : string)
    (paymentDetails : option PaymentDetails.t) : Exn + PaymentResult.t :=
  if String.eqb paymentMethod "cash_on_delivery" then
    inr (PaymentResult.mk true None "Payment will be collected on delivery")
  else if String.eqb paymentMethod "credit_card" then
    match paymentDetails with
    | None => inl (AppError "Credit card details are required" 400)
    | Some details =>
        if String.eqb (PaymentDetails.cardNumber details) ""
           || String.eqb (PaymentDetails.cvv details) ""
        then inl (AppError "Credit card details are required" 400)
        else
          inr (PaymentResult.mk
                 (Qlt_bool (1 # 10) random)
                 (if opt_success paymentResult
                  then Some ("TXN_" +:+ show_Z now) else None)
                 (if opt_success paymentResult
                  then "Payment processed successfully" else "Payment failed"))
    end
  else if String.eqb paymentMethod "bank_transfer" then
    inr (PaymentResult.mk true (Some ("BANK_" +:+ show_Z now))
           "Bank transfer initiated. Please complete the transfer.")
  else if String.eqb paymentMethod "wallet" then
    let walletBalance := 10000%Q in
    if Qlt_bool walletBalance (Order.total order)
    then inl (AppError "Insufficient wallet balance" 400)
    else inr (PaymentResult.mk true (Some ("WALLET_" +:+ show_Z now))
                "Payment processed from wallet")
  else inl (AppError "Invalid payment method" 400).

(** [processPayment].  The variable [paymentResult] is declared without a
    value before the [switch], so the cases see it undefined.  The
    assignment [order.paymentTransactionId = paymentResult.transactionId]
    sets a property that is no path of [OrderSchema]: [order.save()] does
    not write it and nothing reads it before the reply, which takes the
    transaction id from [paymentResult]. *)
Definition processPayment (now : Date) (random : Q) (user : ObjectId)
    (orderId : option ObjectId) (paymentMethod : string)
    (paymentDetails : option PaymentDetails.t) (st : Store)
  : Store * Reply PaymentBody.t :=
  match orderId with
  | None => (st, next (AppError "Order ID and payment method are required" 400))
  | Some orderId =>
  if String.eqb paymentMethod ""
  then (st, next (AppError "Order ID and payment method are required" 400))
  else
  match Order_findOne orderId user st with
  | None => (st, next (AppError "Order not found" 404))
  | Some order =>
  if String.eqb (Order.paymentStatus order) "paid"
  then (st, next (AppError "Order has already been paid" 400))
  else if String.eqb (Order.status order) "cancelled"
  then (st, next (AppError "Cannot process payment for cancelled order" 400))
  else
  let paymentResult : option PaymentResult.t := None in
  match payment_switch paymentResult now random order paymentMethod paymentDetails with
  | inl e => (st, next e)
  | inr paymentResult =>
  if PaymentResult.success paymentResult then
    let order := Order.set_paymentStatus "paid" order in
    let order := Order.set_paymentMethod paymentMethod order in
    let order :=
      if String.eqb (Order.status order) "pending"
      then Order.set_status "confirmed" order else order in
    match Order_save orderId order st with
    | inl e => (st, next e)
    | inr st' =>
        (st', json 200
                (PaymentBody.mk true (PaymentResult.message paymentResult) orderId
                   (PaymentResult.transactionId paymentResult)
                   (Some (Order.total order)) "paid" paymentMethod))
    end
  else
    (st, json 400
           (PaymentBody.mk false (PaymentResult.message paymentResult) orderId
              None None "failed" paymentMethod))
  end end end.

Module RefundBody.
Record t := mk {
  orderId : ObjectId;
  amount : Q;
  transactionId : option string;
  refundedAt : Date;
  reason : option string
}.
End RefundBody.

(** Seven days, in milliseconds. *)
Definition refund_period : Z := 7 * 24 * 60 * 60 * 1000.

(** [processRefund].  [now] is the value of [new Date()].  The assignments
    to [order.refundReason] and [order.refundedAt] set properties that are
    no paths of [OrderSchema]: [order.save()] does not write them; the
    reply reads them back from the document in memory, and reads
    [order.paymentTransactionId], which the loaded document does not have. *)
Definition processRefund (now : Date) (user orderId : ObjectId)
    (reason : option string) (st : Store) : Store * Reply RefundBody.t :=
  match Order_findOne orderId user st with
  | None => (st, next (AppError "Order not found" 404))
  | Some order =>
  if negb (String.eqb (Order.paymentStatus order) "paid")
  then (st, next (AppError "Order has not been paid yet" 400))
  else
  let expired :=
    if String.eqb (Order.status order) "delivered" then
      let deliveryDate := default (Order.createdAt order) (Order.deliveredAt order) in
      let refundDeadline := deliveryDate + refund_period in
      refundDeadline <? now
    else false in
  if expired
  then (st, next (AppError "Refund period has expired (7 days from delivery)" 400))
  else
  let order := Order.set_paymentStatus "refunded" order in
  let order := Order.set_status "refunded" order in
  match Order_save orderId order st with
  | inl e => (st, next e)
  | inr st' =>
      (st', json 200
              (RefundBody.mk orderId (Order.total order)
                 (Order.paymentTransactionId order) now reason))
  end end.

(** ** Vocabulary of the specification

    The specification names the failures of the workflow; each name stands
    for the error the handler passes to [next]. *)

Definition EmptyCart : Exn := AppError "Cart is empty" 400.

Definition InsufficientInventory (names : list string) : Exn :=
  AppError ("Some products are no longer available: "
            +:+ String.concat ", " names) 400.

Definition InvalidTransition : Exn :=
  AppError "Order cannot be cancelled at this stage" 400.

Definition NotFound : Exn := AppError "Product not found or out of stock" 404.

Definition OutOfStock (onHand inCart : Z) : Exn :=
  AppError ("Only " +:+ show_Z onHand +:+ " items available. You have "
            +:+ show_Z inCart +:+ " in cart.") 400.

Definition AlreadyPaid : Exn := AppError "Order has already been paid" 400.

Definition OrderCancelled : Exn :=
  AppError "Cannot process payment for cancelled order" 400.

Definition NotPaid : Exn := AppError "Order has not been paid yet" 400.

Definition RefundWindowExpired : Exn :=
  AppError "Refund period has expired (7 days from delivery)" 400.

(** A cart line the checkout must refuse: its product is missing, is not
    active, or has fewer units on hand than the line asks for. *)
Definition offending (st : Store) (item : CartItem.t) : bool :=
  match products st !! CartItem.product item with
  | None => true
  | Some p =>
      negb (String.eqb (Product.status p) "active")
      || (Product.quantity p <? CartItem.quantity item)
  end.

(** An entry of the error message names the product of a line: it starts
    with the product's name; a missing product, which has no name, is
    listed as ["Unknown product"]. *)
Definition names_product (st : Store) (item : CartItem.t) (entry : string) : Prop :=
  match products st !! CartItem.product item with
  | Some p => String.prefix (Product.name p) entry = true
  | None => entry = "Unknown product"%string
  end.

(** The quantity a cart holds for a product: that of the line [find]
    returns, or [0]. *)
Definition cart_quantity (productId : ObjectId) (c : Cart.t) : Z :=
  match Cart_findItem productId c with
  | Some item => CartItem.quantity item
  | None => 0
  end.

(** The same, for the cart the store keeps for [user]; no cart holds nothing. *)
Definition stored_quantity (st : Store) (user productId : ObjectId) : Z :=
  match carts st !! user with
  | Some c => cart_quantity productId c
  | None => 0
  end.

(** The cart the store keeps for [user]; a user without a cart has the
    empty one, the cart [getOrCreate] makes. *)
Definition stored_cart (st : Store) (user : ObjectId) : Cart.t :=
  default (Cart.mk []) (carts st !! user).

(** The line the cart of [user] has for a product, if it has one. *)
Definition stored_line (st : Store) (user productId : ObjectId)
  : option CartItem.t :=
  Cart_findItem productId (stored_cart st user).

(** The products of the lines of the cart of [user] are in the catalog. *)
Definition cart_products_present (st : Store) (user : ObjectId) : Prop :=
  forall cart, carts st !! user = Some cart ->
    forall pid, In pid (map CartItem.product (Cart.items cart)) ->
      is_Some (products st !! pid).

(** The units an order holds of a product, over all its lines. *)
Definition ordered_quantity (productId : ObjectId) (items : list OrderItem.t) : Z :=
  fold_right
    (fun item acc =>
       if N.eqb (OrderItem.product item) productId
       then OrderItem.quantity item + acc else acc)
    0 items.

(** The invariant of the order totals, within the tolerance of the hook. *)
Definition totals_consistent (o : Order.t) : Prop :=
  (Qabs (Order.subtotal o + Order.shippingCost o + Order.tax o - Order.total o)
   <= 1 # 100)%Q.

(** The units a cart holds of a product, over all its lines. *)
Definition cart_units (productId : ObjectId) (items : list CartItem.t) : Z :=
  fold_right
    (fun item acc =>
       if N.eqb (CartItem.product item) productId
       then CartItem.quantity item + acc else acc)
    0 items.

(** Every stored order passes schema validation and the total check. *)
Definition orders_sound (st : Store) : Prop :=
  forall id o, orders st !! id = Some o ->
    Order.validate o = true /\ totals_consistent o.

(** The hypotheses on the lines of a cart under which the new order
    validates: no line is offending, every line has a quantity of 1 or
    more, and no product of a line has a negative price. *)
Definition lines_orderable (st : Store) (items : list CartItem.t) : Prop :=
  forall item, In item items ->
    offending st item = false
    /\ 1 <= CartItem.quantity item
    /\ (forall p, products st !! CartItem.product item = Some p ->
          (0 <= Product.price p)%Q).

(** The status set the specification gives for a product. *)
Definition spec_status_set : list string :=
  ["active"; "revoked"; "pending"; "draft"; "suspended"]%string.

(** One day, in milliseconds. *)
Definition day : Z := 24 * 60 * 60 * 1000.

(** ** Sample data

    A catalog of one product, a user with a cart, and an order of that
    user, for the concrete scenarios. *)

Definition sample_address : ShippingAddress.t :=
  ShippingAddress.mk "Ali" "Khan" "ali@example.com" "03001234567"
    "1 Mall Road" "Lahore" "Punjab" "54000".

Definition productA (stock : Z) : Product.t :=
  Product.mk "Product A" "A sample product" 500 stock "general" "active".

Definition catalog (stock : Z) : gmap ObjectId Product.t :=
  {[ 1%N := productA stock ]}.

(** User 7 has a cart with the given lines; product 1 has [stock] units. *)
Definition sample_store (stock : Z) (lines : list CartItem.t) : Store :=
  mkStore (catalog stock) {[ 7%N := Cart.mk lines ]} ∅.

Definition sample_body : CreateOrder.body :=
  CreateOrder.mk (Some sample_address) None None.

(** An order of user 7 for two units of product 1 at 500. *)
Definition sample_order (status paymentStatus : string)
    (deliveredAt : option Date) : Order.t :=
  Order.mk 7%N [OrderItem.mk 1%N 2 500 1000] sample_address
    status paymentStatus "cash_on_delivery" 1000 200 50 1250 ""
    0 deliveredAt.

(** The store that holds the order under identifier 5. *)
Definition order_store (o : Order.t) : Store :=
  mkStore (catalog 8) ∅ {[ 5%N := o ]}.

(** The order that checking out two units of product 1 creates. *)
Definition sample_created : Order.t :=
  Order.mk 7%N [OrderItem.mk 1%N 2 500 1000] sample_address
    "pending" "pending" "cash_on_delivery" 1000 200 50 1250 ""
    0 None.

(** The store after that checkout from a stock of 10, the order stored
    under identifier 9. *)
Definition checked_out_store : Store :=
  mkStore (catalog 8) {[ 7%N := Cart.mk [] ]} {[ 9%N := sample_created ]}.

(** An order whose total is 50 above the sum of its parts. *)
Definition mispriced_order : Order.t :=
  Order.mk 7%N [OrderItem.mk 1%N 2 500 1000] sample_address
    "pending" "pending" "cash_on_delivery" 1000 200 50 1300 ""
    0 None.

(** Complete card details. *)
Definition sample_card : PaymentDetails.t :=
  PaymentDetails.mk "4242424242424242" "123".

(** The sample order after a bank transfer. *)
Definition sample_paid : Order.t :=
  Order.mk 7%N [OrderItem.mk 1%N 2 500 1000] sample_address
    "confirmed" "paid" "bank_transfer" 1000 200 50 1250 ""
    0 None.

(** * The rest of the cart, order and payment code

    The methods and handlers of the files above that the workflow of the
    first part did not need. *)

(** ** Cart methods: [removeItem], [updateItemQuantity], [clear] *)

(** [this.items.filter(item => item.product.toString() !== productId.toString())]. *)
Definition remove_lines (productId : ObjectId) (items : list CartItem.t)
  : list CartItem.t :=
  List.filter (fun item => negb (N.eqb (CartItem.product item) productId)) items.

(** [CartSchema.methods.removeItem]. *)
Definition Cart_removeItem (user productId : ObjectId) (c : Cart.t) (st : Store)
  : Exn + (Cart.t * Store) :=
  let c' := Cart.mk (remove_lines productId (Cart.items c)) in
  match Cart_save user c' st with
  | inl e => inl e
  | inr st' => inr (c', st')
  end.

(** [item.quantity = quantity] on the line that [find] returned, the first
    one for the product. *)
Fixpoint set_line_quantity (productId : ObjectId) (quantity : Z)
    (items : list CartItem.t) : list CartItem.t :=
  match items with
  | [] => []
  | item :: rest =>
      if N.eqb (CartItem.product item) productId
      then CartItem.mk (CartItem.product item) quantity :: rest
      else item :: set_line_quantity productId quantity rest
  end.

(** [CartSchema.methods.updateItemQuantity].  Its callers load the cart with
    [findOne] and without [populate], so the lines hold identifiers. *)
Definition Cart_updateItemQuantity (user productId : ObjectId) (quantity : Z)
    (c : Cart.t) (st : Store) : Exn + (Cart.t * Store) :=
  match Cart_findItem productId c with
  | Some _ =>
      if quantity <=? 0
      then Cart_removeItem user productId c st
      else
        let c' := Cart.mk (set_line_quantity productId quantity (Cart.items c)) in
        match Cart_save user c' st with
        | inl e => inl e
        | inr st' => inr (c', st')
        end
  | None => inl (Error "Item not found in cart")
  end.

(** [CartSchema.methods.clear]. *)
Definition Cart_clear (user : ObjectId) (st : Store) : Exn + (Cart.t * Store) :=
  let c' := Cart.mk [] in
  match Cart_save user c' st with
  | inl e => inl e
  | inr st' => inr (c', st')
  end.

(** ** Cart controller: the other handlers *)

(** The end of [updateCartItem] and [removeFromCart]: the cart is populated,
    the total price is the sum over its lines (reading the price of a
    [null] product throws), and the cart is sent with its totals. *)
Definition cart_reply (st : Store) (c : Cart.t) : Reply CartBody.t :=
  match reduce_totalPrice (map (populate st) (Cart.items c)) with
  | None => next (Error "Cannot read properties of null (reading 'price')")
  | Some totalPrice =>
      json 200
        (CartBody.mk (Cart.items c) (reduce_totalItems (Cart.items c)) totalPrice)
  end.

(** [Product.findOne({ _id, status: "active" })]. *)
Definition Product_findOne_active (id : ObjectId) (st : Store)
  : option Product.t :=
  match products st !! id with
  | Some p => if String.eqb (Product.status p) "active" then Some p else None
  | None => None
  end.

(** [updateCartItem].  [quantity] is [None] when the body has none
    ([quantity == null]). *)
Definition updateCartItem (user productId : ObjectId) (quantity : option Z)
    (st : Store) : Store * Reply CartBody.t :=
  match quantity with
  | None => (st, next (AppError "Quantity must be between 0 and 100" 400))
  | Some quantity =>
  if (quantity <? 0) || (100 <? quantity)
  then (st, next (AppError "Quantity must be between 0 and 100" 400))
  else
  match carts st !! user with
  | None => (st, next (AppError "Cart not found" 404))
  | Some cart =>
  let refusal :=
    if 0 <? quantity then
      match Product_findOne_active productId st with
      | None => Some (AppError "Product not found" 404)
      | Some product =>
          if Product.quantity product <? quantity
          then Some (AppError
                 ("Only " +:+ show_Z (Product.quantity product)
                  +:+ " items available in stock") 400)
          else None
      end
    else None in
  match refusal with
  | Some e => (st, next e)
  | None =>
  match Cart_updateItemQuantity user productId quantity cart st with
  | inl e => (st, next e)
  | inr (cart', st') => (st', cart_reply st' cart')
  end end end end.

(** [removeFromCart]. *)
Definition removeFromCart (user productId : ObjectId) (st : Store)
  : Store * Reply CartBody.t :=
  match carts st !! user with
  | None => (st, next (AppError "Cart not found" 404))
  | Some cart =>
  match Cart_removeItem user productId cart st with
  | inl e => (st, next e)
  | inr (cart', st') => (st', cart_reply st' cart')
  end end.

(** [clearCart]. *)
Definition clearCart (user : ObjectId) (st : Store) : Store * Reply CartBody.t :=
  match carts st !! user with
  | None => (st, next (AppError "Cart not found" 404))
  | Some cart =>
  match Cart_clear user st with
  | inl e => (st, next e)
  | inr (_, st') => (st', json 200 (CartBody.mk [] 0 0))
  end end.

(** A cart line after [populate] with [match: { status: "active" }]: the
    product is [None] when it is missing or not active. *)
Definition populate_active (st : Store) (item : CartItem.t) : PopulatedItem.t :=
  PopulatedItem.mk (CartItem.product item)
    (Product_findOne_active (CartItem.product item) st)
    (CartItem.quantity item).

(** [item.product && item.product.status === "active"]. *)
Definition line_is_active (item : PopulatedItem.t) : bool :=
  match PopulatedItem.product item with
  | Some p => String.eqb (Product.status p) "active"
  | None => false
  end.

(** The lines [getCart] and [getCartSummary] keep. *)
Definition active_lines (st : Store) (items : list CartItem.t) : list CartItem.t :=
  List.filter (fun item => line_is_active (populate_active st item)) items.

(** [getCart].  The cart is written back when the filter has changed it
    ([cart.isModified()]), that is when it has dropped a line. *)
Definition getCart (user : ObjectId) (st : Store) : Store * Reply CartBody.t :=
  match Cart_getOrCreate user st with
  | inl e => (st, next e)
  | inr (cart, st1) =>
  let items := active_lines st1 (Cart.items cart) in
  let isModified := negb (Nat.eqb (length items) (length (Cart.items cart))) in
  let saved := if isModified then Cart_save user (Cart.mk items) st1 else inr st1 in
  match saved with
  | inl e => (st1, next e)
  | inr st2 =>
  match reduce_totalPrice (map (populate_active st1) items) with
  | None => (st2, next (Error "Cannot read properties of null (reading 'price')"))
  | Some totalPrice =>
      (st2, json 200 (CartBody.mk items (reduce_totalItems items) totalPrice))
  end end end.

Module CartSummary.
Record t := mk {
  totalItems : Z;
  totalPrice : Q;
  itemCount : nat
}.
End CartSummary.

(** [getCartSummary]: it reads the cart and writes nothing. *)
Definition getCartSummary (user : ObjectId) (st : Store)
  : Store * Reply CartSummary.t :=
  match carts st !! user with
  | None => (st, json 200 (CartSummary.mk 0 0 0))
  | Some cart =>
  let items := active_lines st (Cart.items cart) in
  match reduce_totalPrice (map (populate_active st) items) with
  | None => (st, next (Error "Cannot read properties of null (reading 'price')"))
  | Some totalPrice =>
      (st, json 200 (CartSummary.mk (reduce_totalItems items) totalPrice (length items)))
  end end.

(** Every stored cart passes schema validation: each line has a quantity
    from 1 to 100. *)
Definition carts_valid (st : Store) : Prop :=
  forall user cart, carts st !! user = Some cart -> Cart.validate cart = true.

(** No stored cart has two lines for one product. *)
Definition carts_distinct (st : Store) : Prop :=
  forall user cart, carts st !! user = Some cart ->
    List.NoDup (map CartItem.product (Cart.items cart)).

(** The products of the lines of every stored cart are in the catalog. *)
Definition carts_resolved (st : Store) : Prop :=
  forall user, cart_products_present st user.

(** The cart [addItem] builds on a populated cart, where its search finds
    no line: a new line is appended. *)
Definition with_added (productId : ObjectId) (quantity : Z) (c : Cart.t) : Cart.t :=
  Cart.mk (Cart.items c ++ [CartItem.mk productId quantity]).

(** The edit of [addToCart]: a line appended, whether the cart has a line
    for the product or not. *)
Definition cart_push (c c' : Cart.t) : Prop :=
  exists pid q, c' = with_added pid q c.

(** The edits that give a cart no second line for a product: a line
    appended for a product the cart has no line for, the quantity of the
    first line of a product set, or lines filtered out. *)
Definition cart_edit (c c' : Cart.t) : Prop :=
  (exists pid q, Cart_findItem pid c = None /\ c' = with_added pid q c)
  \/ (exists pid q, c' = Cart.mk (set_line_quantity pid q (Cart.items c)))
  \/ (exists keep, c' = Cart.mk (List.filter keep (Cart.items c))).

(** The carts a handler can leave behind: the carts it found, those with
    an empty cart made for a user who had none, or those with the cart of
    the user replaced by a valid cart that [P] relates to the cart the
    user had (the empty cart when there was none). *)
Definition carts_step (P : Cart.t -> Cart.t -> Prop) (user : ObjectId)
    (st st' : Store) : Prop :=
  carts st' = carts st
  \/ carts st' = <[user := Cart.mk []]> (carts st) /\ carts st !! user = None
  \/ exists c',
       Cart.validate c' = true
       /\ P (default (Cart.mk []) (carts st !! user)) c'
       /\ carts st' = <[user := c']> (carts st).

(** No product has a negative quantity on hand. *)
Definition stock_nonneg (st : Store) : Prop :=
  forall pid p, products st !! pid = Some p -> 0 <= Product.quantity p.

(** ** Order and payment controllers: the handlers that read *)

(** [getOrder].  The reply is the order of the user. *)
Definition getOrder (user id : ObjectId) (st : Store) : Store * Reply Order.t :=
  match Order_findOne id user st with
  | None => (st, next (AppError "Order not found" 404))
  | Some order => (st, json 200 order)
  end.

Module PaymentStatus.
Record t := mk {
  orderId : ObjectId;
  status : string;
  method : string;
  transactionId : option string;
  amount : Q;
  orderStatus : string
}.
End PaymentStatus.

(** [getPaymentStatus]. *)
Definition getPaymentStatus (user orderId : ObjectId) (st : Store)
  : Store * Reply PaymentStatus.t :=
  match Order_findOne orderId user st with
  | None => (st, next (AppError "Order not found" 404))
  | Some order =>
      (st, json 200
             (PaymentStatus.mk orderId (Order.paymentStatus order)
                (Order.paymentMethod order) (Order.paymentTransactionId order)
                (Order.total order) (Order.status order)))
  end.

(** ** Admin controller: [revokeProduct] and [reactivateProduct] *)

Definition Product_set_status (s : string) (p : Product.t) : Product.t :=
  Product.mk (Product.name p) (Product.description p) (Product.price p)
    (Product.quantity p) (Product.category p) s.

(** [Product.findByIdAndUpdate(id, { status }, { new: true })]: the updated
    product, or [None] (JavaScript [null]) for an unknown id; an update in
    place that runs no validator. *)
Definition Product_findByIdAndUpdate_status (id : ObjectId) (status : string)
    (st : Store) : option Product.t * Store :=
  match products st !! id with
  | Some p =>
      let p' := Product_set_status status p in
      (Some p', set_products (<[id := p']> (products st)) st)
  | None => (None, st)
  end.

(** [revokeProduct].  The body of the 404 has a message and no product. *)
Definition revokeProduct (id : ObjectId) (st : Store)
  : Store * Reply (option Product.t) :=
  match Product_findByIdAndUpdate_status id "revoked" st with
  | (None, st') => (st', json 404 None)
  | (Some product, st') => (st', json 200 (Some product))
  end.

(** [reactivateProduct]. *)
Definition reactivateProduct (id : ObjectId) (st : Store)
  : Store * Reply (option Product.t) :=
  match Product_findByIdAndUpdate_status id "active" st with
  | (None, st') => (st', json 404 None)
  | (Some product, st') => (st', json 200 (Some product))
  end.

(** ** Admin controller: [sanitizeFileNameHint]

    The hint is a string; the empty string is the falsy value that the
    [|| "image"] replaces.  Characters are bytes, so a character outside
    ASCII is a run of bytes outside [[a-z0-9]]. *)

(** The class [[a-z0-9]]. *)
Definition is_alnum (c : ascii) : bool :=
  let n := N_of_ascii c in
  (((97 <=? n) && (n <=? 122)) || ((48 <=? n) && (n <=? 57)))%N.

Definition is_dash (c : ascii) : bool := Ascii.eqb c "-"%char.

(** [s.replace(/[p]+/g, "-")]: every maximal run of characters of the
    class [p] becomes one ["-"]; [in_run] tells that the character before
    was of the class. *)
Fixpoint replace_runs (p : ascii -> bool) (in_run : bool) (s : string) : string :=
  match s with
  | EmptyString => EmptyString
  | String c s' =>
      if p c
      then if in_run then replace_runs p true s'
           else String "-" (replace_runs p true s')
      else String c (replace_runs p false s')
  end.

(** The [^-+] alternative of [replace(/^-+|-+$/g, "")]. *)
Fixpoint strip_leading (s : string) : string :=
  match s with
  | String c s' => if is_dash c then strip_leading s' else s
  | EmptyString => EmptyString
  end.

(** The [-+$] alternative: the dashes after which only dashes follow go. *)
Fixpoint strip_trailing (s : string) : string :=
  match s with
  | EmptyString => EmptyString
  | String c s' =>
      let rest := strip_trailing s' in
      if is_dash c && String.eqb rest "" then EmptyString else String c rest
  end.

(** [sanitizeFileNameHint]. *)
Definition sanitizeFileNameHint (fileNameHint : string) : string :=
  let lowered :=
    toLowerCase (if String.eqb fileNameHint "" then "image" else fileNameHint) in
  let replaced :=
    strip_trailing
      (strip_leading
         (replace_runs is_dash false
            (replace_runs (fun c => negb (is_alnum c)) false lowered))) in
  if String.eqb replaced "" then "image" else replaced.

Definition starts_dash (s : string) : bool :=
  match s with
  | String c _ => is_dash c
  | EmptyString => false
  end.

Fixpoint ends_dash (s : string) : bool :=
  match s with
  | EmptyString => false
  | String c EmptyString => is_dash c
  | String _ s' => ends_dash s'
  end.

Fixpoint no_double_dash (s : string) : bool :=
  match s with
  | String c s' => negb (is_dash c && starts_dash s') && no_double_dash s'
  | EmptyString => true
  end.

Fixpoint all_chars (p : ascii -> bool) (s : string) : bool :=
  match s with
  | String c s' => p c && all_chars p s'
  | EmptyString => true
  end.

(** A public-id hint as the upload wants it: not empty, made of
    [a-z], [0-9] and ["-"], with no dash at either end and no two dashes
    in a row. *)
Definition is_slug (s : string) : bool :=
  negb (String.eqb s "")
  && all_chars (fun c => is_alnum c || is_dash c) s
  && negb (starts_dash s) && negb (ends_dash s) && no_double_dash s.

(** ** Order controller: [getOrderStats] *)

Module OrderStats.
Record t := mk {
  totalOrders : Z;
  totalSpent : Q;
  pendingOrders : Z;
  deliveredOrders : Z;
  cancelledOrders : Z
}.
End OrderStats.

(** The [$match] stage: the orders of the user, in the order of the
    collection scan. *)
Definition match_user (user : ObjectId) (st : Store) : list Order.t :=
  List.filter (fun o => N.eqb (Order.user o) user)
    (map snd (map_to_list (orders st))).

(** [{ $sum: { $cond: [{ $eq: ["$status", s] }, 1, 0] } }]. *)
Definition sum_cond_status (s : string) (docs : list Order.t) : Z :=
  fold_right
    (fun o acc => (if String.eqb (Order.status o) s then 1 else 0) + acc) 0 docs.

(** [{ $sum: "$total" }]. *)
Definition sum_total (docs : list Order.t) : Q :=
  fold_right (fun o acc => (Order.total o + acc)%Q) 0%Q docs.

(** The [$group] stage with [_id: null]: one document for all the orders
    that reach it, and none when none does. *)
Definition group_stats (docs : list Order.t) : list OrderStats.t :=
  match docs with
  | [] => []
  | _ =>
      [OrderStats.mk (fold_right (fun _ acc => 1 + acc) 0 docs)
         (sum_total docs)
         (sum_cond_status "pending" docs)
         (sum_cond_status "delivered" docs)
         (sum_cond_status "cancelled" docs)]
  end.

(** [getOrderStats]. *)
Definition getOrderStats (user : ObjectId) (st : Store)
  : Store * Reply OrderStats.t :=
  let stats := group_stats (match_user user st) in
  let result := default (OrderStats.mk 0 0 0 0 0) (head stats) in
  (st, json 200 result).

(** ** Admin controller: [deleteProduct] *)

(** [deleteProduct]: [Product.findByIdAndDelete(id)] and a message. *)
Definition deleteProduct (id : ObjectId) (st : Store) : Store * Reply unit :=
  match products st !! id with
  | None => (st, json 404 tt)
  | Some _ => (set_products (delete id (products st)) st, json 200 tt)
  end.

(** ** Order model: [updateStatus] *)

Definition Order_set_deliveredAt (d : option Date) (o : Order.t) : Order.t :=
  Order.mk (Order.user o) (Order.items o) (Order.shippingAddress o)
    (Order.status o) (Order.paymentStatus o) (Order.paymentMethod o)
    (Order.subtotal o) (Order.shippingCost o) (Order.tax o) (Order.total o)
    (Order.notes o) (Order.createdAt o) d.

(** An assignment to [notes], through the [trim] setter of the path. *)
Definition Order_set_notes (n : string) (o : Order.t) : Order.t :=
  Order.mk (Order.user o) (Order.items o) (Order.shippingAddress o)
    (Order.status o) (Order.paymentStatus o) (Order.paymentMethod o)
    (Order.subtotal o) (Order.shippingCost o) (Order.tax o) (Order.total o)
    (trim n) (Order.createdAt o) (Order.deliveredAt o).

(** The line feed of the template literal. *)
Definition newline : string := String (ascii_of_nat 10) EmptyString.

(** [OrderSchema.methods.updateStatus] on the order stored under [id].
    It also stamps [cancelledAt] and [cancellationReason], which nothing
    reads and the record does not have. *)
Definition Order_updateStatus (now : Date) (id : ObjectId)
    (newStatus notes : string) (o : Order.t) (st : Store)
  : Exn + (Order.t * Store) :=
  let o := Order.set_status newStatus o in
  let o :=
    if String.eqb newStatus "delivered"
    then Order.set_paymentStatus "paid" (Order_set_deliveredAt (Some now) o)
    else o in
  let o :=
    if negb (String.eqb notes "") && negb (String.eqb newStatus "cancelled")
    then Order_set_notes
           (if String.eqb (Order.notes o) "" then notes
            else Order.notes o +:+ newline +:+ notes) o
    else o in
  match Order_save id o st with
  | inl e => inl e
  | inr st' => inr (o, st')
  end.

(** ** Auth controller: the verification of the e-mail address

    The users are a collection of their own, indexed by the unique
    [email] path, which is stored trimmed and in lower case.  The paths
    below are those the two handlers read or write; the documents in the
    collection have passed validation when they were registered, and the
    handlers assign values that validate, so their [save()] writes. *)

Module User.
Record t := mk {
  username : string;
  email : string;
  status : string;
  isEmailVerified : bool;
  emailVerificationOTP : option string;
  otpExpires : option Date
}.
End User.

(** [generateOTP]: [Math.floor(100000 + Math.random() * 900000).toString()]. *)
Definition generateOTP (random : Q) : string :=
  show_Z (Qfloor (100000 + random * 900000)).

(** [email.toLowerCase().trim()]. *)
Definition normalize_email (email : string) : string := trim (toLowerCase email).

(** Ten minutes, in milliseconds. *)
Definition otp_period : Z := 10 * 60 * 1000.

(** [verifyEmail].  [now] is [Date.now()]; the reply is the user, to which
    the handler adds a token. *)
Definition verifyEmail (now : Date) (email otp : string) (users : gmap string User.t)
  : gmap string User.t * Reply User.t :=
  if String.eqb email "" || String.eqb otp ""
  then (users, next (AppError "Email and OTP are required" 400))
  else
  match users !! normalize_email email with
  | None => (users, next (AppError "User not found" 404))
  | Some user =>
  if User.isEmailVerified user
  then (users, next (AppError "Email is already verified. Please login." 400))
  else if negb (bool_decide (User.emailVerificationOTP user = Some otp))
  then (users, next (AppError "Invalid OTP" 400))
  else if match User.otpExpires user with
          | Some otpExpires => otpExpires <? now
          | None => false
          end
  then (users, next (AppError "OTP has expired. Please request a new one." 400))
  else
  let user :=
    User.mk (User.username user) (User.email user) "active" true None None in
  (<[normalize_email email := user]> users, json 200 user)
  end.

(** [resendOTP].  [random] is the [Math.random()] of [generateOTP] and
    [sent] tells whether [sendOTPEmail] went through; the new code is
    saved before the e-mail is sent. *)
Definition resendOTP (now : Date) (random : Q) (sent : bool) (email : string)
    (users : gmap string User.t) : gmap string User.t * Reply unit :=
  if String.eqb email ""
  then (users, next (AppError "Email is required" 400))
  else
  match users !! normalize_email email with
  | None => (users, next (AppError "User not found" 404))
  | Some user =>
  if User.isEmailVerified user
  then (users, next (AppError "Email is already verified. Please login." 400))
  else
  let otp := generateOTP random in
  let otpExpires := now + otp_period in
  let user :=
    User.mk (User.username user) (User.email user) (User.status user)
      (User.isEmailVerified user) (Some otp) (Some otpExpires) in
  let users' := <[normalize_email email := user]> users in
  if sent
  then (users', json 200 tt)
  else (users', next (AppError "Failed to send verification email" 500))
  end.

(** A user registered and waiting for the code sent at time 0. *)
Definition sample_users : gmap string User.t :=
  {[ "ali@example.com"%string :=
       User.mk "ali" "ali@example.com" "pending" false
         (Some "123456"%string) (Some otp_period) ]}.

(** ** Product model: the [discountPercentage] virtual *)

(** [discountPercentage], of the two paths it reads.  [originalPrice] is
    [None] when the product has none; a number is falsy when it is 0. *)
Definition discountPercentage (originalPrice : option Q) (price : Q) : Q :=
  match originalPrice with
  | Some originalPrice =>
      if negb (Qeq_bool originalPrice 0) && Qlt_bool price originalPrice
      then Math_round ((originalPrice - price) / originalPrice * 100)
      else 0%Q
  | None => 0%Q
  end.

(** * Properties *)

(** ** Auxiliary facts *)

Lemma Qlt_bool_true (a b : Q) : Qlt_bool a b = true <-> (a < b)%Q.
Proof.
  unfold Qlt_bool. rewrite negb_true_iff.
  split.
  - intros H. apply Qnot_le_lt. intros Hle.
    apply Qle_bool_iff in Hle. congruence.
  - intros H. destruct (Qle_bool b a) eqn:E; [|reflexivity].
    apply Qle_bool_iff in E. exfalso. exact (Qlt_not_le _ _ H E).
Qed.

Lemma Qlt_bool_false (a b : Q) : Qlt_bool a b = false <-> (b <= a)%Q.
Proof.
  unfold Qlt_bool. rewrite negb_false_iff. apply Qle_bool_iff.
Qed.

Lemma minQ_0 (x : Q) : minQ 0 x = true <-> (0 <= x)%Q.
Proof. unfold minQ. apply Qle_bool_iff. Qed.

Lemma inject_Z_nonneg (z : Z) : 0 <= z -> (0 <= inject_Z z)%Q.
Proof. intros H. change 0%Q with (inject_Z 0). by rewrite <- Zle_Qle. Qed.

Lemma includes_In (l : list string) (s : string) :
  includes l s = true <-> In s l.
Proof.
  unfold includes. rewrite existsb_exists. split.
  - intros (x & Hx & E). apply String.eqb_eq in E. by subst.
  - intros H. exists s. split; [done|]. apply String.eqb_refl.
Qed.

Lemma prefix_append (s t : string) : String.prefix s (s +:+ t) = true.
Proof.
  induction s as [|c s IH]; simpl.
  - by destruct t.
  - destruct (ascii_dec c c); [exact IH | done].
Qed.

Lemma prefix_refl (s : string) : String.prefix s s = true.
Proof.
  induction s as [|c s IH]; simpl; [done|].
  destruct (ascii_dec c c); [exact IH | done].
Qed.

Lemma Math_round_nearest (x : Q) :
  (x - (1 # 2) < Math_round x /\ Math_round x <= x + (1 # 2))%Q.
Proof.
  unfold Math_round. split.
  - pose proof (Qlt_floor (x + (1 # 2))) as H.
    assert (E : (inject_Z (Qfloor (x + (1 # 2)) + 1)
                 == inject_Z (Qfloor (x + (1 # 2))) + 1)%Q)
      by (rewrite inject_Z_plus; reflexivity).
    rewrite E in H.
    apply Qplus_lt_l with (z := 1%Q).
    eapply Qle_lt_trans; [|exact H].
    apply Qle_lteq. right. ring.
  - apply Qfloor_le.
Qed.

Lemma Math_round_nonneg (x : Q) : (0 <= x)%Q -> (0 <= Math_round x)%Q.
Proof.
  intros H. unfold Math_round. apply inject_Z_nonneg.
  change 0 with (Qfloor 0). apply Qfloor_resp_le.
  rewrite <- (Qplus_0_r 0). apply Qplus_le_compat; [exact H | discriminate].
Qed.

(** ** The total check of [order.save()] *)

Lemma total_mismatch_false (o : Order.t) :
  Order.total_mismatch o = false <-> totals_consistent o.
Proof. unfold Order.total_mismatch, totals_consistent. apply Qlt_bool_false. Qed.

Lemma total_mismatch_true (o : Order.t) :
  Order.total_mismatch o = true <-> ~ totals_consistent o.
Proof.
  rewrite <- total_mismatch_false.
  destruct (Order.total_mismatch o); split; congruence.
Qed.

Lemma totals_consistent_sum (o : Order.t) :
  Order.total o = (Order.subtotal o + Order.shippingCost o + Order.tax o)%Q ->
  totals_consistent o.
Proof.
  intros E. unfold totals_consistent. rewrite E.
  assert (Hz : (Order.subtotal o + Order.shippingCost o + Order.tax o
                - (Order.subtotal o + Order.shippingCost o + Order.tax o) == 0)%Q)
    by ring.
  rewrite Hz. discriminate.
Qed.

Lemma Order_save_inr (id : ObjectId) (o : Order.t) (st st' : Store) :
  Order_save id o st = inr st' ->
  Order.validate o = true /\ totals_consistent o
  /\ st' = set_orders (<[id := o]> (orders st)) st.
Proof.
  unfold Order_save.
  destruct (Order.validate o); simpl; [|discriminate].
  destruct (Order.total_mismatch o) eqn:Hm; [discriminate|].
  intros [= <-]. by apply total_mismatch_false in Hm.
Qed.

Lemma Order_save_ok (id : ObjectId) (o : Order.t) (st : Store) :
  Order.validate o = true -> totals_consistent o ->
  Order_save id o st = inr (set_orders (<[id := o]> (orders st)) st).
Proof.
  intros Hv Ht. unfold Order_save. rewrite Hv. simpl.
  apply total_mismatch_false in Ht. by rewrite Ht.
Qed.

(** [C3] Every save of an order checks the totals.  A save that goes
    through was given an order with [subtotal + shippingCost + tax] within
    0.01 of [total], and it stores the order as given, totals included,
    touching no other order.  A save of an order whose totals differ by
    more than 0.01 fails with an error and writes nothing; when the order
    passes schema validation the error is the one of the hook.  So a
    store in which every order is within the tolerance stays so under
    every save. *)
Theorem Order_save_checks_totals (id : ObjectId) (o : Order.t) (st : Store) :
  (forall st', Order_save id o st = inr st' ->
     totals_consistent o
     /\ orders st' !! id = Some o
     /\ (forall id', id' <> id -> orders st' !! id' = orders st !! id')
     /\ products st' = products st /\ carts st' = carts st)
  /\ (~ totals_consistent o -> exists e, Order_save id o st = inl e)
  /\ (~ totals_consistent o -> Order.validate o = true ->
      Order_save id o st
      = inl (Error "Order total does not match calculated total"))
  /\ (orders_sound st ->
      forall st', Order_save id o st = inr st' -> orders_sound st').
Proof.
  split; [|split; [|split]].
  - intros st' H. apply Order_save_inr in H as (_ & Ht & ->). simpl.
    split; [done|]. split; [apply lookup_insert_eq|].
    split; [|done]. intros id' Hne. by apply lookup_insert_ne.
  - intros Hn. apply total_mismatch_true in Hn. unfold Order_save.
    destruct (negb (Order.validate o)); [by eauto|]. rewrite Hn. by eauto.
  - intros Hn Hv. apply total_mismatch_true in Hn. unfold Order_save.
    by rewrite Hv, Hn.
  - intros Hs st' H. apply Order_save_inr in H as (Hv & Ht & ->).
    intros id' o'. simpl. destruct (decide (id = id')) as [->|Hne].
    + rewrite lookup_insert_eq. by intros [= <-].
    + rewrite lookup_insert_ne by done. apply Hs.
Qed.

(** Validation reads the setters' target paths only through the enums. *)
Ltac validate_fields :=
  unfold Order.validate;
  cbn [Order.set_paymentStatus Order.set_status Order.set_paymentMethod
       Order.items Order.shippingAddress Order.status Order.paymentStatus
       Order.paymentMethod Order.subtotal Order.shippingCost Order.tax
       Order.total Order.notes];
  rewrite !andb_true_iff;
  let H := fresh "H" in
  intros H; repeat split; try apply H; try reflexivity.

Lemma validate_cancelled (o : Order.t) :
  Order.validate o = true ->
  Order.validate
    (Order.set_paymentStatus "refunded" (Order.set_status "cancelled" o)) = true.
Proof. validate_fields. Qed.

Lemma validate_refunded (o : Order.t) :
  Order.validate o = true ->
  Order.validate
    (Order.set_status "refunded" (Order.set_paymentStatus "refunded" o))
  = true.
Proof. validate_fields. Qed.

Lemma validate_paid (method : string) (o : Order.t) :
  includes Order.paymentMethod_enum method = true ->
  Order.validate o = true ->
  Order.validate
    (Order.set_paymentMethod method (Order.set_paymentStatus "paid" o))
  = true
  /\ Order.validate
       (Order.set_status "confirmed"
          (Order.set_paymentMethod method (Order.set_paymentStatus "paid" o)))
     = true.
Proof. intros Hm. validate_fields; exact Hm. Qed.

Lemma Order_findOne_Some (id user : ObjectId) (st : Store) (o : Order.t) :
  Order_findOne id user st = Some o <->
  orders st !! id = Some o /\ Order.user o = user.
Proof.
  unfold Order_findOne. destruct (orders st !! id) as [o0|].
  - destruct (N.eqb_spec (Order.user o0) user) as [Hu|Hu].
    + split; [by intros [= ->] | by intros [[= ->] _]].
    + split; [discriminate | intros [[= ->] Hu']; by destruct Hu].
  - split; [discriminate | by intros [? _]].
Qed.

(** ** Updates of the quantities on hand *)

Lemma Product_inc_quantity_lookup (id pid : ObjectId) (d : Z) (st : Store) :
  products (Product_inc_quantity id d st) !! pid
  = (fun p => Product.set_quantity
                (Product.quantity p + (if N.eqb id pid then d else 0)) p)
    <$> products st !! pid.
Proof.
  unfold Product_inc_quantity. simpl.
  destruct (N.eqb_spec id pid) as [->|Hne].
  - by rewrite lookup_alter_eq.
  - rewrite lookup_alter_ne by done.
    destruct (products st !! pid) as [p|]; [|done].
    simpl. f_equal. destruct p. unfold Product.set_quantity. simpl.
    f_equal. lia.
Qed.

Lemma restore_quantities_lookup (items : list OrderItem.t) (st : Store)
    (pid : ObjectId) :
  products (restore_quantities items st) !! pid
  = (fun p => Product.set_quantity
                (Product.quantity p + ordered_quantity pid items) p)
    <$> products st !! pid.
Proof.
  revert st. induction items as [|i items IH]; intros st.
  - simpl. destruct (products st !! pid) as [p|]; [|done].
    simpl. f_equal. destruct p. unfold Product.set_quantity. simpl.
    f_equal. lia.
  - unfold restore_quantities in *. simpl. rewrite IH.
    rewrite Product_inc_quantity_lookup.
    destruct (products st !! pid) as [p|]; [|done].
    simpl. f_equal. unfold Product.set_quantity. simpl. f_equal.
    destruct (N.eqb (OrderItem.product i) pid); lia.
Qed.

Lemma restore_quantities_others (items : list OrderItem.t) (st : Store) :
  orders (restore_quantities items st) = orders st
  /\ carts (restore_quantities items st) = carts st.
Proof.
  revert st. induction items as [|i items IH]; intros st; [done|].
  unfold restore_quantities in *. simpl.
  destruct (IH (Product_inc_quantity (OrderItem.product i)
                  (OrderItem.quantity i) st)) as [-> ->].
  done.
Qed.

Lemma reduce_quantities_lookup (st0 st : Store) (items : list CartItem.t)
    (pid : ObjectId) :
  products (reduce_quantities (map (populate st0) items) st) !! pid
  = (fun p => Product.set_quantity
                (Product.quantity p - cart_units pid items) p)
    <$> products st !! pid.
Proof.
  revert st. induction items as [|i items IH]; intros st.
  - simpl. destruct (products st !! pid) as [p|]; [|done].
    simpl. f_equal. destruct p. unfold Product.set_quantity. simpl.
    f_equal. lia.
  - unfold reduce_quantities in *. simpl. rewrite IH.
    rewrite Product_inc_quantity_lookup.
    destruct (products st !! pid) as [p|]; [|done].
    simpl. f_equal. unfold Product.set_quantity. simpl. f_equal.
    destruct (N.eqb (CartItem.product i) pid); lia.
Qed.

Lemma reduce_quantities_others (items : list PopulatedItem.t) (st : Store) :
  orders (reduce_quantities items st) = orders st
  /\ carts (reduce_quantities items st) = carts st.
Proof.
  revert st. induction items as [|i items IH]; intros st; [done|].
  unfold reduce_quantities in *. simpl.
  destruct (IH (Product_inc_quantity (PopulatedItem.ref i)
                  (- PopulatedItem.quantity i) st)) as [-> ->].
  done.
Qed.

(** ** Checkout: the availability loop *)

Lemma unavailable_entry_None (st : Store) (item : CartItem.t) :
  offending st item = false ->
  unavailable_entry (populate st item) = None.
Proof.
  unfold offending, unavailable_entry, populate. simpl.
  destruct (products st !! CartItem.product item) as [p|]; [|done].
  intros H. apply orb_false_iff in H as [H1 H2].
  by rewrite H1, H2.
Qed.

Lemma unavailable_entry_Some (st : Store) (item : CartItem.t) :
  offending st item = true ->
  exists entry, unavailable_entry (populate st item) = Some entry
                /\ names_product st item entry.
Proof.
  unfold offending, unavailable_entry, names_product, populate. simpl.
  destruct (products st !! CartItem.product item) as [p|]; [|by eauto].
  intros H.
  destruct (negb (String.eqb (Product.status p) "active")) eqn:Hs.
  - eexists. split; [reflexivity|].
    destruct (String.eqb (Product.name p) "") eqn:Hn; [|apply prefix_refl].
    apply String.eqb_eq in Hn. by rewrite Hn.
  - simpl in H. rewrite H. eexists. split; [reflexivity|].
    apply prefix_append.
Qed.

Lemma unavailableProducts_names (st : Store) (items : list CartItem.t) :
  Forall2 (names_product st) (List.filter (offending st) items)
    (unavailableProducts (map (populate st) items)).
Proof.
  induction items as [|item items IH]; simpl; [constructor|].
  destruct (offending st item) eqn:Ho.
  - destruct (unavailable_entry_Some st item Ho) as (entry & He & Hn).
    unfold unavailableProducts in *. simpl. rewrite He. by constructor.
  - unfold unavailableProducts in *. simpl.
    by rewrite (unavailable_entry_None st item Ho).
Qed.

Lemma unavailableProducts_nil (st : Store) (items : list CartItem.t) :
  (forall item, In item items -> offending st item = false) ->
  unavailableProducts (map (populate st) items) = [].
Proof.
  induction items as [|i items IH]; intros H; [done|].
  unfold unavailableProducts in *. simpl.
  rewrite (unavailable_entry_None st i) by (apply H; by left).
  apply IH. intros item Hin. apply H. by right.
Qed.

Lemma not_offending (st : Store) (item : CartItem.t) :
  offending st item = false ->
  exists p, products st !! CartItem.product item = Some p
            /\ Product.status p = "active"%string
            /\ CartItem.quantity item <= Product.quantity p.
Proof.
  unfold offending.
  destruct (products st !! CartItem.product item) as [p|]; [|discriminate].
  intros H. apply orb_false_iff in H as [Hs Hq].
  apply negb_false_iff, String.eqb_eq in Hs. apply Z.ltb_ge in Hq.
  by exists p.
Qed.

(** [C1] A checkout of a cart that has a line for a product that is
    missing, not active, or short of stock fails and leaves the store as
    it was given: no order is created, no quantity on hand changes and
    the cart keeps its lines.  Once the shipping address has passed its
    check, the failure is [InsufficientInventory]; the message has one
    entry for every offending line, in the order of the cart, and the
    entry names the product of its line.  A request without a complete
    address is turned down before the cart is read. *)
Theorem createOrder_insufficient_inventory
    (now : Date) (newId user : ObjectId) (body : CreateOrder.body)
    (st : Store) (cart : Cart.t) :
  carts st !! user = Some cart ->
  (exists item, In item (Cart.items cart) /\ offending st item = true) ->
  (exists e, createOrder now newId user body st = (st, next e))
  /\ orders (fst (createOrder now newId user body st)) = orders st
  /\ products (fst (createOrder now newId user body st)) = products st
  /\ carts (fst (createOrder now newId user body st)) !! user = Some cart
  /\ (address_complete (CreateOrder.shippingAddress body) = true ->
      exists names,
        createOrder now newId user body st
        = (st, next (InsufficientInventory names))
        /\ Forall2 (names_product st)
             (List.filter (offending st) (Cart.items cart)) names)
  /\ (address_complete (CreateOrder.shippingAddress body) = false ->
      createOrder now newId user body st
      = (st, next (AppError "Complete shipping address is required" 400))).
Proof.
  intros Hcart (item & Hin & Hoff).
  pose proof (unavailableProducts_names st (Cart.items cart)) as Hnames.
  assert (Hne : List.filter (offending st) (Cart.items cart) <> []).
  { intros E. assert (In item (List.filter (offending st) (Cart.items cart)))
      as Hf by (apply filter_In; done).
    rewrite E in Hf. destruct Hf. }
  assert (Hfull : address_complete (CreateOrder.shippingAddress body) = true ->
    createOrder now newId user body st
    = (st, next (InsufficientInventory
                   (unavailableProducts (map (populate st) (Cart.items cart)))))).
  { intros Haddr. unfold createOrder.
    destruct (CreateOrder.shippingAddress body) as [address|] eqn:Ha;
      [|discriminate Haddr].
    rewrite Haddr. simpl negb. cbv iota.
    rewrite Hcart.
    destruct (Cart.items cart) as [|i0 rest] eqn:Hitems; [destruct Hin|].
    cbn [length Nat.eqb].
    destruct (unavailableProducts (map (populate st) (i0 :: rest)))
      as [|n ns] eqn:Hu.
    - exfalso. apply Hne. by eapply Forall2_nil_inv_r.
    - reflexivity. }
  assert (Hpart : address_complete (CreateOrder.shippingAddress body) = false ->
    createOrder now newId user body st
    = (st, next (AppError "Complete shipping address is required" 400))).
  { intros Haddr. unfold createOrder.
    destruct (CreateOrder.shippingAddress body) as [address|]; [|done].
    by rewrite Haddr. }
  assert (Hfail : exists e, createOrder now newId user body st = (st, next e)).
  { destruct (address_complete (CreateOrder.shippingAddress body));
      eexists; [by apply Hfull | by apply Hpart]. }
  destruct Hfail as (e & He).
  split; [by exists e|].
  split; [by rewrite He|]. split; [by rewrite He|]. split; [by rewrite He|].
  split; [|exact Hpart].
  intros Haddr. eexists. split; [by apply Hfull | exact Hnames].
Qed.

(** A checkout with a complete address and no cart line fails with
    [EmptyCart] and leaves the store as it was. *)
Lemma createOrder_empty_cart
    (now : Date) (newId user : ObjectId) (body : CreateOrder.body) (st : Store) :
  address_complete (CreateOrder.shippingAddress body) = true ->
  carts st !! user = None \/ carts st !! user = Some (Cart.mk []) ->
  createOrder now newId user body st = (st, next EmptyCart).
Proof.
  intros Haddr Hcart. unfold createOrder.
  destruct (CreateOrder.shippingAddress body) as [address|];
    [|discriminate Haddr].
  rewrite Haddr. simpl negb. cbv iota.
  by destruct Hcart as [-> | ->].
Qed.

(** ** Checkout: the created order *)

Lemma reduce_totalPrice_None (items : list PopulatedItem.t) :
  fold_left
    (fun total item =>
       match total, PopulatedItem.product item with
       | Some total, Some p =>
           Some (total + Product.price p * inject_Z (PopulatedItem.quantity item))%Q
       | _, _ => None
       end)
    items None = None.
Proof. induction items as [|i items IH]; simpl; [done | exact IH]. Qed.

Lemma reduce_totalPrice_Some (st : Store) (items : list CartItem.t) (a : Q) :
  lines_orderable st items -> (0 <= a)%Q ->
  exists s,
    fold_left
      (fun total item =>
         match total, PopulatedItem.product item with
         | Some total, Some p =>
             Some (total + Product.price p * inject_Z (PopulatedItem.quantity item))%Q
         | _, _ => None
         end)
      (map (populate st) items) (Some a) = Some s
    /\ (0 <= s)%Q.
Proof.
  revert a. induction items as [|i items IH]; intros a Hl Ha; simpl.
  - by exists a.
  - destruct (Hl i (or_introl eq_refl)) as (Ho & Hq & Hp).
    destruct (not_offending st i Ho) as (p & Hlook & _).
    rewrite Hlook. apply IH.
    + intros item Hin. apply Hl. by right.
    + rewrite <- (Qplus_0_r 0). apply Qplus_le_compat; [exact Ha|].
      apply Qmult_le_0_compat; [by apply Hp | apply inject_Z_nonneg; lia].
Qed.

Lemma order_items_valid (st : Store) (items : list CartItem.t) :
  lines_orderable st items ->
  forallb OrderItem.validate (order_items (map (populate st) items)) = true
  /\ length (order_items (map (populate st) items)) = length items.
Proof.
  induction items as [|i items IH]; intros Hl; [done|].
  destruct (Hl i (or_introl eq_refl)) as (Ho & Hq & Hp).
  destruct (not_offending st i Ho) as (p & Hlook & _).
  destruct IH as [IH1 IH2]; [intros item Hin; apply Hl; by right|].
  assert (E : order_items (map (populate st) (i :: items))
              = OrderItem.mk (CartItem.product i) (CartItem.quantity i)
                  (Product.price p)
                  (Product.price p * inject_Z (CartItem.quantity i))%Q
                :: order_items (map (populate st) items)).
  { unfold order_items. simpl. by rewrite Hlook. }
  rewrite E. cbn [forallb length]. rewrite IH1, IH2. split; [|done].
  rewrite andb_true_r. unfold OrderItem.validate. simpl.
  rewrite !andb_true_iff. split; [split|].
  - apply Z.leb_le. lia.
  - apply minQ_0. by apply Hp.
  - apply minQ_0. apply Qmult_le_0_compat;
      [by apply Hp | apply inject_Z_nonneg; lia].
Qed.

(** A checkout with a complete, valid address, a payment method of the
    schema, notes of 500 characters or fewer and a cart whose lines are
    all orderable creates the order: the order passes schema validation
    and the total check, it is stored under the new identifier, every
    product loses the units the cart held of it, and the cart is emptied. *)
Lemma createOrder_succeeds
    (now : Date) (newId user : ObjectId) (body : CreateOrder.body)
    (st : Store) (address : ShippingAddress.t) (cart : Cart.t) :
  CreateOrder.shippingAddress body = Some address ->
  address_complete (Some address) = true ->
  ShippingAddress.validate (ShippingAddress.cast address) = true ->
  includes Order.paymentMethod_enum
    (default "cash_on_delivery"%string (CreateOrder.paymentMethod body)) = true ->
  maxlength 500 (trim (default ""%string (CreateOrder.notes body))) = true ->
  carts st !! user = Some cart ->
  Cart.items cart <> [] ->
  lines_orderable st (Cart.items cart) ->
  exists st' order,
    createOrder now newId user body st = (st', json 201 order)
    /\ Order.validate order = true
    /\ totals_consistent order
    /\ orders st' = <[newId := order]> (orders st)
    /\ carts st' = <[user := Cart.mk []]> (carts st)
    /\ (forall pid,
          products st' !! pid
          = (fun p => Product.set_quantity
                        (Product.quantity p - cart_units pid (Cart.items cart)) p)
            <$> products st !! pid).
Proof.
  intros Hbody Hcomplete Haddr Hmethod Hnotes Hcart Hne Hlines.
  unfold createOrder. rewrite Hbody, Hcomplete, Hcart. cbn [negb]. cbv iota.
  assert (Hlen : Nat.eqb (length (Cart.items cart)) 0 = false)
    by (destruct (Cart.items cart); [done | reflexivity]).
  rewrite Hlen.
  rewrite (unavailableProducts_nil st (Cart.items cart))
    by (intros item Hin; apply (Hlines item Hin)).
  cbn [length Nat.ltb Nat.leb].
  destruct (reduce_totalPrice_Some st (Cart.items cart) 0%Q Hlines)
    as (subtotal & Hsub & Hpos); [discriminate|].
  unfold reduce_totalPrice. rewrite Hsub.
  destruct (order_items_valid st (Cart.items cart) Hlines) as [Hitems Hcount].
  set (shippingCost := if Qlt_bool 5000 subtotal then 0%Q else 200%Q).
  set (tax := Math_round (subtotal * (5 # 100))).
  assert (Hship : (0 <= shippingCost)%Q)
    by (unfold shippingCost; destruct (Qlt_bool 5000 subtotal); discriminate).
  assert (Htax : (0 <= tax)%Q).
  { apply Math_round_nonneg. apply Qmult_le_0_compat; [exact Hpos|discriminate]. }
  assert (Htotal : (0 <= subtotal + shippingCost + tax)%Q).
  { rewrite <- (Qplus_0_r 0). apply Qplus_le_compat; [|exact Htax].
    rewrite <- (Qplus_0_r 0). by apply Qplus_le_compat. }
  match goal with
  | |- context [Order_save newId ?o st] => set (order := o)
  end.
  assert (Hvalid : Order.validate order = true).
  { unfold Order.validate, order. cbn [Order.items Order.shippingAddress
      Order.status Order.paymentStatus Order.paymentMethod Order.subtotal
      Order.shippingCost Order.tax Order.total Order.notes].
    rewrite Hitems, Hcount, Haddr, Hmethod, Hnotes.
    apply minQ_0 in Hpos, Hship, Htax, Htotal.
    rewrite Hpos, Hship, Htax, Htotal.
    destruct (Cart.items cart); [done|].
    destruct (String.eqb _ "cash_on_delivery"); reflexivity. }
  assert (Hcons : totals_consistent order)
    by (apply totals_consistent_sum; reflexivity).
  rewrite (Order_save_ok newId order st Hvalid Hcons).
  unfold Cart_save. cbn [Cart.validate Cart.items forallb].
  do 2 eexists. split; [reflexivity|].
  split; [exact Hvalid|]. split; [exact Hcons|].
  cbn [orders carts products set_carts].
  destruct (reduce_quantities_others (map (populate st) (Cart.items cart))
              (set_orders (<[newId:=order]> (orders st)) st)) as [-> ->].
  split; [done|]. split; [done|].
  intros pid. by rewrite reduce_quantities_lookup.
Qed.

(** ** Cancellation *)

Lemma not_cancellable (s : string) :
  s <> "pending"%string -> s <> "confirmed"%string ->
  includes ["pending"; "confirmed"]%string s = false.
Proof.
  intros H1 H2. destruct (includes _ s) eqn:E; [|done].
  apply includes_In in E. simpl in E.
  destruct E as [E|[E|[]]]; congruence.
Qed.

(** The status test of [cancelOrder] is the [canBeCancelled] of the model. *)
Lemma cancelOrder_canBeCancelled (user id : ObjectId) (st : Store) (o : Order.t) :
  Order_findOne id user st = Some o ->
  Order.canBeCancelled o = false ->
  cancelOrder user id st = (st, next InvalidTransition).
Proof.
  intros Hfind Hc. unfold cancelOrder. rewrite Hfind.
  unfold Order.canBeCancelled in Hc. by rewrite Hc.
Qed.

(** [C4] [cancelOrder] answers with success only for an order that is
    pending or confirmed, and an order in any other status, a shipped one
    for instance, is refused with [InvalidTransition] and the store is
    left as it was.  A stored order that is pending or confirmed is
    cancelled.  On success every product has its quantity on hand raised
    by the units the order holds of it, the stored order has status
    cancelled and payment status refunded, and cancelling again is refused
    with [InvalidTransition] without touching the store, so the quantities
    are restored once. *)
Theorem cancelOrder_restores_once
    (user id : ObjectId) (st : Store) (o : Order.t) :
  Order_findOne id user st = Some o ->
  (forall st' o', cancelOrder user id st = (st', json 200 o') ->
     Order.status o = "pending"%string \/ Order.status o = "confirmed"%string)
  /\ (Order.status o <> "pending"%string ->
      Order.status o <> "confirmed"%string ->
      cancelOrder user id st = (st, next InvalidTransition))
  /\ (Order.status o = "shipped"%string ->
      cancelOrder user id st = (st, next InvalidTransition))
  /\ (Order.status o = "pending"%string \/ Order.status o = "confirmed"%string ->
      Order.validate o = true -> totals_consistent o ->
      exists st' o', cancelOrder user id st = (st', json 200 o'))
  /\ (forall st' o', cancelOrder user id st = (st', json 200 o') ->
      (forall pid,
         products st' !! pid
         = (fun p => Product.set_quantity
                       (Product.quantity p
                        + ordered_quantity pid (Order.items o)) p)
           <$> products st !! pid)
      /\ orders st' !! id = Some o'
      /\ Order.status o' = "cancelled"%string
      /\ Order.paymentStatus o' = "refunded"%string
      /\ Order.items o' = Order.items o
      /\ cancelOrder user id st' = (st', next InvalidTransition)).
Proof.
  intros Hfind.
  assert (Hrefuse : Order.status o <> "pending"%string ->
                    Order.status o <> "confirmed"%string ->
                    cancelOrder user id st = (st, next InvalidTransition)).
  { intros H1 H2. unfold cancelOrder. rewrite Hfind.
    by rewrite (not_cancellable _ H1 H2). }
  split; [|split; [exact Hrefuse|split; [|split]]].
  - intros st' o' Hrun.
    destruct (string_dec (Order.status o) "pending") as [|H1]; [by left|].
    destruct (string_dec (Order.status o) "confirmed") as [|H2]; [by right|].
    rewrite (Hrefuse H1 H2) in Hrun. discriminate.
  - intros Hs. apply Hrefuse; rewrite Hs; discriminate.
  - intros Hs Hv Ht. unfold cancelOrder. rewrite Hfind.
    assert (includes ["pending"; "confirmed"]%string (Order.status o) = true) as ->.
    { apply includes_In. simpl. destruct Hs as [->| ->]; tauto. }
    cbn [negb]. cbv iota.
    rewrite Order_save_ok; [by eauto | by apply validate_cancelled | exact Ht].
  - intros st' o' Hrun. unfold cancelOrder in Hrun. rewrite Hfind in Hrun.
    destruct (negb (includes _ (Order.status o))); [discriminate|].
    destruct (Order_save _ _ _) as [e|st2] eqn:Hsave; [discriminate|].
    injection Hrun as <- <-.
    apply Order_save_inr in Hsave as (_ & _ & ->).
    apply Order_findOne_Some in Hfind as [Hlook Huser].
    cbn [products set_orders orders].
    split; [intros pid; apply restore_quantities_lookup|].
    split; [apply lookup_insert_eq|].
    do 3 (split; [reflexivity|]).
    unfold cancelOrder, Order_findOne. cbn [orders set_orders].
    rewrite lookup_insert_eq. cbn [Order.set_paymentStatus Order.set_status Order.user].
    rewrite Huser, N.eqb_refl. reflexivity.
Qed.

(** ** Adding to the cart *)

(** The search on the populated cart returns when the product of every
    line is in the catalog, and it has found no line then. *)
Lemma find_populated_inr (st : Store) (pid : ObjectId)
    (items : list CartItem.t) (r : option CartItem.t) :
  find_populated st pid items = inr r ->
  r = None
  /\ forall pid', In pid' (map CartItem.product items) ->
       is_Some (products st !! pid').
Proof.
  induction items as [|j items IH]; simpl.
  - intros [= <-]. split; [done | intros pid' []].
  - destruct (products st !! CartItem.product j) as [p|] eqn:Hp; [|discriminate].
    unfold populated_matches. intros H. destruct (IH H) as [-> Hall].
    split; [done|]. intros pid' [<-|Hin]; [by eexists | by apply Hall].
Qed.

Lemma find_populated_present (st : Store) (pid : ObjectId)
    (items : list CartItem.t) :
  (forall pid', In pid' (map CartItem.product items) ->
     is_Some (products st !! pid')) ->
  find_populated st pid items = inr None.
Proof.
  induction items as [|j items IH]; intros H; simpl; [done|].
  destruct (H (CartItem.product j) (or_introl eq_refl)) as [p ->].
  unfold populated_matches. apply IH. intros pid' Hin. apply H. by right.
Qed.

Lemma find_app_new (pid : ObjectId) (q : Z) (items : list CartItem.t) :
  List.find (fun item => N.eqb (CartItem.product item) pid) items = None ->
  List.find (fun item => N.eqb (CartItem.product item) pid)
    (items ++ [CartItem.mk pid q])
  = Some (CartItem.mk pid q).
Proof.
  induction items as [|j items IH]; simpl.
  - by rewrite N.eqb_refl.
  - destruct (N.eqb (CartItem.product j) pid); [discriminate | exact IH].
Qed.

(** [addItem] on the populated cart pushes a line. *)
Lemma Cart_addItem_inr (user pid : ObjectId) (q : Z) (c c' : Cart.t)
    (st st' : Store) :
  Cart_addItem user pid q c st = inr (c', st') ->
  c' = Cart.mk (Cart.items c ++ [CartItem.mk pid q])
  /\ Cart.validate c' = true
  /\ st' = set_carts (<[user := c']> (carts st)) st.
Proof.
  unfold Cart_addItem, Cart_save.
  destruct (find_populated st pid (Cart.items c)) as [e|r] eqn:Hr;
    [discriminate|].
  apply find_populated_inr in Hr as [-> _].
  destruct (Cart.validate _) eqn:Hv; [|discriminate].
  by intros [= <- <-].
Qed.

Lemma Cart_getOrCreate_inr (user : ObjectId) (st st1 : Store) (cart : Cart.t) :
  Cart_getOrCreate user st = inr (cart, st1) ->
  carts st1 !! user = Some cart
  /\ products st1 = products st /\ orders st1 = orders st
  /\ cart = stored_cart st user
  /\ <[user := cart]> (carts st) = carts st1.
Proof.
  unfold Cart_getOrCreate, stored_cart.
  destruct (carts st !! user) as [c|] eqn:Hc.
  - intros [= <- <-]. rewrite Hc. repeat split; try done.
    by apply insert_id.
  - unfold Cart_save. simpl. intros [= <- <-]. simpl.
    by rewrite lookup_insert_eq.
Qed.

Lemma Cart_getOrCreate_total (user : ObjectId) (st : Store) :
  exists cart st1, Cart_getOrCreate user st = inr (cart, st1).
Proof.
  unfold Cart_getOrCreate. destruct (carts st !! user); simpl; eauto.
Qed.

Lemma stored_quantity_cart (st : Store) (user pid : ObjectId) :
  stored_quantity st user pid = cart_quantity pid (stored_cart st user).
Proof.
  unfold stored_quantity, stored_cart. by destruct (carts st !! user).
Qed.

Lemma Product_findOne_inStock_Some (pid : ObjectId) (st : Store) (p : Product.t) :
  Product_findOne_inStock pid st = Some p <->
  products st !! pid = Some p /\ Product.status p = "active"%string
  /\ 0 < Product.quantity p.
Proof.
  unfold Product_findOne_inStock.
  destruct (products st !! pid) as [p0|];
    [|split; [discriminate | by intros [? _]]].
  destruct (String.eqb_spec (Product.status p0) "active") as [Hs|Hs]; simpl.
  - destruct (Z.ltb_spec 0 (Product.quantity p0)).
    + split; [intros [= ->]; done | intros ([= ->] & _); done].
    + split; [discriminate | intros ([= ->] & _ & ?); lia].
  - split; [discriminate | intros ([= ->] & ? & _); done].
Qed.

(** The lookup of [addToCart] returns the products whose [isAvailable]
    virtual is true. *)
Lemma Product_findOne_inStock_isAvailable (pid : ObjectId) (st : Store)
    (p : Product.t) :
  Product_findOne_inStock pid st = Some p <->
  products st !! pid = Some p /\ Product.isAvailable p = true.
Proof.
  unfold Product_findOne_inStock, Product.isAvailable.
  destruct (products st !! pid) as [p0|];
    [|split; [discriminate | by intros [? _]]].
  destruct (String.eqb (Product.status p0) "active" && (0 <? Product.quantity p0))
    eqn:E.
  - split; [by intros [= ->] | by intros [[= ->] _]].
  - split; [discriminate | intros [[= ->] H]; congruence].
Qed.

Lemma quantity_in_range (q : Z) :
  1 <= q <= 100 -> (q <? 1) || (100 <? q) = false.
Proof. intros H. apply orb_false_iff. split; apply Z.ltb_ge; lia. Qed.

(** A request for a product the lookup does not return is answered 404. *)
Lemma addToCart_not_in_stock (user pid : ObjectId) (quantity : option Z)
    (st : Store) :
  1 <= default 1 quantity <= 100 ->
  Product_findOne_inStock pid st = None ->
  addToCart user (Some pid) quantity st = (st, next NotFound).
Proof.
  intros Hq Hp. unfold addToCart.
  by rewrite (quantity_in_range _ Hq), Hp.
Qed.

(** What a successful [addToCart] has checked and done: the cart of the
    user has one more line, with the requested quantity, which the stock
    covers. *)
Lemma addToCart_success (user pid : ObjectId) (quantity : option Z)
    (st st' : Store) (b : CartBody.t) :
  addToCart user (Some pid) quantity st = (st', json 200 b) ->
  carts st'
  = <[user := Cart.mk (Cart.items (stored_cart st user)
                         ++ [CartItem.mk pid (default 1 quantity)])]> (carts st)
  /\ products st' = products st
  /\ orders st' = orders st
  /\ 1 <= default 1 quantity <= 100
  /\ exists p, products st !! pid = Some p
       /\ Product.status p = "active"%string
       /\ default 1 quantity <= Product.quantity p.
Proof.
  unfold addToCart.
  destruct ((default 1 quantity <? 1) || (100 <? default 1 quantity)) eqn:Hq;
    [discriminate|].
  apply orb_false_iff in Hq as [Hq1 Hq2].
  apply Z.ltb_ge in Hq1, Hq2.
  destruct (Product_findOne_inStock pid st) as [p|] eqn:Hp; [|discriminate].
  apply Product_findOne_inStock_Some in Hp as (Hp & Hs & _).
  destruct (Cart_getOrCreate user st) as [e|[cart st1]] eqn:Hg; [discriminate|].
  apply Cart_getOrCreate_inr in Hg as (Hc1 & Hp1 & Ho1 & -> & Hins).
  destruct (find_populated st1 pid _) as [e|r] eqn:Hr; [discriminate|].
  apply find_populated_inr in Hr as [-> _].
  destruct (Product.quantity p <? 0 + default 1 quantity) eqn:Hstock;
    [discriminate|].
  apply Z.ltb_ge in Hstock.
  destruct (Cart_addItem _ _ _ _ _) as [e|[cart' st2]] eqn:Ha; [discriminate|].
  apply Cart_addItem_inr in Ha as (-> & _ & ->).
  destruct (reduce_totalPrice _); [|discriminate].
  intros [= <- _]. simpl.
  split; [by rewrite <- Hins, insert_insert_eq|].
  split; [done|]. split; [done|]. split; [lia|].
  exists p. split; [done|]. split; [done|]. lia.
Qed.

Lemma reduce_totalPrice_present (st : Store) (items : list CartItem.t) :
  (forall pid, In pid (map CartItem.product items) ->
     is_Some (products st !! pid)) ->
  is_Some (reduce_totalPrice (map (populate st) items)).
Proof.
  unfold reduce_totalPrice. generalize 0%Q.
  induction items as [|i items IH]; intros a H; simpl; [by eexists|].
  destruct (H (CartItem.product i) (or_introl eq_refl)) as [p ->].
  apply IH. intros pid Hin. apply H. by right.
Qed.

Lemma cart_products_present_stored (st : Store) (user : ObjectId) :
  cart_products_present st user <->
  forall pid, In pid (map CartItem.product (Cart.items (stored_cart st user))) ->
    is_Some (products st !! pid).
Proof.
  unfold cart_products_present, stored_cart.
  destruct (carts st !! user) as [c|]; simpl.
  - split; [intros H; by apply H | by intros H c' [= <-]].
  - split; [intros _ pid [] | intros _ c' [=]].
Qed.

(** The stock comparison of [addToCart]: the search on the populated cart
    has found no line, so the requested quantity alone is compared with
    the quantity on hand. *)
Lemma addToCart_stock_check (user pid : ObjectId) (q : Z) (st : Store)
    (p : Product.t) :
  1 <= q <= 100 ->
  products st !! pid = Some p ->
  Product.status p = "active"%string ->
  0 < Product.quantity p ->
  Product.quantity p < q ->
  cart_products_present st user ->
  snd (addToCart user (Some pid) (Some q) st)
  = next (OutOfStock (Product.quantity p) 0)
  /\ carts (fst (addToCart user (Some pid) (Some q) st))
     = <[user := stored_cart st user]> (carts st)
  /\ products (fst (addToCart user (Some pid) (Some q) st)) = products st
  /\ orders (fst (addToCart user (Some pid) (Some q) st)) = orders st.
Proof.
  intros Hq Hp Hs Hpos Hlt Hpresent.
  assert (Hin : Product_findOne_inStock pid st = Some p)
    by (by apply Product_findOne_inStock_Some).
  assert (Hq' : 1 <= default 1 (Some q) <= 100) by exact Hq.
  unfold addToCart. rewrite (quantity_in_range _ Hq'), Hin.
  destruct (Cart_getOrCreate_total user st) as (cart & st1 & Hg).
  rewrite Hg.
  apply Cart_getOrCreate_inr in Hg as (Hc1 & Hp1 & Ho1 & -> & Hins).
  rewrite find_populated_present.
  2:{ intros pid' Hin'. rewrite Hp1.
      by apply cart_products_present_stored in Hin'. }
  change (default 1 (Some q)) with q.
  assert ((Product.quantity p <? 0 + q) = true) as -> by (apply Z.ltb_lt; lia).
  cbn [fst snd]. by rewrite Hins.
Qed.

(** A request with a quantity from 1 to 100 that the stock of the active
    product covers goes through when the stored cart is valid and the
    products of its lines are in the catalog. *)
Lemma addToCart_succeeds (user pid : ObjectId) (q : Z) (st : Store)
    (p : Product.t) :
  1 <= q <= 100 ->
  products st !! pid = Some p ->
  Product.status p = "active"%string ->
  q <= Product.quantity p ->
  Cart.validate (stored_cart st user) = true ->
  cart_products_present st user ->
  exists st' b, addToCart user (Some pid) (Some q) st = (st', json 200 b).
Proof.
  intros Hq Hp Hs Hstock Hvalid Hpresent.
  assert (Hin : Product_findOne_inStock pid st = Some p)
    by (apply Product_findOne_inStock_Some; repeat split; [done | done | lia]).
  assert (Hq' : 1 <= default 1 (Some q) <= 100) by exact Hq.
  unfold addToCart. rewrite (quantity_in_range _ Hq'), Hin.
  change (default 1 (Some q)) with q.
  destruct (Cart_getOrCreate_total user st) as (cart & st1 & Hg).
  rewrite Hg.
  apply Cart_getOrCreate_inr in Hg as (Hc1 & Hp1 & Ho1 & -> & Hins).
  assert (Hall : forall pid',
            In pid' (map CartItem.product (Cart.items (stored_cart st user))) ->
            is_Some (products st1 !! pid')).
  { intros pid' Hin'. rewrite Hp1.
    by apply cart_products_present_stored in Hin'. }
  rewrite (find_populated_present _ _ _ Hall).
  assert ((Product.quantity p <? 0 + q) = false) as ->
    by (apply Z.ltb_ge; lia).
  unfold Cart_addItem, Cart_save. rewrite (find_populated_present _ _ _ Hall).
  set (cart' := Cart.mk (Cart.items (stored_cart st user) ++ [CartItem.mk pid q])).
  assert (Hv' : Cart.validate cart' = true).
  { unfold Cart.validate, cart'. simpl. rewrite forallb_app.
    unfold Cart.validate in Hvalid. rewrite Hvalid. simpl.
    rewrite andb_true_r. unfold CartItem.validate, minZ, maxZ. simpl.
    apply andb_true_iff. split; apply Z.leb_le; lia. }
  rewrite Hv'.
  destruct (reduce_totalPrice_present
              (set_carts (<[user:=cart']> (carts st1)) st1) (Cart.items cart'))
    as [total Htotal].
  { intros pid' Hin'. simpl. rewrite Hp1. unfold cart' in Hin'. simpl in Hin'.
    rewrite map_app, in_app_iff in Hin'. simpl in Hin'.
    destruct Hin' as [H|[<-|[]]]; [|by eexists].
    by apply cart_products_present_stored in H. }
  rewrite Htotal. by eauto.
Qed.

(** [C5] For a product the cart of the user has no line for: an
    [addToCart] request that succeeds leaves the cart with its lines and,
    after them, a line for the product with the requested quantity, which
    is then the quantity the cart holds for the product.  A request with
    a quantity from 1 to 100 for an active product that has stock, but
    less than the requested quantity, fails with [OutOfStock] and the
    lines of the cart and the catalog stay as they were, provided the
    products of the cart lines are in the catalog (the search of a line
    whose product is gone throws).  A request for a product that is
    missing, not active, or has no unit on hand fails with [NotFound],
    whatever the cart holds.  A request within the stock goes through
    when the stored cart is valid and its products are in the catalog.
    What a second request does for a product that has a line is not
    stated here. *)
Theorem addToCart_first_add_and_guards (user pid : ObjectId) (st : Store) :
  (stored_line st user pid = None ->
   forall q st1 b,
     addToCart user (Some pid) (Some q) st = (st1, json 200 b) ->
     Cart.items (stored_cart st1 user)
     = Cart.items (stored_cart st user) ++ [CartItem.mk pid q]
     /\ stored_quantity st1 user pid = q
     /\ products st1 = products st)
  /\ (stored_line st user pid = None ->
      forall q p,
        1 <= q <= 100 ->
        products st !! pid = Some p ->
        Product.status p = "active"%string ->
        0 < Product.quantity p ->
        Product.quantity p < stored_quantity st user pid + q ->
        cart_products_present st user ->
        snd (addToCart user (Some pid) (Some q) st)
        = next (OutOfStock (Product.quantity p) (stored_quantity st user pid))
        /\ stored_cart (fst (addToCart user (Some pid) (Some q) st)) user
           = stored_cart st user
        /\ products (fst (addToCart user (Some pid) (Some q) st)) = products st)
  /\ (forall q,
        1 <= q <= 100 ->
        products st !! pid = None
        \/ (exists p, products st !! pid = Some p
              /\ (Product.status p <> "active"%string
                  \/ Product.quantity p <= 0)) ->
        addToCart user (Some pid) (Some q) st = (st, next NotFound))
  /\ (stored_line st user pid = None ->
      forall q p,
        1 <= q <= 100 ->
        products st !! pid = Some p ->
        Product.status p = "active"%string ->
        0 < Product.quantity p ->
        stored_quantity st user pid + q <= Product.quantity p ->
        Cart.validate (stored_cart st user) = true ->
        cart_products_present st user ->
        exists st' b, addToCart user (Some pid) (Some q) st = (st', json 200 b)).
Proof.
  assert (Hzero : stored_line st user pid = None ->
                  stored_quantity st user pid = 0).
  { intros Hnone. rewrite stored_quantity_cart. unfold cart_quantity.
    unfold stored_line in Hnone. by rewrite Hnone. }
  split; [|split; [|split]].
  - intros Hnone q st1 b H.
    apply addToCart_success in H as (Hc & Hp & _). simpl in Hc.
    assert (Hcart : stored_cart st1 user
                    = Cart.mk (Cart.items (stored_cart st user)
                                 ++ [CartItem.mk pid q])).
    { unfold stored_cart at 1. by rewrite Hc, lookup_insert_eq. }
    split; [by rewrite Hcart|]. split; [|done].
    rewrite stored_quantity_cart, Hcart. unfold cart_quantity, Cart_findItem.
    simpl. unfold stored_line, Cart_findItem in Hnone.
    by rewrite (find_app_new _ _ _ Hnone).
  - intros Hnone q p Hq Hp Hs Hpos Hlt Hpresent.
    rewrite (Hzero Hnone) in *.
    destruct (addToCart_stock_check user pid q st p) as (Hr & Hc & Hprod & _);
      try done; try lia.
    split; [done|]. split; [|done].
    unfold stored_cart at 1. by rewrite Hc, lookup_insert_eq.
  - intros q Hq Hp. apply addToCart_not_in_stock; [done|].
    destruct (Product_findOne_inStock pid st) as [p0|] eqn:E; [|done].
    apply Product_findOne_inStock_Some in E as (E & Hs & Hpos).
    destruct Hp as [Hp|(p & Hp & [Hp'|Hp'])]; try congruence.
    rewrite E in Hp. injection Hp as ->. lia.
  - intros Hnone q p Hq Hp Hs Hpos Hstock Hvalid Hpresent.
    rewrite (Hzero Hnone) in Hstock.
    apply (addToCart_succeeds user pid q st p); try done; lia.
Qed.

(** The stated form of [C5] fails: product 1 is active and has no unit on
    hand, user 7 has nothing in the cart and asks for one unit; the
    quantity on hand is below the cart quantity plus the requested one,
    and the request fails with [NotFound], not with [OutOfStock]. *)
Lemma addToCart_sold_out_is_not_OutOfStock :
  products (sample_store 0 []) !! 1%N = Some (productA 0)
  /\ Product.status (productA 0) = "active"%string
  /\ Product.quantity (productA 0) < stored_quantity (sample_store 0 []) 7%N 1%N + 1
  /\ addToCart 7%N (Some 1%N) (Some 1) (sample_store 0 [])
     = (sample_store 0 [], next NotFound)
  /\ snd (addToCart 7%N (Some 1%N) (Some 1) (sample_store 0 []))
     <> next (OutOfStock (Product.quantity (productA 0))
                (stored_quantity (sample_store 0 []) 7%N 1%N)).
Proof.
  split; [reflexivity|]. split; [reflexivity|]. split; [reflexivity|].
  split; [reflexivity|]. discriminate.
Qed.

(** [C10] A request for a product that is active and has no unit on hand
    is never answered with an [OutOfStock] error and leaves the store as
    it was: with a quantity from 1 to 100 it fails with the 404 error
    ["Product not found or out of stock"], which is [NotFound]; with any
    other quantity the check of the quantity has turned it down before
    the product is looked up. *)
Theorem addToCart_zero_stock_is_NotFound
    (user pid : ObjectId) (quantity : option Z) (st : Store) (p : Product.t) :
  products st !! pid = Some p ->
  Product.status p = "active"%string ->
  Product.quantity p = 0 ->
  (forall onHand inCart,
     snd (addToCart user (Some pid) quantity st)
     <> next (OutOfStock onHand inCart))
  /\ fst (addToCart user (Some pid) quantity st) = st
  /\ (1 <= default 1 quantity <= 100 ->
      addToCart user (Some pid) quantity st
      = (st, next (AppError "Product not found or out of stock" 404)))
  /\ (~ 1 <= default 1 quantity <= 100 ->
      addToCart user (Some pid) quantity st
      = (st, next (AppError "Quantity must be between 1 and 100" 400))).
Proof.
  intros Hp Hs Hz.
  assert (Hin : 1 <= default 1 quantity <= 100 ->
            addToCart user (Some pid) quantity st = (st, next NotFound)).
  { intros Hq. apply addToCart_not_in_stock; [done|].
    unfold Product_findOne_inStock. rewrite Hp, Hz.
    by rewrite andb_false_r. }
  assert (Hout : ~ 1 <= default 1 quantity <= 100 ->
            addToCart user (Some pid) quantity st
            = (st, next (AppError "Quantity must be between 1 and 100" 400))).
  { intros Hq. unfold addToCart.
    assert (((default 1 quantity <? 1) || (100 <? default 1 quantity)) = true)
      as ->; [|done].
    apply orb_true_iff.
    destruct (Z.ltb_spec (default 1 quantity) 1); [by left|].
    destruct (Z.ltb_spec 100 (default 1 quantity)); [by right|]. lia. }
  destruct (decide (1 <= default 1 quantity <= 100)) as [Hq|Hq].
  - rewrite (Hin Hq). repeat split; try done.
  - rewrite (Hout Hq). repeat split; try done.
Qed.

(** ** Payment *)

Lemma processPayment_found (now : Date) (random : Q) (user id : ObjectId)
    (method : string) (details : option PaymentDetails.t) (st : Store)
    (o : Order.t) :
  Order_findOne id user st = Some o ->
  method <> ""%string ->
  processPayment now random user (Some id) method details st
  = if String.eqb (Order.paymentStatus o) "paid"
    then (st, next AlreadyPaid)
    else if String.eqb (Order.status o) "cancelled"
    then (st, next OrderCancelled)
    else
      match payment_switch None now random o method details with
      | inl e => (st, next e)
      | inr r =>
          if PaymentResult.success r then
            let o' :=
              Order.set_paymentMethod method
                (Order.set_paymentStatus "paid" o) in
            let o' :=
              if String.eqb (Order.status o) "pending"
              then Order.set_status "confirmed" o' else o' in
            match Order_save id o' st with
            | inl e => (st, next e)
            | inr st' =>
                (st', json 200
                        (PaymentBody.mk true (PaymentResult.message r) id
                           (PaymentResult.transactionId r)
                           (Some (Order.total o)) "paid" method))
            end
          else
            (st, json 400
                   (PaymentBody.mk false (PaymentResult.message r) id
                      None None "failed" method))
      end.
Proof.
  intros Hfind Hm. unfold processPayment. rewrite Hfind.
  apply String.eqb_neq in Hm. rewrite Hm.
  destruct (String.eqb (Order.paymentStatus o) "paid"); [done|].
  destruct (String.eqb (Order.status o) "cancelled"); [done|].
  destruct (payment_switch _ _ _ _ _ _) as [e|r]; [done|].
  destruct (PaymentResult.success r); [|done].
  cbn [Order.set_paymentMethod Order.set_paymentStatus Order.status].
  destruct (String.eqb (Order.status o) "pending"); reflexivity.
Qed.

(** The lookup finds the order that a handler has stored back under the
    identifier, for the same user. *)
Lemma Order_findOne_stored (id user : ObjectId) (st : Store) (o o' : Order.t) :
  Order_findOne id user st = Some o ->
  Order.user o' = Order.user o ->
  Order_findOne id user (set_orders (<[id := o']> (orders st)) st) = Some o'.
Proof.
  unfold Order_findOne. simpl. rewrite lookup_insert_eq.
  destruct (orders st !! id) as [o0|]; [|discriminate].
  destruct (N.eqb (Order.user o0) user) eqn:E; [|discriminate].
  intros [= ->] ->. by rewrite E.
Qed.

(** [C6] What the code does where the claim asks for the transaction id
    to be recorded.  For an order of the user and a given payment method:
    [processPayment] fails with [AlreadyPaid] when the order is paid; it
    fails when the order is cancelled, with [OrderCancelled] unless the
    order is also paid; both failures leave the store as it was.  When
    the payment succeeds, the stored order has payment status paid and
    the method of the request, and its status is confirmed if it was
    pending and unchanged otherwise; it is the order of before with these
    paths set and nothing else, and the [getPaymentStatus] that follows
    answers without a transaction id.  A payment on delivery or by bank
    transfer for a stored order that is neither paid nor cancelled does
    succeed; the bank transfer is answered with the transaction id
    ["BANK_"] followed by the time, and the store it leaves is the same
    at whatever time the payment is made. *)
Theorem processPayment_does_not_store_the_transaction_id
    (now : Date) (random : Q) (user id : ObjectId) (method : string)
    (details : option PaymentDetails.t) (st : Store) (o : Order.t) :
  Order_findOne id user st = Some o ->
  method <> ""%string ->
  (Order.paymentStatus o = "paid"%string ->
   processPayment now random user (Some id) method details st
   = (st, next AlreadyPaid))
  /\ (Order.status o = "cancelled"%string ->
      exists e,
        processPayment now random user (Some id) method details st
        = (st, next e)
        /\ (Order.paymentStatus o <> "paid"%string -> e = OrderCancelled))
  /\ (forall st' b,
        processPayment now random user (Some id) method details st
        = (st', json 200 b) ->
        exists o',
          orders st' !! id = Some o'
          /\ Order.paymentStatus o' = "paid"%string
          /\ Order.paymentMethod o' = method
          /\ (Order.status o = "pending"%string ->
              Order.status o' = "confirmed"%string)
          /\ (Order.status o <> "pending"%string ->
              Order.status o' = Order.status o)
          /\ products st' = products st /\ carts st' = carts st
          /\ o' = (if String.eqb (Order.status o) "pending"
                   then Order.set_status "confirmed"
                   else fun order => order)
                    (Order.set_paymentMethod method
                       (Order.set_paymentStatus "paid" o))
          /\ st' = set_orders (<[id := o']> (orders st)) st
          /\ getPaymentStatus user id st'
             = (st', json 200
                       (PaymentStatus.mk id "paid" method None
                          (Order.total o) (Order.status o'))))
  /\ (Order.paymentStatus o <> "paid"%string ->
      Order.status o <> "cancelled"%string ->
      method = "cash_on_delivery"%string \/ method = "bank_transfer"%string ->
      Order.validate o = true -> totals_consistent o ->
      exists st' b,
        processPayment now random user (Some id) method details st
        = (st', json 200 b))
  /\ (Order.paymentStatus o <> "paid"%string ->
      Order.status o <> "cancelled"%string ->
      method = "bank_transfer"%string ->
      Order.validate o = true -> totals_consistent o ->
      exists st',
        processPayment now random user (Some id) method details st
        = (st', json 200
                  (PaymentBody.mk true
                     "Bank transfer initiated. Please complete the transfer."
                     id (Some ("BANK_" +:+ show_Z now))
                     (Some (Order.total o)) "paid" "bank_transfer"))
        /\ (exists orderStatus,
              getPaymentStatus user id st'
              = (st', json 200
                        (PaymentStatus.mk id "paid" "bank_transfer" None
                           (Order.total o) orderStatus)))
        /\ forall now' random',
             fst (processPayment now' random' user (Some id) method details st)
             = st').
Proof.
  intros Hfind Hm.
  assert (Hsucc : forall now0 random0 st' b,
            processPayment now0 random0 user (Some id) method details st
            = (st', json 200 b) ->
            exists o',
              o' = (if String.eqb (Order.status o) "pending"
                    then Order.set_status "confirmed"
                    else fun order => order)
                     (Order.set_paymentMethod method
                        (Order.set_paymentStatus "paid" o))
              /\ st' = set_orders (<[id := o']> (orders st)) st).
  { intros now0 random0 st' b.
    rewrite (processPayment_found _ _ _ _ _ _ _ _ Hfind Hm).
    destruct (String.eqb (Order.paymentStatus o) "paid"); [discriminate|].
    destruct (String.eqb (Order.status o) "cancelled"); [discriminate|].
    destruct (payment_switch _ _ _ _ _ _) as [e|r]; [discriminate|].
    destruct (PaymentResult.success r); [|discriminate].
    cbv zeta.
    destruct (Order_save _ _ _) as [e|st2] eqn:Hsave; [discriminate|].
    intros [= <- _].
    apply Order_save_inr in Hsave as (_ & _ & ->).
    eexists. split; [|reflexivity].
    by destruct (String.eqb (Order.status o) "pending"). }
  assert (Hread : forall o',
            o' = (if String.eqb (Order.status o) "pending"
                  then Order.set_status "confirmed"
                  else fun order => order)
                   (Order.set_paymentMethod method
                      (Order.set_paymentStatus "paid" o)) ->
            getPaymentStatus user id (set_orders (<[id := o']> (orders st)) st)
            = (set_orders (<[id := o']> (orders st)) st,
               json 200
                 (PaymentStatus.mk id "paid" method None
                    (Order.total o) (Order.status o')))).
  { intros o' ->. unfold getPaymentStatus.
    rewrite (Order_findOne_stored id user st o _ Hfind);
      by destruct (String.eqb (Order.status o) "pending"). }
  assert (Hgo : Order.paymentStatus o <> "paid"%string ->
      Order.status o <> "cancelled"%string ->
      method = "cash_on_delivery"%string \/ method = "bank_transfer"%string ->
      Order.validate o = true -> totals_consistent o ->
      forall now0 random0,
      exists txn message,
        payment_switch None now0 random0 o method details
        = inr (PaymentResult.mk true txn message)
        /\ processPayment now0 random0 user (Some id) method details st
           = (set_orders
                (<[id := (if String.eqb (Order.status o) "pending"
                          then Order.set_status "confirmed"
                          else fun order => order)
                           (Order.set_paymentMethod method
                              (Order.set_paymentStatus "paid" o))]>
                   (orders st)) st,
              json 200
                (PaymentBody.mk true message id txn (Some (Order.total o))
                   "paid" method))).
  { intros Hp Hs Hmethod Hv Ht now0 random0.
    rewrite (processPayment_found _ _ _ _ _ _ _ _ Hfind Hm).
    apply String.eqb_neq in Hp, Hs. rewrite Hp, Hs.
    assert (Hsw : exists txn message,
              payment_switch None now0 random0 o method details
              = inr (PaymentResult.mk true txn message)).
    { destruct Hmethod as [-> | ->]; do 2 eexists; reflexivity. }
    destruct Hsw as (txn & message & Hsw). exists txn, message.
    split; [exact Hsw|]. rewrite Hsw.
    cbn [PaymentResult.success PaymentResult.transactionId
         PaymentResult.message]. cbv zeta.
    assert (Henum : includes Order.paymentMethod_enum method = true)
      by (destruct Hmethod as [-> | ->]; reflexivity).
    destruct (validate_paid method o Henum Hv) as [Hv1 Hv2].
    destruct (String.eqb (Order.status o) "pending").
    + rewrite Order_save_ok; [done | exact Hv2 | exact Ht].
    + rewrite Order_save_ok; [done | exact Hv1 | exact Ht]. }
  split; [|split; [|split; [|split]]].
  - intros Hp. rewrite (processPayment_found _ _ _ _ _ _ _ _ Hfind Hm).
    by rewrite Hp.
  - intros Hc. rewrite (processPayment_found _ _ _ _ _ _ _ _ Hfind Hm).
    rewrite Hc.
    destruct (String.eqb_spec (Order.paymentStatus o) "paid") as [Hp|Hp].
    + eexists. split; [reflexivity|]. intros Hn. by destruct Hn.
    + eexists. split; [reflexivity|]. done.
  - intros st' b Hrun.
    destruct (Hsucc _ _ _ _ Hrun) as (o' & Ho' & ->).
    exists o'. split; [apply lookup_insert_eq|].
    rewrite (Hread o' Ho').
    assert (Hfields : Order.paymentStatus o' = "paid"%string
              /\ Order.paymentMethod o' = method
              /\ (Order.status o = "pending"%string ->
                  Order.status o' = "confirmed"%string)
              /\ (Order.status o <> "pending"%string ->
                  Order.status o' = Order.status o)).
    { rewrite Ho'.
      destruct (String.eqb_spec (Order.status o) "pending") as [Hs|Hs];
        repeat split; try done. }
    destruct Hfields as (H1 & H2 & H3 & H4).
    repeat split; done.
  - intros Hp Hs Hmethod Hv Ht.
    destruct (Hgo Hp Hs Hmethod Hv Ht now random) as (txn & message & _ & ->).
    by eauto.
  - intros Hp Hs Hbank Hv Ht.
    destruct (Hgo Hp Hs (or_intror Hbank) Hv Ht now random)
      as (txn & message & Hsw & Hrun).
    rewrite Hbank in Hsw. injection Hsw as <- <-.
    eexists. split; [rewrite Hrun, Hbank; reflexivity|].
    split.
    + eexists. rewrite (Hread _ eq_refl). by rewrite Hbank.
    + intros now' random'.
      destruct (Hgo Hp Hs (or_intror Hbank) Hv Ht now' random')
        as (txn' & message' & _ & ->).
      reflexivity.
Qed.

(** The credit-card case reads [paymentResult] before the assignment has
    given it a value: whatever the draw, the result has no transaction id
    and the message of a failure. *)
Lemma credit_card_result (now : Date) (random : Q) (o : Order.t)
    (details : PaymentDetails.t) :
  PaymentDetails.cardNumber details <> ""%string ->
  PaymentDetails.cvv details <> ""%string ->
  payment_switch None now random o "credit_card" (Some details)
  = inr (PaymentResult.mk (Qlt_bool (1 # 10) random) None "Payment failed").
Proof.
  intros Hn Hc. unfold payment_switch. simpl.
  apply String.eqb_neq in Hn, Hc. by rewrite Hn, Hc.
Qed.

(** [C7] What the code does where the claim asks for a transaction id:
    a credit-card payment with
    complete card details whose simulated outcome is a success is
    answered with success and marks the order paid, and the transaction
    id of the reply and of the stored order is null, with the message
    ["Payment failed"]. *)
Theorem credit_card_success_has_null_transaction_id
    (now : Date) (random : Q) (user id : ObjectId)
    (details : PaymentDetails.t) (st : Store) (o : Order.t) :
  Order_findOne id user st = Some o ->
  Order.paymentStatus o <> "paid"%string ->
  Order.status o <> "cancelled"%string ->
  PaymentDetails.cardNumber details <> ""%string ->
  PaymentDetails.cvv details <> ""%string ->
  (1 # 10 < random)%Q ->
  Order.validate o = true ->
  totals_consistent o ->
  exists st' o',
    processPayment now random user (Some id) "credit_card" (Some details) st
    = (st', json 200
              (PaymentBody.mk true "Payment failed" id None
                 (Some (Order.total o)) "paid" "credit_card"))
    /\ orders st' !! id = Some o'
    /\ Order.paymentStatus o' = "paid"%string
    /\ Order.paymentTransactionId o' = None.
Proof.
  intros Hfind Hp Hs Hn Hc Hr Hv Ht.
  assert (Hm : "credit_card"%string <> ""%string) by discriminate.
  rewrite (processPayment_found _ _ _ _ _ _ _ _ Hfind Hm).
  apply String.eqb_neq in Hp, Hs. rewrite Hp, Hs.
  rewrite (credit_card_result _ _ _ _ Hn Hc).
  apply Qlt_bool_true in Hr. cbn [PaymentResult.success]. rewrite Hr.
  cbn [PaymentResult.transactionId PaymentResult.message]. cbv zeta.
  destruct (validate_paid "credit_card" o eq_refl Hv) as [Hv1 Hv2].
  destruct (String.eqb (Order.status o) "pending").
  - rewrite Order_save_ok; [|exact Hv2|exact Ht].
    do 2 eexists. split; [reflexivity|]. simpl.
    split; [apply lookup_insert_eq|done].
  - rewrite Order_save_ok; [|exact Hv1|exact Ht].
    do 2 eexists. split; [reflexivity|]. simpl.
    split; [apply lookup_insert_eq|done].
Qed.

(** The failing draw of the credit-card case: when the simulated outcome
    is a failure the reply
    is the 400 failure result and the store, the order included, is left
    as it was. *)
Lemma credit_card_failure_leaves_order
    (now : Date) (random : Q) (user id : ObjectId)
    (details : PaymentDetails.t) (st : Store) (o : Order.t) :
  Order_findOne id user st = Some o ->
  Order.paymentStatus o <> "paid"%string ->
  Order.status o <> "cancelled"%string ->
  PaymentDetails.cardNumber details <> ""%string ->
  PaymentDetails.cvv details <> ""%string ->
  (random <= 1 # 10)%Q ->
  processPayment now random user (Some id) "credit_card" (Some details) st
  = (st, json 400
           (PaymentBody.mk false "Payment failed" id None None "failed"
              "credit_card")).
Proof.
  intros Hfind Hp Hs Hn Hc Hr.
  assert (Hm : "credit_card"%string <> ""%string) by discriminate.
  rewrite (processPayment_found _ _ _ _ _ _ _ _ Hfind Hm).
  apply String.eqb_neq in Hp, Hs. rewrite Hp, Hs.
  rewrite (credit_card_result _ _ _ _ Hn Hc).
  apply Qlt_bool_false in Hr. cbn [PaymentResult.success]. by rewrite Hr.
Qed.

(** ** Refund *)

(** [C8] What the code does where the claim asks for the reason and a
    timestamp to be recorded.  For an order of the user: [processRefund]
    fails with [NotPaid] unless the order is paid.  For a paid, delivered
    order it fails with [RefundWindowExpired] when more than seven days
    have passed since the delivery (since the creation, for an order that
    has no delivery time), so for a delivery eight days ago; it goes
    through when the order is not delivered or no more than seven days
    have passed, so for a delivery six days ago.  Both failures leave the
    store as it was.  A refund that goes through stores the order with
    payment status and status refunded and nothing else changed; the
    reply names the reason and the time of the request, and the store is
    the same whatever the reason and the time of the refund are. *)
Theorem processRefund_does_not_store_reason_and_time
    (now : Date) (user id : ObjectId) (reason : option string)
    (st : Store) (o : Order.t) :
  Order_findOne id user st = Some o ->
  (Order.paymentStatus o <> "paid"%string ->
   processRefund now user id reason st = (st, next NotPaid))
  /\ (Order.paymentStatus o = "paid"%string ->
      Order.status o = "delivered"%string ->
      default (Order.createdAt o) (Order.deliveredAt o) + 7 * day < now ->
      processRefund now user id reason st = (st, next RefundWindowExpired))
  /\ (Order.paymentStatus o = "paid"%string ->
      Order.status o = "delivered"%string ->
      Order.deliveredAt o = Some (now - 8 * day) ->
      processRefund now user id reason st = (st, next RefundWindowExpired))
  /\ (Order.paymentStatus o = "paid"%string ->
      Order.status o <> "delivered"%string
      \/ now <= default (Order.createdAt o) (Order.deliveredAt o) + 7 * day ->
      Order.validate o = true -> totals_consistent o ->
      exists st' b, processRefund now user id reason st = (st', json 200 b))
  /\ (Order.paymentStatus o = "paid"%string ->
      Order.status o = "delivered"%string ->
      Order.deliveredAt o = Some (now - 6 * day) ->
      Order.validate o = true -> totals_consistent o ->
      exists st' b, processRefund now user id reason st = (st', json 200 b))
  /\ (forall st' b,
        processRefund now user id reason st = (st', json 200 b) ->
        exists o',
          orders st' !! id = Some o'
          /\ Order.paymentStatus o' = "refunded"%string
          /\ Order.status o' = "refunded"%string
          /\ RefundBody.refundedAt b = now
          /\ RefundBody.reason b = reason
          /\ o' = Order.set_status "refunded"
                    (Order.set_paymentStatus "refunded" o)
          /\ st' = set_orders (<[id := o']> (orders st)) st
          /\ snd (getOrder user id st') = json 200 o'
          /\ forall now' reason' st'' b',
               processRefund now' user id reason' st = (st'', json 200 b') ->
               st'' = st').
Proof.
  intros Hfind.
  assert (Hexp :
    Order.paymentStatus o = "paid"%string ->
    Order.status o = "delivered"%string ->
    default (Order.createdAt o) (Order.deliveredAt o) + 7 * day < now ->
    processRefund now user id reason st = (st, next RefundWindowExpired)).
  { intros Hp Hs Hlt. unfold processRefund.
    rewrite Hfind, Hp, Hs. simpl.
    assert ((default (Order.createdAt o) (Order.deliveredAt o) + refund_period
             <? now) = true) as ->; [|done].
    apply Z.ltb_lt. unfold refund_period, day in *. lia. }
  assert (Hok :
    Order.paymentStatus o = "paid"%string ->
    Order.status o <> "delivered"%string
    \/ now <= default (Order.createdAt o) (Order.deliveredAt o) + 7 * day ->
    Order.validate o = true -> totals_consistent o ->
    exists st' b, processRefund now user id reason st = (st', json 200 b)).
  { intros Hp Hw Hv Ht. unfold processRefund. rewrite Hfind, Hp. simpl.
    assert ((if String.eqb (Order.status o) "delivered"
             then default (Order.createdAt o) (Order.deliveredAt o)
                  + refund_period <? now
             else false) = false) as ->.
    { destruct (String.eqb_spec (Order.status o) "delivered") as [Hs|Hs];
        [|done].
      destruct Hw as [Hw|Hle]; [done|].
      apply Z.ltb_ge. unfold refund_period, day in *. lia. }
    rewrite Order_save_ok; [by eauto| |exact Ht].
    by apply validate_refunded. }
  assert (Hstore : forall now0 reason0 st0 b0,
    processRefund now0 user id reason0 st = (st0, json 200 b0) ->
    st0 = set_orders
            (<[id := Order.set_status "refunded"
                       (Order.set_paymentStatus "refunded" o)]> (orders st)) st
    /\ RefundBody.refundedAt b0 = now0
    /\ RefundBody.reason b0 = reason0).
  { intros now0 reason0 st0 b0 Hrun.
    unfold processRefund in Hrun. rewrite Hfind in Hrun.
    destruct (negb _); [discriminate|].
    destruct (if String.eqb (Order.status o) "delivered" then _ else _);
      [discriminate|].
    destruct (Order_save _ _ _) as [e|st2] eqn:Hsave; [discriminate|].
    injection Hrun as <- <-.
    apply Order_save_inr in Hsave as (_ & _ & ->). done. }
  split; [|split; [exact Hexp|split; [|split; [exact Hok|split]]]].
  - intros Hp. unfold processRefund. rewrite Hfind.
    apply String.eqb_neq in Hp. by rewrite Hp.
  - intros Hp Hs Hd. apply (Hexp Hp Hs). rewrite Hd. unfold day. simpl. lia.
  - intros Hp Hs Hd. apply (Hok Hp). right. rewrite Hd. unfold day. simpl. lia.
  - intros st' b Hrun.
    destruct (Hstore _ _ _ _ Hrun) as (-> & Hat & Hreason).
    eexists. split; [apply lookup_insert_eq|].
    split; [done|]. split; [done|]. split; [done|]. split; [done|].
    split; [done|]. split; [done|]. split.
    + unfold getOrder.
      by rewrite (Order_findOne_stored id user st o _ Hfind).
    + intros now' reason' st'' b' Hrun'.
      by destruct (Hstore _ _ _ _ Hrun') as (-> & _).
Qed.

(** ** Product status *)

Lemma Product_save_inr (id : ObjectId) (p : Product.t) (st st' : Store) :
  Product_save id p st = inr st' ->
  In (Product.status p) Product.status_enum
  /\ st' = set_products (<[id := Product.cast p]> (products st)) st.
Proof.
  unfold Product_save, Product.validate. cbn [Product.cast Product.status].
  destruct (includes Product.status_enum (Product.status p)) eqn:E.
  - apply includes_In in E. destruct (_ && _); [|discriminate].
    by intros [= <-].
  - rewrite andb_false_r. discriminate.
Qed.

Lemma Product_save_outside_enum (id : ObjectId) (p : Product.t) (st : Store) :
  ~ In (Product.status p) Product.status_enum ->
  Product_save id p st = inl (ValidationError "Product validation failed").
Proof.
  intros Hn. unfold Product_save, Product.validate.
  cbn [Product.cast Product.status].
  destruct (includes Product.status_enum (Product.status p)) eqn:E.
  - apply includes_In in E. done.
  - by rewrite andb_false_r.
Qed.

(** The enum of the schema lies within the set the specification gives. *)
Lemma status_enum_in_spec_set (s : string) :
  In s Product.status_enum -> In s spec_status_set.
Proof. simpl. tauto. Qed.

(** ["suspended"] is in the set of the specification and not in the enum
    of the schema: a save of a product with this status is rejected. *)
Lemma Product_suspended_is_rejected :
  In "suspended"%string spec_status_set
  /\ ~ In "suspended"%string Product.status_enum
  /\ Product_save 1%N
       (Product.mk "Product A" "A sample product" 500 8 "general" "suspended")
       (sample_store 8 [])
     = inl (ValidationError "Product validation failed").
Proof.
  split; [simpl; tauto|]. split; [|reflexivity].
  simpl. intros [H|[H|[H|[H|[]]]]]; discriminate.
Qed.

(** [C9] For the set active, revoked, pending, draft, suspended: a
    product that a save accepts is stored, as the setters of the schema
    leave it, with the status it was given, and this status is in the
    set; a save of a product whose status is outside the set is rejected
    with a validation error, so nothing is written. *)
Theorem Product_status_in_spec_set (id : ObjectId) (p : Product.t) (st : Store) :
  (forall st', Product_save id p st = inr st' ->
     products st' !! id = Some (Product.cast p)
     /\ Product.status (Product.cast p) = Product.status p
     /\ In (Product.status (Product.cast p)) spec_status_set)
  /\ (~ In (Product.status p) spec_status_set ->
      Product_save id p st = inl (ValidationError "Product validation failed")).
Proof.
  split.
  - intros st' H. apply Product_save_inr in H as [Henum ->].
    split; [apply lookup_insert_eq|]. split; [done|].
    by apply status_enum_in_spec_set.
  - intros Hout. apply Product_save_outside_enum.
    intros Hin. by apply Hout, status_enum_in_spec_set.
Qed.

(** ** Stored orders stay sound *)

Lemma orders_sound_insert (st : Store) (id : ObjectId) (o : Order.t) :
  orders_sound st -> Order.validate o = true -> totals_consistent o ->
  forall id' o', <[id := o]> (orders st) !! id' = Some o' ->
    Order.validate o' = true /\ totals_consistent o'.
Proof.
  intros Hs Hv Ht id' o'. destruct (decide (id = id')) as [->|Hne].
  - rewrite lookup_insert_eq. by intros [= <-].
  - rewrite lookup_insert_ne by done. apply Hs.
Qed.

Lemma Order_save_sound (id : ObjectId) (o : Order.t) (st st' : Store) :
  orders_sound st -> Order_save id o st = inr st' -> orders_sound st'.
Proof.
  intros Hs H. apply Order_save_inr in H as (Hv & Ht & ->).
  intros id' o'. simpl. by apply orders_sound_insert.
Qed.

Lemma orders_sound_same (st st' : Store) :
  orders st' = orders st -> orders_sound st -> orders_sound st'.
Proof. intros E Hs id o. rewrite E. apply Hs. Qed.

(** The four handlers that write orders write them through [order.save()],
    so each keeps every stored order valid and within the tolerance. *)
Lemma createOrder_sound now newId user body st :
  orders_sound st -> orders_sound (fst (createOrder now newId user body st)).
Proof.
  intros Hs. unfold createOrder.
  destruct (CreateOrder.shippingAddress body); [|done].
  destruct (negb _); [done|].
  destruct (carts st !! user) as [cart|]; [|done].
  destruct (Nat.eqb _ _); [done|].
  destruct (0 <? length _)%nat; [done|].
  destruct (reduce_totalPrice _); [|done].
  destruct (Order_save _ _ _) as [e|st1] eqn:Hsave; [done|].
  pose proof (Order_save_sound _ _ _ _ Hs Hsave) as Hs1.
  assert (Hs2 : orders_sound (reduce_quantities
                  (map (populate st) (Cart.items cart)) st1)).
  { eapply orders_sound_same; [|exact Hs1]. apply reduce_quantities_others. }
  unfold Cart_save. destruct (Cart.validate _); simpl; exact Hs2.
Qed.

Lemma cancelOrder_sound user id st :
  orders_sound st -> orders_sound (fst (cancelOrder user id st)).
Proof.
  intros Hs. unfold cancelOrder.
  destruct (Order_findOne id user st) as [o|]; [|done].
  destruct (negb _); [done|].
  assert (Hs1 : orders_sound (restore_quantities (Order.items o) st)).
  { eapply orders_sound_same; [|exact Hs]. apply restore_quantities_others. }
  destruct (Order_save _ _ _) as [e|st2] eqn:Hsave; simpl; [done|].
  exact (Order_save_sound _ _ _ _ Hs1 Hsave).
Qed.

Lemma processPayment_sound now random user orderId method details st :
  orders_sound st ->
  orders_sound (fst (processPayment now random user orderId method details st)).
Proof.
  intros Hs. unfold processPayment.
  destruct orderId as [id|]; [|done].
  destruct (String.eqb method ""); [done|].
  destruct (Order_findOne id user st) as [o|]; [|done].
  destruct (String.eqb (Order.paymentStatus o) "paid"); [done|].
  destruct (String.eqb (Order.status o) "cancelled"); [done|].
  destruct (payment_switch _ _ _ _ _ _) as [e|r]; [done|].
  destruct (PaymentResult.success r); [|done].
  cbv zeta.
  destruct (Order_save _ _ _) as [e|st2] eqn:Hsave; simpl; [done|].
  exact (Order_save_sound _ _ _ _ Hs Hsave).
Qed.

Lemma processRefund_sound now user id reason st :
  orders_sound st -> orders_sound (fst (processRefund now user id reason st)).
Proof.
  intros Hs. unfold processRefund.
  destruct (Order_findOne id user st) as [o|]; [|done].
  destruct (negb _); [done|].
  destruct (if String.eqb (Order.status o) "delivered" then _ else _); [done|].
  destruct (Order_save _ _ _) as [e|st2] eqn:Hsave; simpl; [done|].
  exact (Order_save_sound _ _ _ _ Hs Hsave).
Qed.

(** ** The workflow on the sample data *)

Lemma createOrder_insufficient_inventory_witness :
  carts (sample_store 1 [CartItem.mk 1%N 2]) !! 7%N
  = Some (Cart.mk [CartItem.mk 1%N 2])
  /\ offending (sample_store 1 [CartItem.mk 1%N 2]) (CartItem.mk 1%N 2) = true
  /\ address_complete (CreateOrder.shippingAddress sample_body) = true
  /\ createOrder 0 9%N 7%N sample_body (sample_store 1 [CartItem.mk 1%N 2])
     = (sample_store 1 [CartItem.mk 1%N 2],
        next (InsufficientInventory ["Product A (only 1 available)"%string]))
  /\ exists names,
       createOrder 0 9%N 7%N sample_body (sample_store 1 [CartItem.mk 1%N 2])
       = (sample_store 1 [CartItem.mk 1%N 2], next (InsufficientInventory names))
       /\ Forall2 (names_product (sample_store 1 [CartItem.mk 1%N 2]))
            [CartItem.mk 1%N 2] names.
Proof.
  split; [reflexivity|]. split; [reflexivity|]. split; [reflexivity|].
  split; [vm_compute; reflexivity|].
  destruct (createOrder_insufficient_inventory 0 9%N 7%N sample_body
              (sample_store 1 [CartItem.mk 1%N 2]) (Cart.mk [CartItem.mk 1%N 2]))
    as (_ & _ & _ & _ & Hnamed & _).
  - reflexivity.
  - exists (CartItem.mk 1%N 2). split; [left; reflexivity | reflexivity].
  - apply Hnamed. reflexivity.
Defined.

Lemma Order_save_checks_totals_witness :
  Order_save 9%N sample_created (sample_store 10 []) 
  = inr (set_orders {[ 9%N := sample_created ]} (sample_store 10 []))
  /\ totals_consistent sample_created
  /\ ~ totals_consistent mispriced_order
  /\ Order.validate mispriced_order = true
  /\ Order_save 9%N mispriced_order (sample_store 10 [])
     = inl (Error "Order total does not match calculated total").
Proof.
  assert (H1 : Order_save 9%N sample_created (sample_store 10 [])
               = inr (set_orders {[ 9%N := sample_created ]} (sample_store 10 [])))
    by (vm_compute; reflexivity).
  assert (H2 : ~ totals_consistent mispriced_order).
  { intros H. apply Qle_bool_iff in H. vm_compute in H. discriminate H. }
  assert (H3 : Order.validate mispriced_order = true) by (vm_compute; reflexivity).
  destruct (Order_save_checks_totals 9%N sample_created (sample_store 10 []))
    as (Hsaved & _ & _).
  destruct (Order_save_checks_totals 9%N mispriced_order (sample_store 10 []))
    as (_ & _ & Hrejected & _).
  split; [exact H1|]. split; [exact (proj1 (Hsaved _ H1))|].
  split; [exact H2|]. split; [exact H3|]. exact (Hrejected H2 H3).
Defined.

Lemma cancelOrder_restores_once_witness :
  Order_findOne 5%N 7%N (order_store (sample_order "pending" "pending" None))
  = Some (sample_order "pending" "pending" None)
  /\ cancelOrder 7%N 5%N (order_store (sample_order "pending" "pending" None))
     = (mkStore (catalog 10) ∅ {[ 5%N := sample_order "cancelled" "refunded" None ]},
        json 200 (sample_order "cancelled" "refunded" None))
  /\ cancelOrder 7%N 5%N
       (mkStore (catalog 10) ∅ {[ 5%N := sample_order "cancelled" "refunded" None ]})
     = (mkStore (catalog 10) ∅ {[ 5%N := sample_order "cancelled" "refunded" None ]},
        next InvalidTransition).
Proof.
  assert (H1 : Order_findOne 5%N 7%N
                 (order_store (sample_order "pending" "pending" None))
               = Some (sample_order "pending" "pending" None)) by reflexivity.
  assert (H2 : cancelOrder 7%N 5%N
                 (order_store (sample_order "pending" "pending" None))
               = (mkStore (catalog 10) ∅
                    {[ 5%N := sample_order "cancelled" "refunded" None ]},
                  json 200 (sample_order "cancelled" "refunded" None)))
    by (vm_compute; reflexivity).
  split; [exact H1|]. split; [exact H2|].
  destruct (cancelOrder_restores_once 7%N 5%N _ _ H1) as (_ & _ & _ & _ & Hdone).
  destruct (Hdone _ _ H2) as (_ & _ & _ & _ & _ & Hagain).
  exact Hagain.
Defined.

Lemma addToCart_first_add_and_guards_witness :
  stored_line (sample_store 10 []) 7%N 1%N = None
  /\ addToCart 7%N (Some 1%N) (Some 2) (sample_store 10 [])
     = (sample_store 10 [CartItem.mk 1%N 2],
        json 200 (CartBody.mk [CartItem.mk 1%N 2] 2 1000))
  /\ Cart.items (stored_cart (sample_store 10 [CartItem.mk 1%N 2]) 7%N)
     = Cart.items (stored_cart (sample_store 10 []) 7%N) ++ [CartItem.mk 1%N 2]
  /\ stored_quantity (sample_store 10 [CartItem.mk 1%N 2]) 7%N 1%N = 2
  /\ snd (addToCart 7%N (Some 1%N) (Some 11) (sample_store 10 []))
     = next (OutOfStock 10 0).
Proof.
  assert (H0 : stored_line (sample_store 10 []) 7%N 1%N = None) by reflexivity.
  assert (H1 : addToCart 7%N (Some 1%N) (Some 2) (sample_store 10 [])
               = (sample_store 10 [CartItem.mk 1%N 2],
                  json 200 (CartBody.mk [CartItem.mk 1%N 2] 2 1000)))
    by (vm_compute; reflexivity).
  split; [exact H0|]. split; [exact H1|].
  destruct (addToCart_first_add_and_guards 7%N 1%N (sample_store 10 []))
    as (Hfirst & Hguard & _ & _).
  destruct (Hfirst H0 _ _ _ H1) as (Hitems & Hquantity & _).
  split; [exact Hitems|]. split; [exact Hquantity|].
  apply (Hguard H0 11 (productA 10)); [lia | reflexivity | reflexivity | | | ].
  - simpl. lia.
  - vm_compute. reflexivity.
  - intros cart Hc pid' Hin. vm_compute in Hc. injection Hc as <-.
    destruct Hin.
Defined.

Lemma addToCart_zero_stock_is_NotFound_witness :
  products (sample_store 0 []) !! 1%N = Some (productA 0)
  /\ Product.status (productA 0) = "active"%string
  /\ Product.quantity (productA 0) = 0
  /\ addToCart 7%N (Some 1%N) (Some 1) (sample_store 0 [])
     = (sample_store 0 [], next (AppError "Product not found or out of stock" 404)).
Proof.
  do 3 (split; [reflexivity|]).
  destruct (addToCart_zero_stock_is_NotFound 7%N 1%N (Some 1)
              (sample_store 0 []) (productA 0) eq_refl eq_refl eq_refl)
    as (_ & _ & Hfound & _).
  apply Hfound. simpl. lia.
Defined.

Lemma processPayment_does_not_store_the_transaction_id_witness :
  Order_findOne 5%N 7%N (order_store (sample_order "pending" "pending" None))
  = Some (sample_order "pending" "pending" None)
  /\ "bank_transfer"%string <> ""%string
  /\ processPayment 1700000000000 (1 # 2) 7%N (Some 5%N) "bank_transfer" None
       (order_store (sample_order "pending" "pending" None))
     = (order_store sample_paid,
        json 200
          (PaymentBody.mk true
             "Bank transfer initiated. Please complete the transfer." 5%N
             (Some "BANK_1700000000000"%string) (Some 1250%Q) "paid"
             "bank_transfer"))
  /\ getPaymentStatus 7%N 5%N (order_store sample_paid)
     = (order_store sample_paid,
        json 200
          (PaymentStatus.mk 5%N "paid" "bank_transfer" None 1250%Q "confirmed"))
  /\ fst (processPayment 0 0 7%N (Some 5%N) "bank_transfer" None
            (order_store (sample_order "pending" "pending" None)))
     = order_store sample_paid.
Proof.
  assert (H1 : Order_findOne 5%N 7%N
                 (order_store (sample_order "pending" "pending" None))
               = Some (sample_order "pending" "pending" None)) by reflexivity.
  assert (H2 : "bank_transfer"%string <> ""%string) by discriminate.
  assert (H3 : processPayment 1700000000000 (1 # 2) 7%N (Some 5%N)
                 "bank_transfer" None
                 (order_store (sample_order "pending" "pending" None))
               = (order_store sample_paid,
                  json 200
                    (PaymentBody.mk true
                       "Bank transfer initiated. Please complete the transfer."
                       5%N (Some "BANK_1700000000000"%string) (Some 1250%Q)
                       "paid" "bank_transfer")))
    by (vm_compute; reflexivity).
  split; [exact H1|]. split; [exact H2|]. split; [exact H3|].
  destruct (processPayment_does_not_store_the_transaction_id
              1700000000000 (1 # 2) 7%N 5%N
              "bank_transfer" None _ _ H1 H2) as (_ & _ & Hpaid & _ & Hbank).
  destruct (Hpaid _ _ H3) as (o' & _ & _ & _ & Hs & _ & _ & _ & _ & _ & Hread).
  rewrite (Hs eq_refl) in Hread. split; [exact Hread|].
  assert (Ht : totals_consistent (sample_order "pending" "pending" None))
    by (apply Qle_bool_iff; vm_compute; reflexivity).
  assert (Hp : Order.paymentStatus (sample_order "pending" "pending" None)
               <> "paid"%string) by discriminate.
  assert (Hc : Order.status (sample_order "pending" "pending" None)
               <> "cancelled"%string) by discriminate.
  destruct (Hbank Hp Hc eq_refl eq_refl Ht) as (st' & Hrun & _ & Hsame).
  pose proof (eq_trans (eq_sym H3) Hrun) as E. injection E as <-.
  apply Hsame.
Defined.

Lemma credit_card_success_has_null_transaction_id_witness :
  exists st' o',
    processPayment 1700000000000 (1 # 2) 7%N (Some 5%N) "credit_card"
      (Some sample_card) (order_store (sample_order "pending" "pending" None))
    = (st', json 200
              (PaymentBody.mk true "Payment failed" 5%N None (Some 1250%Q)
                 "paid" "credit_card"))
    /\ orders st' !! 5%N = Some o'
    /\ Order.paymentStatus o' = "paid"%string
    /\ Order.paymentTransactionId o' = None.
Proof.
  apply (credit_card_success_has_null_transaction_id 1700000000000 (1 # 2)
           7%N 5%N sample_card
           (order_store (sample_order "pending" "pending" None))
           (sample_order "pending" "pending" None)).
  - reflexivity.
  - discriminate.
  - discriminate.
  - discriminate.
  - discriminate.
  - reflexivity.
  - vm_compute. reflexivity.
  - apply Qle_bool_iff. vm_compute. reflexivity.
Defined.

Lemma processRefund_does_not_store_reason_and_time_witness :
  Order_findOne 5%N 7%N
    (order_store (sample_order "delivered" "paid" (Some (20 * day - 8 * day))))
  = Some (sample_order "delivered" "paid" (Some (20 * day - 8 * day)))
  /\ processRefund (20 * day) 7%N 5%N (Some "damaged"%string)
       (order_store (sample_order "delivered" "paid" (Some (20 * day - 8 * day))))
     = (order_store (sample_order "delivered" "paid" (Some (20 * day - 8 * day))),
        next RefundWindowExpired)
  /\ Order_findOne 5%N 7%N
       (order_store (sample_order "delivered" "paid" (Some (20 * day - 6 * day))))
     = Some (sample_order "delivered" "paid" (Some (20 * day - 6 * day)))
  /\ processRefund (20 * day) 7%N 5%N (Some "damaged"%string)
       (order_store (sample_order "delivered" "paid" (Some (20 * day - 6 * day))))
     = (order_store (sample_order "refunded" "refunded" (Some (20 * day - 6 * day))),
        json 200
          (RefundBody.mk 5%N 1250%Q None (20 * day) (Some "damaged"%string)))
  /\ snd (getOrder 7%N 5%N
            (order_store
               (sample_order "refunded" "refunded" (Some (20 * day - 6 * day)))))
     = json 200 (sample_order "refunded" "refunded" (Some (20 * day - 6 * day)))
  /\ fst (processRefund (19 * day) 7%N 5%N None
            (order_store
               (sample_order "delivered" "paid" (Some (20 * day - 6 * day)))))
     = order_store (sample_order "refunded" "refunded" (Some (20 * day - 6 * day))).
Proof.
  assert (H8 : Order_findOne 5%N 7%N
                 (order_store
                    (sample_order "delivered" "paid" (Some (20 * day - 8 * day))))
               = Some (sample_order "delivered" "paid" (Some (20 * day - 8 * day))))
    by reflexivity.
  assert (H6 : Order_findOne 5%N 7%N
                 (order_store
                    (sample_order "delivered" "paid" (Some (20 * day - 6 * day))))
               = Some (sample_order "delivered" "paid" (Some (20 * day - 6 * day))))
    by reflexivity.
  assert (Hrun : processRefund (20 * day) 7%N 5%N (Some "damaged"%string)
                   (order_store
                      (sample_order "delivered" "paid" (Some (20 * day - 6 * day))))
                 = (order_store
                      (sample_order "refunded" "refunded"
                         (Some (20 * day - 6 * day))),
                    json 200
                      (RefundBody.mk 5%N 1250%Q None (20 * day)
                         (Some "damaged"%string))))
    by (vm_compute; reflexivity).
  assert (Hother : processRefund (19 * day) 7%N 5%N None
                     (order_store
                        (sample_order "delivered" "paid"
                           (Some (20 * day - 6 * day))))
                   = (fst (processRefund (19 * day) 7%N 5%N None
                             (order_store
                                (sample_order "delivered" "paid"
                                   (Some (20 * day - 6 * day))))),
                      json 200 (RefundBody.mk 5%N 1250%Q None (19 * day) None)))
    by (vm_compute; reflexivity).
  destruct (processRefund_does_not_store_reason_and_time
              (20 * day) 7%N 5%N (Some "damaged"%string) _ _ H8)
    as (_ & _ & Hlate & _).
  destruct (processRefund_does_not_store_reason_and_time
              (20 * day) 7%N 5%N (Some "damaged"%string) _ _ H6)
    as (_ & _ & _ & _ & _ & Hdone).
  split; [exact H8|]. split; [apply Hlate; reflexivity|].
  split; [exact H6|]. split; [exact Hrun|].
  destruct (Hdone _ _ Hrun) as (o' & Ho' & _ & _ & _ & _ & _ & _ & Hread & Hsame).
  vm_compute in Ho'. injection Ho' as <-.
  split; [exact Hread|].
  exact (Hsame _ _ _ _ Hother).
Defined.

Lemma Product_status_in_spec_set_witness :
  Product_save 1%N (productA 8) (sample_store 8 []) = inr (sample_store 8 [])
  /\ products (sample_store 8 []) !! 1%N = Some (Product.cast (productA 8))
  /\ In (Product.status (Product.cast (productA 8))) spec_status_set
  /\ Product_save 1%N
       (Product.mk "Product A" "A sample product" 500 8 "general" "archived")
       (sample_store 8 [])
     = inl (ValidationError "Product validation failed").
Proof.
  assert (H : Product_save 1%N (productA 8) (sample_store 8 [])
              = inr (sample_store 8 [])) by (vm_compute; reflexivity).
  split; [exact H|].
  destruct (Product_status_in_spec_set 1%N (productA 8) (sample_store 8 []))
    as (Haccepted & _).
  destruct (Haccepted _ H) as (Hstored & _ & Hin).
  split; [exact Hstored|]. split; [exact Hin|].
  destruct (Product_status_in_spec_set 1%N
              (Product.mk "Product A" "A sample product" 500 8 "general"
                 "archived")
              (sample_store 8 [])) as (_ & Hrejected).
  apply Hrejected. simpl. intros [H'|[H'|[H'|[H'|[H'|[]]]]]]; discriminate.
Defined.

(** * Properties of the rest of the code *)

(** ** Writes of a cart *)

Lemma Cart_save_inr (user : ObjectId) (c : Cart.t) (st st' : Store) :
  Cart_save user c st = inr st' ->
  Cart.validate c = true /\ st' = set_carts (<[user := c]> (carts st)) st.
Proof.
  unfold Cart_save. destruct (Cart.validate c); [|discriminate].
  by intros [= <-].
Qed.

Lemma Cart_save_ok (user : ObjectId) (c : Cart.t) (st : Store) :
  Cart.validate c = true ->
  Cart_save user c st = inr (set_carts (<[user := c]> (carts st)) st).
Proof. intros H. unfold Cart_save. by rewrite H. Qed.

Lemma Cart_addItem_with_added (user pid : ObjectId) (q : Z) (c c' : Cart.t)
    (st st' : Store) :
  Cart_addItem user pid q c st = inr (c', st') ->
  c' = with_added pid q c /\ Cart.validate c' = true
  /\ st' = set_carts (<[user := c']> (carts st)) st.
Proof. apply Cart_addItem_inr. Qed.

Lemma carts_step_impl (P Q : Cart.t -> Cart.t -> Prop) (user : ObjectId)
    (st st' : Store) :
  (forall c', P (stored_cart st user) c' -> Q (stored_cart st user) c') ->
  carts_step P user st st' -> carts_step Q user st st'.
Proof.
  intros HPQ [E|[E|(c' & Hv & HP & E)]]; [by left | by right; left|].
  right. right. exists c'. split; [done|]. split; [by apply HPQ | done].
Qed.

(** The cart [addToCart] leaves: the cart of before, the empty cart made
    for a user who had none, or the cart with the requested line appended. *)
Lemma addToCart_step_line (user pid : ObjectId) (quantity : option Z)
    (st : Store) :
  carts_step
    (fun c c' => c' = with_added pid (default 1 quantity) c)
    user st (fst (addToCart user (Some pid) quantity st))
  /\ products (fst (addToCart user (Some pid) quantity st)) = products st
  /\ orders (fst (addToCart user (Some pid) quantity st)) = orders st.
Proof.
  unfold addToCart.
  destruct ((default 1 quantity <? 1) || (100 <? default 1 quantity)) eqn:Hq;
    [by split; [left|]|].
  apply orb_false_iff in Hq as [Hq1 Hq2]. apply Z.ltb_ge in Hq1, Hq2.
  destruct (Product_findOne_inStock pid st); [|by split; [left|]].
  unfold Cart_getOrCreate.
  destruct (carts st !! user) as [cart|] eqn:Hc.
  - destruct (find_populated st pid (Cart.items cart)); [by split; [left|]|].
    destruct (_ <? _); [by split; [left|]|].
    destruct (Cart_addItem _ _ _ _ _) as [e|[cart' st2]] eqn:Ha;
      [by split; [left|]|].
    apply Cart_addItem_with_added in Ha as (-> & Hv & ->).
    assert (Hstep : carts_step
      (fun c c' => c' = with_added pid (default 1 quantity) c)
      user st (set_carts (<[user:=with_added pid (default 1 quantity) cart]>
                            (carts st)) st)).
    { right. right. eexists. split; [exact Hv|]. rewrite Hc. simpl.
      by split. }
    destruct (reduce_totalPrice _); by split.
  - unfold Cart_save at 1. simpl.
    assert (Hnew : carts_step
      (fun c c' => c' = with_added pid (default 1 quantity) c)
      user st (set_carts (<[user:=Cart.mk []]> (carts st)) st))
      by (right; left; by split).
    destruct (_ <? _); [by split|].
    destruct (Cart_addItem _ _ _ _ _) as [e|[cart' st2]] eqn:Ha; [by split|].
    apply Cart_addItem_with_added in Ha as (-> & Hv & ->).
    assert (Hstep : carts_step
      (fun c c' => c' = with_added pid (default 1 quantity) c)
      user st
      (set_carts (<[user:=with_added pid (default 1 quantity) (Cart.mk [])]>
                    (carts (set_carts (<[user:=Cart.mk []]> (carts st)) st)))
         (set_carts (<[user:=Cart.mk []]> (carts st)) st))).
    { right. right. eexists. split; [exact Hv|]. rewrite Hc. simpl.
      split; [done|]. apply insert_insert_eq. }
    destruct (reduce_totalPrice _); by split.
Qed.

Lemma addToCart_step (user : ObjectId) (productId : option ObjectId)
    (quantity : option Z) (st : Store) :
  carts_step cart_push user st (fst (addToCart user productId quantity st))
  /\ products (fst (addToCart user productId quantity st)) = products st
  /\ orders (fst (addToCart user productId quantity st)) = orders st.
Proof.
  destruct productId as [pid|]; [|by split; [left|]].
  destruct (addToCart_step_line user pid quantity st) as (Hstep & Hp & Ho).
  split; [|done].
  eapply carts_step_impl; [|exact Hstep].
  intros c' ->. by exists pid, (default 1 quantity).
Qed.

(** A product the cart has no line for: the appended line is its only one. *)
Lemma addToCart_step_new (user pid : ObjectId) (quantity : option Z)
    (st : Store) :
  stored_line st user pid = None ->
  carts_step cart_edit user st (fst (addToCart user (Some pid) quantity st)).
Proof.
  intros Hnone.
  destruct (addToCart_step_line user pid quantity st) as (Hstep & _).
  eapply carts_step_impl; [|exact Hstep].
  intros c' ->. left. by exists pid, (default 1 quantity).
Qed.

Lemma Cart_removeItem_inr (user pid : ObjectId) (c c' : Cart.t) (st st' : Store) :
  Cart_removeItem user pid c st = inr (c', st') ->
  c' = Cart.mk (remove_lines pid (Cart.items c)) /\ Cart.validate c' = true
  /\ st' = set_carts (<[user := c']> (carts st)) st.
Proof.
  unfold Cart_removeItem.
  destruct (Cart_save _ _ _) as [e|st2] eqn:Hs; [discriminate|].
  intros [= <- <-]. by apply Cart_save_inr in Hs as [Hv ->].
Qed.

Lemma Cart_updateItemQuantity_inr (user pid : ObjectId) (q : Z) (c c' : Cart.t)
    (st st' : Store) :
  Cart_updateItemQuantity user pid q c st = inr (c', st') ->
  is_Some (Cart_findItem pid c)
  /\ c' = (if q <=? 0 then Cart.mk (remove_lines pid (Cart.items c))
           else Cart.mk (set_line_quantity pid q (Cart.items c)))
  /\ Cart.validate c' = true
  /\ st' = set_carts (<[user := c']> (carts st)) st.
Proof.
  unfold Cart_updateItemQuantity.
  destruct (Cart_findItem pid c) as [i|]; [|discriminate].
  destruct (q <=? 0).
  - intros H. apply Cart_removeItem_inr in H as (-> & Hv & ->). by eauto.
  - destruct (Cart_save _ _ _) as [e|st2] eqn:Hs; [discriminate|].
    intros [= <- <-]. apply Cart_save_inr in Hs as [Hv ->]. by eauto.
Qed.

Lemma updateCartItem_step (user pid : ObjectId) (quantity : option Z) (st : Store) :
  carts_step cart_edit user st (fst (updateCartItem user pid quantity st))
  /\ products (fst (updateCartItem user pid quantity st)) = products st
  /\ orders (fst (updateCartItem user pid quantity st)) = orders st.
Proof.
  unfold updateCartItem. destruct quantity as [q|]; [|by split; [left|]].
  destruct ((q <? 0) || (100 <? q)); [by split; [left|]|].
  destruct (carts st !! user) as [cart|] eqn:Hc; [|by split; [left|]].
  destruct (if 0 <? q then _ else _); [by split; [left|]|].
  destruct (Cart_updateItemQuantity _ _ _ _ _) as [e|[cart' st2]] eqn:Hu;
    [by split; [left|]|].
  apply Cart_updateItemQuantity_inr in Hu as (_ & -> & Hv & ->).
  split; [|done]. right. right. eexists. split; [exact Hv|].
  rewrite Hc. simpl. split; [|done].
  destruct (q <=? 0); right; [right; by eexists | left; by eexists _, _].
Qed.

Lemma removeFromCart_step (user pid : ObjectId) (st : Store) :
  carts_step cart_edit user st (fst (removeFromCart user pid st))
  /\ products (fst (removeFromCart user pid st)) = products st
  /\ orders (fst (removeFromCart user pid st)) = orders st.
Proof.
  unfold removeFromCart.
  destruct (carts st !! user) as [cart|] eqn:Hc; [|by split; [left|]].
  destruct (Cart_removeItem _ _ _ _) as [e|[cart' st2]] eqn:Hr;
    [by split; [left|]|].
  apply Cart_removeItem_inr in Hr as (-> & Hv & ->).
  split; [|done]. right. right. eexists. split; [exact Hv|].
  rewrite Hc. simpl. split; [|done]. right. right. by eexists.
Qed.

Lemma clearCart_step (user : ObjectId) (st : Store) :
  carts_step cart_edit user st (fst (clearCart user st))
  /\ products (fst (clearCart user st)) = products st
  /\ orders (fst (clearCart user st)) = orders st.
Proof.
  unfold clearCart.
  destruct (carts st !! user) as [cart|] eqn:Hc; [|by split; [left|]].
  unfold Cart_clear, Cart_save. simpl.
  split; [|done]. right. right. exists (Cart.mk []). split; [done|].
  rewrite Hc. simpl. split; [|done]. right. right.
  exists (fun _ => false). f_equal.
  induction (Cart.items cart) as [|i l IH]; [done | exact IH].
Qed.

Lemma getCart_step (user : ObjectId) (st : Store) :
  carts_step cart_edit user st (fst (getCart user st))
  /\ products (fst (getCart user st)) = products st
  /\ orders (fst (getCart user st)) = orders st.
Proof.
  unfold getCart, Cart_getOrCreate.
  destruct (carts st !! user) as [cart|] eqn:Hc.
  - destruct (negb _).
    + destruct (Cart_save _ _ _) as [e|st2] eqn:Hs; [by split; [left|]|].
      apply Cart_save_inr in Hs as [Hv ->].
      assert (Hstep : carts_step cart_edit user st
                (set_carts (<[user:=Cart.mk (active_lines st (Cart.items cart))]>
                              (carts st)) st)).
      { right. right. eexists. split; [exact Hv|]. rewrite Hc. simpl.
        split; [|done]. right. right. by eexists. }
      destruct (reduce_totalPrice _); by split.
    + destruct (reduce_totalPrice _); by split; [left|].
  - unfold Cart_save. simpl.
    split; [|done]. right. left. by split.
Qed.

Lemma createOrder_step (now : Date) (newId user : ObjectId)
    (body : CreateOrder.body) (st : Store) :
  carts_step cart_edit user st (fst (createOrder now newId user body st)).
Proof.
  unfold createOrder.
  destruct (CreateOrder.shippingAddress body); [|by left].
  destruct (negb _); [by left|].
  destruct (carts st !! user) as [cart|] eqn:Hc; [|by left].
  destruct (Nat.eqb _ _); [by left|].
  destruct (0 <? length _)%nat; [by left|].
  destruct (reduce_totalPrice _); [|by left].
  destruct (Order_save _ _ _) as [e|st1] eqn:Hsave; [by left|].
  apply Order_save_inr in Hsave as (_ & _ & ->).
  unfold Cart_save. simpl.
  rewrite (proj2 (reduce_quantities_others _ _)).
  simpl. right. right. exists (Cart.mk []). split; [done|].
  rewrite Hc. simpl. split; [|done]. right. right.
  exists (fun _ => false). f_equal.
  induction (Cart.items cart) as [|i l IH]; [done | exact IH].
Qed.

(** ** Invariants of the stored carts *)

Lemma carts_step_valid (P : Cart.t -> Cart.t -> Prop) (user : ObjectId)
    (st st' : Store) :
  carts_valid st -> carts_step P user st st' -> carts_valid st'.
Proof.
  intros Hv [E|[[E _]|(c' & Hc' & _ & E)]] u c; rewrite E.
  - apply Hv.
  - destruct (decide (user = u)) as [->|Hne].
    + rewrite lookup_insert_eq. by intros [= <-].
    + rewrite lookup_insert_ne by done. apply Hv.
  - destruct (decide (user = u)) as [->|Hne].
    + rewrite lookup_insert_eq. by intros [= <-].
    + rewrite lookup_insert_ne by done. apply Hv.
Qed.

Lemma find_None_not_In (pid : ObjectId) (items : list CartItem.t) :
  List.find (fun item => N.eqb (CartItem.product item) pid) items = None ->
  ~ In pid (map CartItem.product items).
Proof.
  induction items as [|i items IH]; simpl; [tauto|].
  destruct (N.eqb_spec (CartItem.product i) pid) as [E|E]; [discriminate|].
  intros H [Hi|Hi]; [done | by apply IH].
Qed.

Lemma set_line_quantity_products (pid : ObjectId) (q : Z)
    (items : list CartItem.t) :
  map CartItem.product (set_line_quantity pid q items)
  = map CartItem.product items.
Proof.
  induction items as [|j items IH]; simpl; [done|].
  destruct (N.eqb (CartItem.product j) pid); simpl; [done | by rewrite IH].
Qed.

Lemma NoDup_map_filter {A B : Type} (f : A -> B) (keep : A -> bool) (l : list A) :
  List.NoDup (map f l) -> List.NoDup (map f (List.filter keep l)).
Proof.
  induction l as [|x l IH]; simpl; [done|].
  intros H. apply NoDup_cons_iff in H as [Hx Hl].
  destruct (keep x); simpl; [|by apply IH].
  apply NoDup_cons_iff. split; [|by apply IH].
  intros Hin. apply Hx. apply in_map_iff in Hin as (y & Hy & Hin).
  apply filter_In in Hin as [Hin _]. apply in_map_iff. by exists y.
Qed.

Lemma cart_edit_distinct (c c' : Cart.t) :
  List.NoDup (map CartItem.product (Cart.items c)) ->
  cart_edit c c' ->
  List.NoDup (map CartItem.product (Cart.items c')).
Proof.
  intros Hn [(pid & q & Hf & ->)|[(pid & q & ->)|(keep & ->)]].
  - unfold with_added. simpl. rewrite map_app. simpl. apply NoDup_ListNoDup.
    apply NoDup_app. split; [by apply NoDup_ListNoDup|].
    split; [|apply NoDup_singleton].
    intros x Hx Hx'. apply list_elem_of_In in Hx.
    apply list_elem_of_singleton in Hx'. subst x.
    by apply (find_None_not_In pid (Cart.items c) Hf).
  - simpl. by rewrite set_line_quantity_products.
  - simpl. by apply NoDup_map_filter.
Qed.

Lemma carts_step_distinct (user : ObjectId) (st st' : Store) :
  carts_distinct st -> carts_step cart_edit user st st' -> carts_distinct st'.
Proof.
  intros Hd [E|[[E _]|(c' & _ & Hedit & E)]] u c; rewrite E.
  - apply Hd.
  - destruct (decide (user = u)) as [->|Hne].
    + rewrite lookup_insert_eq. intros [= <-]. constructor.
    + rewrite lookup_insert_ne by done. apply Hd.
  - destruct (decide (user = u)) as [->|Hne].
    + rewrite lookup_insert_eq. intros [= <-].
      apply (cart_edit_distinct (default (Cart.mk []) (carts st !! u)) c');
        [|exact Hedit].
      destruct (carts st !! u) as [c0|] eqn:Hc0; simpl; [by apply (Hd u)|].
      constructor.
    + rewrite lookup_insert_ne by done. apply Hd.
Qed.

(** [X1] Every handler that writes a cart writes it through [cart.save()]: when
    every stored cart has its line quantities from 1 to 100, this still
    holds after [addToCart], [updateCartItem], [removeFromCart],
    [clearCart], [getCart] and [createOrder], whatever they reply. *)
Theorem cart_handlers_keep_quantities_in_range (st : Store) :
  carts_valid st ->
  (forall user productId quantity,
     carts_valid (fst (addToCart user productId quantity st)))
  /\ (forall user productId quantity,
        carts_valid (fst (updateCartItem user productId quantity st)))
  /\ (forall user productId, carts_valid (fst (removeFromCart user productId st)))
  /\ (forall user, carts_valid (fst (clearCart user st)))
  /\ (forall user, carts_valid (fst (getCart user st)))
  /\ (forall now newId user body,
        carts_valid (fst (createOrder now newId user body st))).
Proof.
  intros Hv. repeat split; intros.
  - eapply carts_step_valid; [exact Hv | apply addToCart_step].
  - eapply carts_step_valid; [exact Hv | apply updateCartItem_step].
  - eapply carts_step_valid; [exact Hv | apply removeFromCart_step].
  - eapply carts_step_valid; [exact Hv | apply clearCart_step].
  - eapply carts_step_valid; [exact Hv | apply getCart_step].
  - eapply carts_step_valid; [exact Hv | apply createOrder_step].
Qed.

Lemma cart_handlers_keep_quantities_in_range_witness :
  carts_valid (sample_store 10 [CartItem.mk 1%N 2])
  /\ carts_valid
       (fst (updateCartItem 7%N 1%N (Some 5)
               (sample_store 10 [CartItem.mk 1%N 2]))).
Proof.
  assert (H : carts_valid (sample_store 10 [CartItem.mk 1%N 2])).
  { intros u c Hc. simpl in Hc. apply lookup_singleton_Some in Hc as [_ <-].
    reflexivity. }
  split; [exact H|].
  apply (cart_handlers_keep_quantities_in_range _ H).
Defined.

(** [X2] One line per product, and where [addToCart] gives it up.  When no
    stored cart has two lines for one product, this still holds after
    [updateCartItem], [removeFromCart], [clearCart], [getCart] and
    [createOrder], and after an [addToCart] for a product the cart of the
    user has no line for.  An [addToCart] that succeeds for a product the
    cart has a line for appends a second line for the product: the search
    on the populated cart has not found the first. *)
Theorem one_line_per_product_until_a_repeated_add (st : Store) :
  carts_distinct st ->
  (forall user productId quantity,
     stored_line st user productId = None ->
     carts_distinct (fst (addToCart user (Some productId) quantity st)))
  /\ (forall user productId quantity st' b,
        is_Some (stored_line st user productId) ->
        addToCart user (Some productId) quantity st = (st', json 200 b) ->
        Cart.items (stored_cart st' user)
        = Cart.items (stored_cart st user)
            ++ [CartItem.mk productId (default 1 quantity)]
        /\ ~ carts_distinct st')
  /\ (forall user productId quantity,
        carts_distinct (fst (updateCartItem user productId quantity st)))
  /\ (forall user productId, carts_distinct (fst (removeFromCart user productId st)))
  /\ (forall user, carts_distinct (fst (clearCart user st)))
  /\ (forall user, carts_distinct (fst (getCart user st)))
  /\ (forall now newId user body,
        carts_distinct (fst (createOrder now newId user body st))).
Proof.
  intros Hd.
  split; [|split; [|split; [|split; [|split; [|split]]]]]; intros.
  - eapply carts_step_distinct; [exact Hd | by apply addToCart_step_new].
  - match goal with
    | H : addToCart _ _ _ _ = _ |- _ =>
        apply addToCart_success in H as (Hc & _)
    end.
    assert (Hcart : carts st' !! user
                    = Some (Cart.mk (Cart.items (stored_cart st user)
                                       ++ [CartItem.mk productId
                                             (default 1 quantity)])))
      by (by rewrite Hc, lookup_insert_eq).
    split; [unfold stored_cart at 1; by rewrite Hcart|].
    intros Hd'. specialize (Hd' _ _ Hcart). simpl in Hd'.
    rewrite map_app in Hd'. simpl in Hd'.
    apply NoDup_remove_2 in Hd'. apply Hd'. rewrite app_nil_r.
    match goal with
    | H : is_Some _ |- _ => destruct H as [i Hi]
    end.
    unfold stored_line, Cart_findItem in Hi.
    apply List.find_some in Hi as [Hin Heq].
    apply N.eqb_eq in Heq. rewrite <- Heq. by apply in_map.
  - eapply carts_step_distinct; [exact Hd | apply updateCartItem_step].
  - eapply carts_step_distinct; [exact Hd | apply removeFromCart_step].
  - eapply carts_step_distinct; [exact Hd | apply clearCart_step].
  - eapply carts_step_distinct; [exact Hd | apply getCart_step].
  - eapply carts_step_distinct; [exact Hd | apply createOrder_step].
Qed.

Lemma one_line_per_product_until_a_repeated_add_witness :
  carts_distinct (sample_store 10 [CartItem.mk 1%N 2])
  /\ addToCart 7%N (Some 1%N) (Some 3) (sample_store 10 [CartItem.mk 1%N 2])
     = (sample_store 10 [CartItem.mk 1%N 2; CartItem.mk 1%N 3],
        json 200
          (CartBody.mk [CartItem.mk 1%N 2; CartItem.mk 1%N 3] 5 2500))
  /\ ~ carts_distinct (sample_store 10 [CartItem.mk 1%N 2; CartItem.mk 1%N 3])
  /\ carts_distinct
       (fst (updateCartItem 7%N 1%N (Some 5)
               (sample_store 10 [CartItem.mk 1%N 2]))).
Proof.
  assert (H : carts_distinct (sample_store 10 [CartItem.mk 1%N 2])).
  { intros u c Hc. simpl in Hc. apply lookup_singleton_Some in Hc as [_ <-]. simpl.
    constructor; [intros [] | constructor]. }
  assert (Hadd : addToCart 7%N (Some 1%N) (Some 3)
                   (sample_store 10 [CartItem.mk 1%N 2])
                 = (sample_store 10 [CartItem.mk 1%N 2; CartItem.mk 1%N 3],
                    json 200
                      (CartBody.mk [CartItem.mk 1%N 2; CartItem.mk 1%N 3]
                         5 2500)))
    by (vm_compute; reflexivity).
  destruct (one_line_per_product_until_a_repeated_add _ H)
    as (_ & Hsecond & Hupdate & _).
  split; [exact H|]. split; [exact Hadd|].
  split; [|apply Hupdate].
  apply (Hsecond 7%N 1%N (Some 3) _ _ (mk_is_Some _ _ eq_refl) Hadd).
Defined.

(** [X3] The cart handlers read the catalog and the orders and write neither:
    after any of them the products and the orders are what they were. *)
Theorem cart_handlers_leave_catalog_and_orders (st : Store) :
  (forall user productId quantity,
     products (fst (addToCart user productId quantity st)) = products st
     /\ orders (fst (addToCart user productId quantity st)) = orders st)
  /\ (forall user productId quantity,
        products (fst (updateCartItem user productId quantity st)) = products st
        /\ orders (fst (updateCartItem user productId quantity st)) = orders st)
  /\ (forall user productId,
        products (fst (removeFromCart user productId st)) = products st
        /\ orders (fst (removeFromCart user productId st)) = orders st)
  /\ (forall user,
        products (fst (clearCart user st)) = products st
        /\ orders (fst (clearCart user st)) = orders st)
  /\ (forall user,
        products (fst (getCart user st)) = products st
        /\ orders (fst (getCart user st)) = orders st)
  /\ (forall user, fst (getCartSummary user st) = st).
Proof.
  repeat split; intros;
    try apply addToCart_step; try apply updateCartItem_step;
    try apply removeFromCart_step; try apply clearCart_step;
    try apply getCart_step.
  unfold getCartSummary. destruct (carts st !! user); [|done].
  by destruct (reduce_totalPrice _).
Qed.

(** ** Lines of a cart under the edits *)

Lemma Cart_eta (c : Cart.t) : Cart.mk (Cart.items c) = c.
Proof. by destruct c. Qed.

Lemma set_carts_id (st : Store) (user : ObjectId) (c : Cart.t) :
  carts st !! user = Some c ->
  set_carts (<[user := c]> (carts st)) st = st.
Proof. intros H. rewrite (insert_id _ _ _ H). by destruct st. Qed.

Lemma remove_lines_find_same (pid : ObjectId) (items : list CartItem.t) :
  List.find (fun item => N.eqb (CartItem.product item) pid)
    (remove_lines pid items) = None.
Proof.
  induction items as [|i items IH]; simpl; [done|].
  destruct (N.eqb (CartItem.product i) pid) eqn:E; simpl; [exact IH|].
  by rewrite E.
Qed.

Lemma remove_lines_find_other (pid pid' : ObjectId) (items : list CartItem.t) :
  pid' <> pid ->
  List.find (fun item => N.eqb (CartItem.product item) pid')
    (remove_lines pid items)
  = List.find (fun item => N.eqb (CartItem.product item) pid') items.
Proof.
  intros Hne. induction items as [|i items IH]; simpl; [done|].
  destruct (N.eqb_spec (CartItem.product i) pid) as [E|E]; simpl.
  - destruct (N.eqb_spec (CartItem.product i) pid') as [E'|E']; [congruence|].
    exact IH.
  - destruct (N.eqb (CartItem.product i) pid'); [done | exact IH].
Qed.

Lemma remove_lines_absent (pid : ObjectId) (items : list CartItem.t) :
  List.find (fun item => N.eqb (CartItem.product item) pid) items = None ->
  remove_lines pid items = items.
Proof.
  induction items as [|i items IH]; simpl; [done|].
  destruct (N.eqb (CartItem.product i) pid); simpl; [discriminate|].
  intros H. by rewrite IH.
Qed.

Lemma filter_valid (keep : CartItem.t -> bool) (items : list CartItem.t) :
  forallb CartItem.validate items = true ->
  forallb CartItem.validate (List.filter keep items) = true.
Proof.
  induction items as [|i items IH]; simpl; [done|].
  intros H. apply andb_true_iff in H as [Hi H].
  destruct (keep i); simpl; [rewrite Hi|]; by apply IH.
Qed.

Lemma filter_present (st : Store) (keep : CartItem.t -> bool)
    (items : list CartItem.t) :
  (forall pid, In pid (map CartItem.product items) ->
     is_Some (products st !! pid)) ->
  forall pid, In pid (map CartItem.product (List.filter keep items)) ->
    is_Some (products st !! pid).
Proof.
  intros H pid Hin. apply H. apply in_map_iff in Hin as (i & <- & Hi).
  apply filter_In in Hi as [Hi _]. apply in_map_iff. by exists i.
Qed.

Lemma set_line_quantity_find_same (pid : ObjectId) (q : Z)
    (items : list CartItem.t) (i : CartItem.t) :
  List.find (fun item => N.eqb (CartItem.product item) pid) items = Some i ->
  List.find (fun item => N.eqb (CartItem.product item) pid)
    (set_line_quantity pid q items)
  = Some (CartItem.mk (CartItem.product i) q).
Proof.
  induction items as [|j items IH]; simpl; [discriminate|].
  destruct (N.eqb (CartItem.product j) pid) eqn:E.
  - intros [= ->]. simpl. by rewrite E.
  - intros H. simpl. rewrite E. by apply IH.
Qed.

Lemma set_line_quantity_find_other (pid pid' : ObjectId) (q : Z)
    (items : list CartItem.t) :
  pid' <> pid ->
  List.find (fun item => N.eqb (CartItem.product item) pid')
    (set_line_quantity pid q items)
  = List.find (fun item => N.eqb (CartItem.product item) pid') items.
Proof.
  intros Hne. induction items as [|j items IH]; simpl; [done|].
  destruct (N.eqb_spec (CartItem.product j) pid) as [E|E]; simpl.
  - destruct (N.eqb_spec (CartItem.product j) pid') as [E'|E']; [congruence|].
    done.
  - destruct (N.eqb (CartItem.product j) pid'); [done | exact IH].
Qed.

Lemma set_line_quantity_valid (pid : ObjectId) (q : Z) (items : list CartItem.t) :
  1 <= q <= 100 ->
  forallb CartItem.validate items = true ->
  forallb CartItem.validate (set_line_quantity pid q items) = true.
Proof.
  intros Hq. induction items as [|j items IH]; simpl; [done|].
  intros H. apply andb_true_iff in H as [Hj H].
  destruct (N.eqb (CartItem.product j) pid); simpl.
  - rewrite H, andb_true_r. unfold CartItem.validate, minZ, maxZ. simpl.
    apply andb_true_iff. split; apply Z.leb_le; lia.
  - rewrite Hj. by apply IH.
Qed.

Lemma cart_reply_present (st : Store) (c : Cart.t) :
  (forall pid, In pid (map CartItem.product (Cart.items c)) ->
     is_Some (products st !! pid)) ->
  exists b, cart_reply st c = json 200 b /\ CartBody.items b = Cart.items c
            /\ CartBody.totalItems b = reduce_totalItems (Cart.items c).
Proof.
  intros H. unfold cart_reply.
  destruct (reduce_totalPrice_present st (Cart.items c) H) as [total ->].
  by eexists.
Qed.

(** ** [removeFromCart] *)

(** [X4] [removeFromCart] on a valid stored cart takes out every line of the
    product and leaves the lines of the other products as they are; when
    the cart has no line for the product the store is left as it was, so
    removing twice is removing once; and the reply is the cart without
    the lines when the products of the cart are in the catalog. *)
Theorem removeFromCart_removes_the_product
    (user pid : ObjectId) (st : Store) (cart : Cart.t) :
  carts st !! user = Some cart ->
  Cart.validate cart = true ->
  carts (fst (removeFromCart user pid st))
  = <[user := Cart.mk (remove_lines pid (Cart.items cart))]> (carts st)
  /\ stored_quantity (fst (removeFromCart user pid st)) user pid = 0
  /\ (forall pid', pid' <> pid ->
        stored_quantity (fst (removeFromCart user pid st)) user pid'
        = stored_quantity st user pid')
  /\ (Cart_findItem pid cart = None -> fst (removeFromCart user pid st) = st)
  /\ fst (removeFromCart user pid (fst (removeFromCart user pid st)))
     = fst (removeFromCart user pid st)
  /\ (cart_products_present st user ->
      exists b, snd (removeFromCart user pid st) = json 200 b
                /\ CartBody.items b = remove_lines pid (Cart.items cart)).
Proof.
  intros Hc Hv.
  assert (Hv' : Cart.validate (Cart.mk (remove_lines pid (Cart.items cart))) = true)
    by (by apply filter_valid).
  assert (Hrun : removeFromCart user pid st
    = (set_carts (<[user := Cart.mk (remove_lines pid (Cart.items cart))]>
                    (carts st)) st,
       cart_reply
         (set_carts (<[user := Cart.mk (remove_lines pid (Cart.items cart))]>
                       (carts st)) st)
         (Cart.mk (remove_lines pid (Cart.items cart))))).
  { unfold removeFromCart, Cart_removeItem. rewrite Hc.
    by rewrite (Cart_save_ok _ _ _ Hv'). }
  rewrite Hrun. cbn [fst snd].
  split; [done|]. split; [|split; [|split; [|split]]].
  - unfold stored_quantity. simpl. rewrite lookup_insert_eq.
    unfold cart_quantity, Cart_findItem. simpl.
    by rewrite remove_lines_find_same.
  - intros pid' Hne. unfold stored_quantity. simpl.
    rewrite lookup_insert_eq, Hc. unfold cart_quantity, Cart_findItem. simpl.
    by rewrite remove_lines_find_other.
  - intros Hf. unfold Cart_findItem in Hf.
    rewrite (remove_lines_absent _ _ Hf), Cart_eta. by apply set_carts_id.
  - unfold removeFromCart, Cart_removeItem. simpl. rewrite lookup_insert_eq.
    simpl. rewrite (remove_lines_absent pid (remove_lines pid (Cart.items cart)))
      by apply remove_lines_find_same.
    rewrite (Cart_save_ok _ _ _ Hv'). simpl.
    by rewrite insert_insert_eq.
  - intros Hp.
    destruct (cart_reply_present
      (set_carts (<[user := Cart.mk (remove_lines pid (Cart.items cart))]>
                    (carts st)) st)
      (Cart.mk (remove_lines pid (Cart.items cart)))) as (b & -> & Hb & _).
    + simpl. apply filter_present. by apply (Hp cart).
    + by exists b.
Qed.

Lemma removeFromCart_removes_the_product_witness :
  stored_quantity
    (fst (removeFromCart 7%N 1%N (sample_store 10 [CartItem.mk 1%N 2])))
    7%N 1%N = 0.
Proof.
  apply (removeFromCart_removes_the_product 7%N 1%N
           (sample_store 10 [CartItem.mk 1%N 2]) (Cart.mk [CartItem.mk 1%N 2]));
    reflexivity.
Defined.

(** ** [getCart] *)

Lemma filter_length_eq {A} (f : A -> bool) (l : list A) :
  length (List.filter f l) = length l -> List.filter f l = l.
Proof.
  induction l as [|a l IH]; simpl; [done|].
  destruct (f a) eqn:E; simpl.
  - intros [= H]. by rewrite IH.
  - intros H. pose proof (List.filter_length_le f l). lia.
Qed.

Lemma filter_all {A} (f : A -> bool) (l : list A) :
  (forall a, In a l -> f a = true) -> List.filter f l = l.
Proof.
  induction l as [|a l IH]; simpl; [done|].
  intros H. rewrite (H a) by by left. rewrite IH; [done|].
  intros b Hb. apply H. by right.
Qed.

Lemma filter_filter_same {A} (f : A -> bool) (l : list A) :
  List.filter f (List.filter f l) = List.filter f l.
Proof.
  apply filter_all. intros a Ha. by apply filter_In in Ha as [_ Ha].
Qed.

Lemma line_is_active_spec (st : Store) (item : CartItem.t) :
  line_is_active (populate_active st item) = true
  <-> exists p, products st !! CartItem.product item = Some p
                /\ Product.status p = "active"%string.
Proof.
  unfold line_is_active, populate_active, Product_findOne_active. simpl.
  destruct (products st !! CartItem.product item) as [p|]; simpl.
  - destruct (String.eqb_spec (Product.status p) "active") as [E|E].
    + rewrite E. simpl. split; [|done]. intros _. by exists p.
    + split; [done|]. intros (p' & [= <-] & E'). done.
  - split; [done|]. by intros (p' & [=] & _).
Qed.

Lemma active_lines_total (st : Store) (items : list CartItem.t) :
  is_Some (reduce_totalPrice (map (populate_active st) (active_lines st items))).
Proof.
  unfold reduce_totalPrice, active_lines. generalize 0%Q.
  induction items as [|i items IH]; intros a; simpl; [by eexists|].
  destruct (line_is_active (populate_active st i)) eqn:E; [|apply IH].
  unfold line_is_active in E. cbn [map fold_left].
  destruct (PopulatedItem.product (populate_active st i)); [apply IH | done].
Qed.

Lemma getCart_valid_cart (user : ObjectId) (st : Store) (cart : Cart.t) :
  carts st !! user = Some cart ->
  Cart.validate cart = true ->
  exists total,
    getCart user st
    = (set_carts (<[user := Cart.mk (active_lines st (Cart.items cart))]>
                    (carts st)) st,
       json 200
         (CartBody.mk (active_lines st (Cart.items cart))
            (reduce_totalItems (active_lines st (Cart.items cart))) total)).
Proof.
  intros Hc Hv.
  set (items := active_lines st (Cart.items cart)).
  assert (Hv' : Cart.validate (Cart.mk items) = true) by (by apply filter_valid).
  destruct (active_lines_total st (Cart.items cart)) as [total Htotal].
  fold items in Htotal. exists total.
  unfold getCart, Cart_getOrCreate. rewrite Hc. fold items. rewrite Htotal.
  destruct (Nat.eqb_spec (length items) (length (Cart.items cart))) as [E|E];
    simpl.
  - f_equal.
    assert (Hitems : items = Cart.items cart) by (by apply filter_length_eq).
    rewrite Hitems, Cart_eta. symmetry. by apply set_carts_id.
  - by rewrite (Cart_save_ok _ _ _ Hv').
Qed.

(** [X5] [getCart] on a valid stored cart keeps exactly the lines whose product
    is in the catalog and active, stores the cart so filtered, and always
    answers 200 with those lines and their totals, also when a line
    refers to a product that is gone.  Asking again changes nothing, and
    a cart whose lines are all active leaves the store as it was. *)
Theorem getCart_keeps_the_active_lines
    (user : ObjectId) (st : Store) (cart : Cart.t) :
  carts st !! user = Some cart ->
  Cart.validate cart = true ->
  carts (fst (getCart user st))
  = <[user := Cart.mk (active_lines st (Cart.items cart))]> (carts st)
  /\ (exists b, snd (getCart user st) = json 200 b
        /\ CartBody.items b = active_lines st (Cart.items cart)
        /\ CartBody.totalItems b
           = reduce_totalItems (active_lines st (Cart.items cart)))
  /\ (forall item, In item (active_lines st (Cart.items cart)) <->
        In item (Cart.items cart)
        /\ exists p, products st !! CartItem.product item = Some p
                     /\ Product.status p = "active"%string)
  /\ getCart user (fst (getCart user st))
     = (fst (getCart user st), snd (getCart user st))
  /\ ((forall item, In item (Cart.items cart) ->
         exists p, products st !! CartItem.product item = Some p
                   /\ Product.status p = "active"%string) ->
      fst (getCart user st) = st).
Proof.
  intros Hc Hv.
  destruct (getCart_valid_cart user st cart Hc Hv) as [total Hrun].
  set (items := active_lines st (Cart.items cart)) in *.
  rewrite Hrun. cbn [fst snd].
  split; [done|]. split; [by eexists|]. split; [|split].
  - intros item. subst items. unfold active_lines.
    rewrite filter_In, line_is_active_spec. done.
  - set (st' := set_carts (<[user := Cart.mk items]> (carts st)) st).
    assert (Hv' : Cart.validate (Cart.mk items) = true)
      by (by apply filter_valid).
    assert (Hc' : carts st' !! user = Some (Cart.mk items))
      by (simpl; by rewrite lookup_insert_eq).
    destruct (getCart_valid_cart user st' (Cart.mk items) Hc' Hv')
      as [total' Hrun'].
    assert (Hsame : active_lines st' (Cart.items (Cart.mk items)) = items)
      by (subst items; apply filter_filter_same).
    rewrite Hsame in Hrun'.
    assert (Htot : total' = total).
    { pose proof Hrun as H1. pose proof Hrun' as H2.
      unfold getCart, Cart_getOrCreate in H1, H2. rewrite Hc in H1.
      rewrite Hc' in H2. fold items in H1. rewrite Hsame in H2.
      change (map (populate_active st') items)
        with (map (populate_active st) items) in H2.
      destruct (reduce_totalPrice (map (populate_active st) items)) as [t|].
      - destruct (if negb _ then _ else _) in H1; [done|].
        destruct (if negb _ then _ else _) in H2; [done|].
        injection H1 as _ <-. injection H2 as _ <-. done.
      - destruct (if negb _ then _ else _) in H1; done. }
    rewrite Hrun', Htot. unfold st'. simpl. by rewrite insert_insert_eq.
  - intros Hall.
    assert (Hitems : items = Cart.items cart).
    { subst items. apply filter_all. intros a Ha.
      apply line_is_active_spec. by apply Hall. }
    rewrite Hitems, Cart_eta. by apply set_carts_id.
Qed.

Lemma getCart_keeps_the_active_lines_witness :
  carts (fst (getCart 7%N (sample_store 10 [CartItem.mk 1%N 2; CartItem.mk 2%N 1])))
  = <[7%N := Cart.mk
       (active_lines (sample_store 10 [CartItem.mk 1%N 2; CartItem.mk 2%N 1])
          [CartItem.mk 1%N 2; CartItem.mk 2%N 1])]>
      (carts (sample_store 10 [CartItem.mk 1%N 2; CartItem.mk 2%N 1])).
Proof.
  apply (getCart_keeps_the_active_lines 7%N
           (sample_store 10 [CartItem.mk 1%N 2; CartItem.mk 2%N 1])
           (Cart.mk [CartItem.mk 1%N 2; CartItem.mk 2%N 1]));
    reflexivity.
Defined.

(** ** [updateCartItem] *)

(** [X6] [updateCartItem] with a quantity from 1 to 100 that the stock of the
    active product covers sets the line of the product in a valid cart to
    that quantity, whatever the line held, and leaves the other lines and
    the number of lines as they were. *)
Theorem updateCartItem_sets_the_quantity
    (user pid : ObjectId) (q : Z) (st : Store) (cart : Cart.t) (p : Product.t) :
  carts st !! user = Some cart ->
  Cart.validate cart = true ->
  is_Some (Cart_findItem pid cart) ->
  products st !! pid = Some p ->
  Product.status p = "active"%string ->
  1 <= q <= 100 ->
  q <= Product.quantity p ->
  carts (fst (updateCartItem user pid (Some q) st))
  = <[user := Cart.mk (set_line_quantity pid q (Cart.items cart))]> (carts st)
  /\ stored_quantity (fst (updateCartItem user pid (Some q) st)) user pid = q
  /\ (forall pid', pid' <> pid ->
        stored_quantity (fst (updateCartItem user pid (Some q) st)) user pid'
        = stored_quantity st user pid')
  /\ length (set_line_quantity pid q (Cart.items cart))
     = length (Cart.items cart)
  /\ (cart_products_present st user ->
      exists b, snd (updateCartItem user pid (Some q) st) = json 200 b
                /\ CartBody.items b
                   = set_line_quantity pid q (Cart.items cart)).
Proof.
  intros Hc Hv [i Hi] Hp Hs Hq Hstock.
  assert (Hv' : Cart.validate
                  (Cart.mk (set_line_quantity pid q (Cart.items cart))) = true)
    by (by apply set_line_quantity_valid).
  set (st' := set_carts
                (<[user := Cart.mk (set_line_quantity pid q (Cart.items cart))]>
                   (carts st)) st).
  assert (Hrun : updateCartItem user pid (Some q) st
    = (st', cart_reply st'
              (Cart.mk (set_line_quantity pid q (Cart.items cart))))).
  { unfold updateCartItem, Cart_updateItemQuantity, Product_findOne_active.
    replace ((q <? 0) || (100 <? q)) with false
      by (symmetry; apply orb_false_iff; split; apply Z.ltb_ge; lia).
    rewrite Hc, Hp, Hs, Hi. simpl String.eqb. cbv iota.
    replace (0 <? q) with true by (symmetry; apply Z.ltb_lt; lia).
    replace (Product.quantity p <? q) with false
      by (symmetry; apply Z.ltb_ge; lia).
    replace (q <=? 0) with false by (symmetry; apply Z.leb_gt; lia).
    by rewrite (Cart_save_ok _ _ _ Hv'). }
  rewrite Hrun. cbn [fst snd]. unfold Cart_findItem in Hi.
  split; [done|]. split; [|split; [|split]].
  - unfold stored_quantity, st'. simpl. rewrite lookup_insert_eq.
    unfold cart_quantity, Cart_findItem. simpl.
    by rewrite (set_line_quantity_find_same _ _ _ _ Hi).
  - intros pid' Hne. unfold stored_quantity, st'. simpl.
    rewrite lookup_insert_eq, Hc. unfold cart_quantity, Cart_findItem. simpl.
    by rewrite set_line_quantity_find_other.
  - clear. induction (Cart.items cart) as [|j items IH]; simpl; [done|].
    destruct (N.eqb (CartItem.product j) pid); simpl; [done | by rewrite IH].
  - intros Hpres.
    destruct (cart_reply_present st'
      (Cart.mk (set_line_quantity pid q (Cart.items cart)))) as (b & -> & Hb & _).
    + simpl. intros pid' Hin. rewrite set_line_quantity_products in Hin.
      by apply (Hpres cart).
    + by exists b.
Qed.

Lemma updateCartItem_sets_the_quantity_witness :
  stored_quantity
    (fst (updateCartItem 7%N 1%N (Some 5) (sample_store 10 [CartItem.mk 1%N 2])))
    7%N 1%N = 5.
Proof.
  apply (updateCartItem_sets_the_quantity 7%N 1%N 5
           (sample_store 10 [CartItem.mk 1%N 2]) (Cart.mk [CartItem.mk 1%N 2])
           (productA 10));
    [reflexivity | reflexivity | by eexists | reflexivity | reflexivity
    | lia | simpl; lia].
Defined.



(** [X8] For a user with a cart, [updateCartItem] with quantity 0 is
    [removeFromCart] when the cart has a line for the product; when it
    has none the update fails with the plain error of the model method
    and the store is left as it was, where [removeFromCart] on a valid
    cart leaves the store as it was without failing for the line. *)
Theorem updateCartItem_zero_is_removeFromCart
    (user pid : ObjectId) (st : Store) (cart : Cart.t) :
  carts st !! user = Some cart ->
  (is_Some (Cart_findItem pid cart) ->
   updateCartItem user pid (Some 0) st = removeFromCart user pid st)
  /\ (Cart_findItem pid cart = None ->
      updateCartItem user pid (Some 0) st
      = (st, next (Error "Item not found in cart"))
      /\ (Cart.validate cart = true ->
          removeFromCart user pid st = (st, cart_reply st cart))).
Proof.
  intros Hc. split.
  - intros [i Hi]. unfold updateCartItem, removeFromCart,
      Cart_updateItemQuantity. simpl. by rewrite Hc, Hi.
  - intros Hi. split.
    + unfold updateCartItem, Cart_updateItemQuantity. simpl. by rewrite Hc, Hi.
    + intros Hv. unfold removeFromCart, Cart_removeItem. rewrite Hc.
      unfold Cart_findItem in Hi. rewrite (remove_lines_absent _ _ Hi), Cart_eta.
      rewrite (Cart_save_ok _ _ _ Hv). by rewrite (set_carts_id _ _ _ Hc).
Qed.

Lemma updateCartItem_zero_is_removeFromCart_witness :
  (is_Some (Cart_findItem 1%N (Cart.mk [CartItem.mk 1%N 2])) ->
   updateCartItem 7%N 1%N (Some 0) (sample_store 10 [CartItem.mk 1%N 2])
   = removeFromCart 7%N 1%N (sample_store 10 [CartItem.mk 1%N 2]))
  /\ (Cart_findItem 1%N (Cart.mk [CartItem.mk 1%N 2]) = None ->
      updateCartItem 7%N 1%N (Some 0) (sample_store 10 [CartItem.mk 1%N 2])
      = (sample_store 10 [CartItem.mk 1%N 2],
         next (Error "Item not found in cart"))
      /\ (Cart.validate (Cart.mk [CartItem.mk 1%N 2]) = true ->
          removeFromCart 7%N 1%N (sample_store 10 [CartItem.mk 1%N 2])
          = (sample_store 10 [CartItem.mk 1%N 2],
             cart_reply (sample_store 10 [CartItem.mk 1%N 2])
               (Cart.mk [CartItem.mk 1%N 2])))).
Proof.
  apply (updateCartItem_zero_is_removeFromCart 7%N 1%N
           (sample_store 10 [CartItem.mk 1%N 2]) (Cart.mk [CartItem.mk 1%N 2])).
  reflexivity.
Defined.

(** ** [clearCart] *)

(** [X9] [clearCart] for a user with a cart stores the empty cart and answers
    with it; the carts of the other users are untouched.  After it the
    cart holds nothing of any product, the summary is all zeros, and a
    checkout is refused with a 400 and creates no order. *)
Theorem clearCart_empties_the_cart (user : ObjectId) (st : Store) (cart : Cart.t) :
  carts st !! user = Some cart ->
  clearCart user st
  = (set_carts (<[user := Cart.mk []]> (carts st)) st,
     json 200 (CartBody.mk [] 0 0))
  /\ (forall other, other <> user ->
        carts (fst (clearCart user st)) !! other = carts st !! other)
  /\ (forall pid, stored_quantity (fst (clearCart user st)) user pid = 0)
  /\ getCartSummary user (fst (clearCart user st))
     = (fst (clearCart user st), json 200 (CartSummary.mk 0 0 0))
  /\ (forall now newId body,
        exists message,
          createOrder now newId user body (fst (clearCart user st))
          = (fst (clearCart user st), next (AppError message 400))).
Proof.
  intros Hc.
  assert (Hrun : clearCart user st
    = (set_carts (<[user := Cart.mk []]> (carts st)) st,
       json 200 (CartBody.mk [] 0 0))).
  { unfold clearCart, Cart_clear. by rewrite Hc. }
  rewrite Hrun. cbn [fst]. split; [done|]. split; [|split; [|split]].
  - intros other Hne. simpl. by rewrite lookup_insert_ne.
  - intros pid. unfold stored_quantity. simpl. by rewrite lookup_insert_eq.
  - unfold getCartSummary. simpl. by rewrite lookup_insert_eq.
  - intros now newId body. unfold createOrder.
    destruct (CreateOrder.shippingAddress body) as [address|]; [|by eexists].
    destruct (negb (address_complete (Some address))); [by eexists|].
    simpl. rewrite lookup_insert_eq. simpl. by eexists.
Qed.

Lemma clearCart_empties_the_cart_witness :
  stored_quantity (fst (clearCart 7%N (sample_store 10 [CartItem.mk 1%N 2])))
    7%N 1%N = 0.
Proof.
  apply (clearCart_empties_the_cart 7%N (sample_store 10 [CartItem.mk 1%N 2])
           (Cart.mk [CartItem.mk 1%N 2])).
  reflexivity.
Defined.

(** ** [createOrder]: all or nothing *)

Lemma unavailable_none (st : Store) (items : list CartItem.t) :
  (0 <? length (unavailableProducts (map (populate st) items)))%nat = false ->
  forall item, In item items -> offending st item = false.
Proof.
  intros Hu item Hin.
  pose proof (unavailableProducts_names st items) as Hnames.
  destruct (unavailableProducts (map (populate st) items)); [|done].
  apply Forall2_nil_inv_r in Hnames.
  destruct (offending st item) eqn:E; [|done].
  assert (In item (List.filter (offending st) items)) as Hf
    by (by apply filter_In).
  rewrite Hnames in Hf. destruct Hf.
Qed.

Lemma createOrder_next_inv (now : Date) (newId user : ObjectId)
    (body : CreateOrder.body) (st st' : Store) (e : Exn) :
  createOrder now newId user body st = (st', next e) -> st' = st.
Proof.
  unfold createOrder.
  destruct (CreateOrder.shippingAddress body); [|by intros [= <-]].
  destruct (negb _); [by intros [= <-]|].
  destruct (carts st !! user) as [cart|]; [|by intros [= <-]].
  destruct (Nat.eqb _ _); [by intros [= <-]|].
  destruct (0 <? length _)%nat; [by intros [= <-]|].
  destruct (reduce_totalPrice _); [|by intros [= <-]].
  destruct (Order_save _ _ _); [by intros [= <-]|].
  unfold Cart_save. simpl. discriminate.
Qed.

Lemma createOrder_json_inv (now : Date) (newId user : ObjectId)
    (body : CreateOrder.body) (st st' : Store) (code : Z) (order : Order.t) :
  createOrder now newId user body st = (st', json code order) ->
  exists cart,
    code = 201
    /\ carts st !! user = Some cart
    /\ Cart.items cart <> []
    /\ (forall item, In item (Cart.items cart) -> offending st item = false)
    /\ Order.user order = user
    /\ Order.status order = "pending"%string
    /\ Order.paymentStatus order = "pending"%string
    /\ Order.items order = order_items (map (populate st) (Cart.items cart))
    /\ Order.validate order = true
    /\ totals_consistent order
    /\ st' = set_carts (<[user := Cart.mk []]> (carts st))
               (reduce_quantities (map (populate st) (Cart.items cart))
                  (set_orders (<[newId := order]> (orders st)) st)).
Proof.
  unfold createOrder.
  destruct (CreateOrder.shippingAddress body) as [address|]; [|done].
  destruct (negb _); [done|].
  destruct (carts st !! user) as [cart|] eqn:Hc; [|done].
  destruct (Nat.eqb _ _) eqn:Hlen; [done|].
  destruct (0 <? length _)%nat eqn:Hu; [done|].
  destruct (reduce_totalPrice _) as [subtotal|]; [|done].
  match goal with |- context [Order_save newId ?o st] => set (o0 := o) end.
  destruct (Order_save newId o0 st) as [e|st1] eqn:Hsave; [done|].
  apply Order_save_inr in Hsave as (Hv & Hcons & ->).
  unfold Cart_save. simpl (Cart.validate _). cbv iota. intros [= <- <- <-].
  exists cart. split; [done|]. split; [done|].
  split; [by destruct (Cart.items cart)|].
  split; [by apply unavailable_none|].
  split; [done|]. split; [done|].
  split; [unfold o0; simpl; by destruct (String.eqb _ _)|].
  split; [done|]. split; [done|]. split; [done|].
  by rewrite (proj2 (reduce_quantities_others _ _)).
Qed.

(** [X10] [createOrder] is all or nothing.  Either it passes an error to [next]
    and the store is what it was, or it answers 201 and three things have
    happened together: the order is stored under its identifier, the cart
    of the user is empty, and every product has its quantity on hand
    lowered by the units the cart held of it. *)
Theorem createOrder_all_or_nothing
    (now : Date) (newId user : ObjectId) (body : CreateOrder.body) (st : Store) :
  (exists e, createOrder now newId user body st = (st, next e))
  \/ (exists order cart,
        snd (createOrder now newId user body st) = json 201 order
        /\ carts st !! user = Some cart
        /\ orders (fst (createOrder now newId user body st))
           = <[newId := order]> (orders st)
        /\ carts (fst (createOrder now newId user body st))
           = <[user := Cart.mk []]> (carts st)
        /\ (forall pid,
              products (fst (createOrder now newId user body st)) !! pid
              = (fun p => Product.set_quantity
                            (Product.quantity p
                             - cart_units pid (Cart.items cart)) p)
                <$> products st !! pid)).
Proof.
  destruct (createOrder now newId user body st) as [st' [e|code order]] eqn:H.
  - left. exists e. by rewrite (createOrder_next_inv _ _ _ _ _ _ _ H).
  - right. apply createOrder_json_inv in H
      as (cart & -> & Hc & _ & _ & _ & _ & _ & _ & _ & _ & ->).
    exists order, cart. cbn [fst snd]. split; [done|]. split; [done|].
    split; [|split].
    + simpl. by rewrite (proj1 (reduce_quantities_others _ _)).
    + done.
    + intros pid. simpl. by rewrite reduce_quantities_lookup.
Qed.

Lemma ordered_units (st : Store) (pid : ObjectId) (items : list CartItem.t) :
  (forall item, In item items -> is_Some (products st !! CartItem.product item)) ->
  ordered_quantity pid (order_items (map (populate st) items))
  = cart_units pid items.
Proof.
  induction items as [|i items IH]; intros H; [done|].
  destruct (H i (or_introl eq_refl)) as [p Hp].
  assert (IH' : ordered_quantity pid (order_items (map (populate st) items))
                = cart_units pid items)
    by (apply IH; intros j Hj; apply H; by right).
  unfold ordered_quantity, cart_units, order_items, populate in IH' |- *.
  simpl. rewrite Hp. simpl.
  destruct (N.eqb (CartItem.product i) pid); [f_equal|]; exact IH'.
Qed.

Lemma Product_set_quantity_back (p : Product.t) (d : Z) :
  Product.set_quantity
    (Product.quantity (Product.set_quantity (Product.quantity p - d) p) + d)
    (Product.set_quantity (Product.quantity p - d) p) = p.
Proof.
  destruct p. unfold Product.set_quantity. simpl. f_equal. lia.
Qed.

(** [X11] An order that [createOrder] has just created can be cancelled by its
    user, and the cancellation gives back what the checkout took: after
    it every product has the quantity on hand it had before the checkout.
    The order stays, cancelled; the cart stays empty. *)
Theorem createOrder_then_cancelOrder_restores_stock
    (now : Date) (newId user : ObjectId) (body : CreateOrder.body)
    (st st1 : Store) (order : Order.t) :
  createOrder now newId user body st = (st1, json 201 order) ->
  exists st2 order',
    cancelOrder user newId st1 = (st2, json 200 order')
    /\ products st2 = products st
    /\ orders st2 !! newId = Some order'
    /\ Order.status order' = "cancelled"%string
    /\ Order.items order' = Order.items order
    /\ carts st2 !! user = Some (Cart.mk []).
Proof.
  intros H. apply createOrder_json_inv in H
    as (cart & _ & Hc & Hne & Hoff & Hu & Hs & _ & Hitems & Hv & Hcons & ->).
  set (st1 := set_carts _ _).
  assert (Hfind : Order_findOne newId user st1 = Some order).
  { apply Order_findOne_Some. split; [|done]. unfold st1. simpl.
    rewrite (proj1 (reduce_quantities_others _ _)). simpl.
    by rewrite lookup_insert_eq. }
  set (order' := Order.set_paymentStatus "refunded"
                   (Order.set_status "cancelled" order)).
  assert (Hrun : cancelOrder user newId st1
    = (set_orders (<[newId := order']>
                     (orders (restore_quantities (Order.items order) st1)))
         (restore_quantities (Order.items order) st1),
       json 200 order')).
  { unfold cancelOrder. rewrite Hfind, Hs. simpl negb. cbv iota.
    fold order'. rewrite (Order_save_ok newId order'); [done | |exact Hcons].
    by apply validate_cancelled. }
  eexists _, order'. split; [exact Hrun|].
  split; [|split; [|split; [|split]]].
  - apply map_eq. intros pid. simpl.
    rewrite restore_quantities_lookup. unfold st1. simpl.
    rewrite reduce_quantities_lookup. simpl.
    rewrite Hitems, ordered_units.
    + destruct (products st !! pid) as [p|]; [|done].
      cbn [fmap option_fmap option_map]. f_equal.
      apply Product_set_quantity_back.
    + intros item Hin. destruct (not_offending st item (Hoff item Hin))
        as (p & Hp & _). by exists p.
  - simpl. by rewrite lookup_insert_eq.
  - done.
  - done.
  - simpl. rewrite (proj2 (restore_quantities_others _ _)). unfold st1. simpl.
    by rewrite lookup_insert_eq.
Qed.

Lemma createOrder_then_cancelOrder_restores_stock_witness :
  exists st2 order',
    cancelOrder 7%N 9%N checked_out_store = (st2, json 200 order')
    /\ products st2 = products (sample_store 10 [CartItem.mk 1%N 2])
    /\ orders st2 !! 9%N = Some order'
    /\ Order.status order' = "cancelled"%string
    /\ Order.items order' = Order.items sample_created
    /\ carts st2 !! 7%N = Some (Cart.mk []).
Proof.
  apply (createOrder_then_cancelOrder_restores_stock 0 9%N 7%N sample_body
           (sample_store 10 [CartItem.mk 1%N 2])).
  vm_compute. reflexivity.
Defined.

Lemma cart_units_absent (pid : ObjectId) (items : list CartItem.t) :
  ~ In pid (map CartItem.product items) -> cart_units pid items = 0.
Proof.
  induction items as [|i items IH]; [done|]. intros Hn.
  cbn [cart_units fold_right]. fold (cart_units pid items).
  destruct (N.eqb_spec (CartItem.product i) pid) as [E|E].
  - exfalso. apply Hn. by left.
  - apply IH. intros Hin. apply Hn. by right.
Qed.

Lemma cart_units_distinct (item : CartItem.t) (items : list CartItem.t) :
  List.NoDup (map CartItem.product items) -> In item items ->
  cart_units (CartItem.product item) items = CartItem.quantity item.
Proof.
  induction items as [|i items IH]; [done|]. intros Hd Hin.
  apply NoDup_cons_iff in Hd as [Hni Hd].
  cbn [cart_units fold_right]. fold (cart_units (CartItem.product item) items).
  destruct Hin as [->|Hin].
  - rewrite N.eqb_refl, cart_units_absent by done. lia.
  - destruct (N.eqb_spec (CartItem.product i) (CartItem.product item)) as [E|E].
    + exfalso. apply Hni. rewrite E. apply in_map_iff. by exists item.
    + by apply IH.
Qed.

(** [X12] [createOrder] does not oversell: when the cart of the user has one
    line per product and no product has a negative quantity on hand, no
    product has a negative quantity on hand after the checkout. *)
Theorem createOrder_never_oversells
    (now : Date) (newId user : ObjectId) (body : CreateOrder.body) (st : Store) :
  (forall cart, carts st !! user = Some cart ->
     List.NoDup (map CartItem.product (Cart.items cart))) ->
  stock_nonneg st ->
  stock_nonneg (fst (createOrder now newId user body st)).
Proof.
  intros Hd Hst.
  destruct (createOrder now newId user body st) as [st' [e|code order]] eqn:H.
  - by rewrite (createOrder_next_inv _ _ _ _ _ _ _ H).
  - apply createOrder_json_inv in H
      as (cart & _ & Hc & _ & Hoff & _ & _ & _ & _ & _ & _ & ->).
    intros pid p'. simpl. rewrite reduce_quantities_lookup. simpl.
    destruct (products st !! pid) as [p|] eqn:Hp; [|done].
    intros [= <-]. simpl. specialize (Hst pid p Hp).
    destruct (in_dec N.eq_dec pid (map CartItem.product (Cart.items cart)))
      as [Hin|Hout].
    + apply in_map_iff in Hin as (item & <- & Hin).
      rewrite (cart_units_distinct item _ (Hd cart Hc) Hin).
      destruct (not_offending st item (Hoff item Hin)) as (p0 & Hp0 & _ & Hq).
      rewrite Hp in Hp0. injection Hp0 as <-. lia.
    + rewrite (cart_units_absent _ _ Hout). lia.
Qed.

Lemma createOrder_never_oversells_witness :
  stock_nonneg
    (fst (createOrder 0 9%N 7%N sample_body
            (sample_store 10 [CartItem.mk 1%N 2]))).
Proof.
  apply (createOrder_never_oversells 0 9%N 7%N sample_body
           (sample_store 10 [CartItem.mk 1%N 2])).
  - intros cart Hc. simpl in Hc. apply lookup_singleton_Some in Hc as [_ <-].
    simpl. constructor; [intros [] | constructor].
  - intros pid p Hp. simpl in Hp. unfold catalog in Hp.
    apply lookup_singleton_Some in Hp as [_ <-]. simpl. lia.
Defined.

(** ** Orders of other users *)

Lemma Order_findOne_foreign (id user : ObjectId) (st : Store) :
  (forall o, orders st !! id = Some o -> Order.user o <> user) ->
  Order_findOne id user st = None.
Proof.
  intros H. unfold Order_findOne.
  destruct (orders st !! id) as [o|] eqn:Ho; [|done].
  destruct (N.eqb_spec (Order.user o) user) as [E|E]; [|done].
  by destruct (H o eq_refl).
Qed.

(** [X13] An order is visible to its user only.  For an identifier under which
    the store has no order of the user, because there is none or because
    it belongs to someone else, [getOrder], [cancelOrder],
    [processPayment], [getPaymentStatus] and [processRefund] all answer
    404 "Order not found" and leave the store as it was. *)
Theorem foreign_order_is_not_found (user id : ObjectId) (st : Store) :
  (forall o, orders st !! id = Some o -> Order.user o <> user) ->
  getOrder user id st = (st, next (AppError "Order not found" 404))
  /\ cancelOrder user id st = (st, next (AppError "Order not found" 404))
  /\ (forall now random method details,
        method <> ""%string ->
        processPayment now random user (Some id) method details st
        = (st, next (AppError "Order not found" 404)))
  /\ getPaymentStatus user id st = (st, next (AppError "Order not found" 404))
  /\ (forall now reason,
        processRefund now user id reason st
        = (st, next (AppError "Order not found" 404))).
Proof.
  intros H. apply Order_findOne_foreign in H.
  unfold getOrder, cancelOrder, getPaymentStatus, processRefund, processPayment.
  rewrite H. repeat split; try done.
  intros now random method details Hm.
  by destruct (String.eqb_spec method "").
Qed.

Lemma foreign_order_is_not_found_witness :
  cancelOrder 8%N 5%N (order_store (sample_order "pending" "pending" None))
  = (order_store (sample_order "pending" "pending" None),
     next (AppError "Order not found" 404)).
Proof.
  apply (foreign_order_is_not_found 8%N 5%N
           (order_store (sample_order "pending" "pending" None))).
  intros o Ho. simpl in Ho. apply lookup_singleton_Some in Ho as [_ <-].
  simpl. lia.
Defined.

(** ** Stored orders stay sound *)

(** [X14] Every handler keeps the stored orders sound: when every stored order
    passes schema validation and has its total within 0.01 of the sum of
    its parts, this still holds after [createOrder], [cancelOrder],
    [processPayment] and [processRefund], whatever they reply, and after
    the cart handlers, which write no order. *)
Theorem handlers_keep_orders_sound (st : Store) :
  orders_sound st ->
  (forall now newId user body,
     orders_sound (fst (createOrder now newId user body st)))
  /\ (forall user id, orders_sound (fst (cancelOrder user id st)))
  /\ (forall now random user orderId method details,
        orders_sound
          (fst (processPayment now random user orderId method details st)))
  /\ (forall now user id reason,
        orders_sound (fst (processRefund now user id reason st)))
  /\ (forall user productId quantity,
        orders_sound (fst (addToCart user productId quantity st)))
  /\ (forall user productId quantity,
        orders_sound (fst (updateCartItem user productId quantity st)))
  /\ (forall user productId, orders_sound (fst (removeFromCart user productId st)))
  /\ (forall user, orders_sound (fst (clearCart user st)))
  /\ (forall user, orders_sound (fst (getCart user st))).
Proof.
  intros Hs.
  split; [intros; by apply createOrder_sound|].
  split; [intros; by apply cancelOrder_sound|].
  split; [intros; by apply processPayment_sound|].
  split; [intros; by apply processRefund_sound|].
  split; [intros; eapply orders_sound_same; [apply addToCart_step | exact Hs]|].
  split; [intros; eapply orders_sound_same;
            [apply updateCartItem_step | exact Hs]|].
  split; [intros; eapply orders_sound_same;
            [apply removeFromCart_step | exact Hs]|].
  split; [intros; eapply orders_sound_same; [apply clearCart_step | exact Hs]|].
  intros; eapply orders_sound_same; [apply getCart_step | exact Hs].
Qed.

Lemma handlers_keep_orders_sound_witness :
  orders_sound
    (fst (cancelOrder 7%N 5%N
            (order_store (sample_order "pending" "pending" None)))).
Proof.
  apply (handlers_keep_orders_sound
           (order_store (sample_order "pending" "pending" None))).
  intros id o Ho. simpl in Ho. apply lookup_singleton_Some in Ho as [_ <-].
  split; [reflexivity|].
  unfold totals_consistent. vm_compute. discriminate.
Defined.

(** ** [processPayment]: the payment methods *)

(** [X15] For an order of the user that is neither paid nor cancelled:
    a method outside the four of the switch is refused with 400 "Invalid
    payment method"; a card payment without a card number or without a
    CVV is refused with 400; a wallet payment is refused with 400 when
    the total is above the balance of 10000, and goes through for a
    stored order otherwise, with a transaction id made of the time; every
    refusal leaves the store as it was. *)
Theorem processPayment_method_dispatch
    (now : Date) (random : Q) (user id : ObjectId) (st : Store) (o : Order.t) :
  Order_findOne id user st = Some o ->
  Order.paymentStatus o <> "paid"%string ->
  Order.status o <> "cancelled"%string ->
  (forall method details,
     method <> ""%string ->
     ~ In method Order.paymentMethod_enum ->
     processPayment now random user (Some id) method details st
     = (st, next (AppError "Invalid payment method" 400)))
  /\ (forall details,
        match details with
        | None => True
        | Some d => PaymentDetails.cardNumber d = ""%string
                    \/ PaymentDetails.cvv d = ""%string
        end ->
        processPayment now random user (Some id) "credit_card" details st
        = (st, next (AppError "Credit card details are required" 400)))
  /\ (forall details,
        (10000 < Order.total o)%Q ->
        processPayment now random user (Some id) "wallet" details st
        = (st, next (AppError "Insufficient wallet balance" 400)))
  /\ (forall details,
        (Order.total o <= 10000)%Q ->
        Order.validate o = true -> totals_consistent o ->
        exists st',
          processPayment now random user (Some id) "wallet" details st
          = (st', json 200
                    (PaymentBody.mk true "Payment processed from wallet" id
                       (Some ("WALLET_" +:+ show_Z now))
                       (Some (Order.total o)) "paid" "wallet"))).
Proof.
  intros Hfind Hpaid Hcancelled.
  assert (Hp : String.eqb (Order.paymentStatus o) "paid" = false)
    by (by apply String.eqb_neq).
  assert (Hc : String.eqb (Order.status o) "cancelled" = false)
    by (by apply String.eqb_neq).
  split; [|split; [|split]].
  - intros method details Hm Hout.
    rewrite (processPayment_found _ _ _ _ _ _ _ _ Hfind Hm), Hp, Hc.
    unfold payment_switch.
    destruct (String.eqb_spec method "cash_on_delivery") as [->|_];
      [exfalso; apply Hout; simpl; tauto|].
    destruct (String.eqb_spec method "credit_card") as [->|_];
      [exfalso; apply Hout; simpl; tauto|].
    destruct (String.eqb_spec method "bank_transfer") as [->|_];
      [exfalso; apply Hout; simpl; tauto|].
    destruct (String.eqb_spec method "wallet") as [->|_];
      [exfalso; apply Hout; simpl; tauto|].
    done.
  - intros details Hd.
    rewrite (processPayment_found _ _ _ _ _ _ _ _ Hfind) by done.
    rewrite Hp, Hc. unfold payment_switch. simpl String.eqb. cbv iota.
    destruct details as [d|]; [|done].
    destruct Hd as [-> | ->]; simpl; [done|].
    by rewrite orb_true_r.
  - intros details Htotal.
    rewrite (processPayment_found _ _ _ _ _ _ _ _ Hfind) by done.
    rewrite Hp, Hc. unfold payment_switch. simpl String.eqb. cbv iota.
    by rewrite (proj2 (Qlt_bool_true _ _) Htotal).
  - intros details Htotal Hv Hcons.
    rewrite (processPayment_found _ _ _ _ _ _ _ _ Hfind) by done.
    rewrite Hp, Hc. unfold payment_switch. simpl String.eqb. cbv iota.
    rewrite (proj2 (Qlt_bool_false _ _) Htotal). cbn [PaymentResult.success
      PaymentResult.transactionId PaymentResult.message].
    destruct (validate_paid "wallet" o eq_refl Hv) as [Hv1 Hv2].
    destruct (String.eqb (Order.status o) "pending").
    + rewrite Order_save_ok; [by eexists | exact Hv2 | exact Hcons].
    + rewrite Order_save_ok; [by eexists | exact Hv1 | exact Hcons].
Qed.

Lemma processPayment_method_dispatch_witness :
  processPayment 0 (1 # 2) 7%N (Some 5%N) "paypal" None
    (order_store (sample_order "pending" "pending" None))
  = (order_store (sample_order "pending" "pending" None),
     next (AppError "Invalid payment method" 400)).
Proof.
  apply (processPayment_method_dispatch 0 (1 # 2) 7%N 5%N
           (order_store (sample_order "pending" "pending" None))
           (sample_order "pending" "pending" None));
    [reflexivity | discriminate | discriminate | discriminate | ].
  simpl. intros [H|[H|[H|[H|[]]]]]; discriminate H.
Defined.

(** ** After a cancellation, a payment, a refund *)

Lemma cancelOrder_json_inv (user id : ObjectId) (st st' : Store) (code : Z)
    (o' : Order.t) :
  cancelOrder user id st = (st', json code o') ->
  exists o,
    Order_findOne id user st = Some o
    /\ o' = Order.set_paymentStatus "refunded" (Order.set_status "cancelled" o)
    /\ orders st' = <[id := o']> (orders st)
    /\ carts st' = carts st.
Proof.
  unfold cancelOrder.
  destruct (Order_findOne id user st) as [o|] eqn:Hfind; [|done].
  destruct (negb _); [done|].
  destruct (Order_save _ _ _) as [e|st2] eqn:Hsave; [done|].
  intros [= <- _ <-]. apply Order_save_inr in Hsave as (_ & _ & ->).
  exists o. simpl.
  destruct (restore_quantities_others (Order.items o) st) as [-> ->]. done.
Qed.

Lemma Order_findOne_insert (id user : ObjectId) (st st' : Store) (o : Order.t) :
  orders st' = <[id := o]> (orders st) -> Order.user o = user ->
  Order_findOne id user st' = Some o.
Proof.
  intros Ho Hu. apply Order_findOne_Some.
  by rewrite Ho, lookup_insert_eq.
Qed.

(** [X16] An order its user has cancelled takes no money and gives none back:
    after a successful [cancelOrder], every [processPayment] for the
    order is refused with [OrderCancelled] and every [processRefund] with
    [NotPaid], both leaving the store as it is, and [getPaymentStatus]
    shows the order cancelled with payment status refunded. *)
Theorem cancelled_order_takes_no_payment
    (user id : ObjectId) (st st' : Store) (o' : Order.t) :
  cancelOrder user id st = (st', json 200 o') ->
  (forall now random method details,
     method <> ""%string ->
     processPayment now random user (Some id) method details st'
     = (st', next OrderCancelled))
  /\ (forall now reason,
        processRefund now user id reason st' = (st', next NotPaid))
  /\ getOrder user id st' = (st', json 200 o')
  /\ getPaymentStatus user id st'
     = (st', json 200
               (PaymentStatus.mk id "refunded" (Order.paymentMethod o')
                  (Order.paymentTransactionId o') (Order.total o') "cancelled")).
Proof.
  intros H. apply cancelOrder_json_inv in H as (o & Hfind & -> & Ho & _).
  apply Order_findOne_Some in Hfind as [_ Hu].
  set (o' := Order.set_paymentStatus "refunded" (Order.set_status "cancelled" o))
    in *.
  assert (Hfind' : Order_findOne id user st' = Some o')
    by (by apply (Order_findOne_insert id user st)).
  split; [|split; [|split]].
  - intros now random method details Hm.
    by rewrite (processPayment_found _ _ _ _ _ _ _ _ Hfind' Hm).
  - intros now reason. unfold processRefund. by rewrite Hfind'.
  - unfold getOrder. by rewrite Hfind'.
  - unfold getPaymentStatus. by rewrite Hfind'.
Qed.

Lemma cancelled_order_takes_no_payment_witness :
  processRefund 0 7%N 5%N None
    (fst (cancelOrder 7%N 5%N
            (order_store (sample_order "pending" "pending" None))))
  = (fst (cancelOrder 7%N 5%N
            (order_store (sample_order "pending" "pending" None))),
     next NotPaid).
Proof.
  apply (cancelled_order_takes_no_payment 7%N 5%N
           (order_store (sample_order "pending" "pending" None))
           (fst (cancelOrder 7%N 5%N
                   (order_store (sample_order "pending" "pending" None))))
           (Order.set_paymentStatus "refunded"
              (Order.set_status "cancelled"
                 (sample_order "pending" "pending" None)))).
  vm_compute. reflexivity.
Defined.







(** ** [revokeProduct] and [reactivateProduct] *)

Lemma revokeProduct_known (id : ObjectId) (st : Store) (p : Product.t) :
  products st !! id = Some p ->
  revokeProduct id st
  = (set_products (<[id := Product_set_status "revoked" p]> (products st)) st,
     json 200 (Some (Product_set_status "revoked" p))).
Proof.
  intros Hp. unfold revokeProduct, Product_findByIdAndUpdate_status.
  by rewrite Hp.
Qed.

Lemma createOrder_offending (now : Date) (newId user : ObjectId)
    (body : CreateOrder.body) (st : Store) (cart : Cart.t) (item : CartItem.t) :
  carts st !! user = Some cart -> In item (Cart.items cart) ->
  offending st item = true ->
  exists e, createOrder now newId user body st = (st, next e).
Proof.
  intros Hc Hin Hoff.
  destruct (createOrder now newId user body st) as [st' [e|code order]] eqn:H.
  - exists e. by rewrite (createOrder_next_inv _ _ _ _ _ _ _ H).
  - apply createOrder_json_inv in H
      as (cart' & _ & Hc' & _ & Hok & _).
    rewrite Hc in Hc'. injection Hc' as <-.
    rewrite (Hok item Hin) in Hoff. discriminate.
Qed.

(** [X19] A revoked product is off sale.  [revokeProduct] on a product of the
    catalog changes its status only, and no cart and no order.  From
    then on [addToCart] for the product and [updateCartItem] to a
    quantity above 0 are refused, a checkout of a cart with a line for
    the product is refused, all three leaving the store as it is, and
    [getCart] takes the lines of the product out of a valid cart. *)
Theorem revokeProduct_takes_the_product_off_sale
    (id : ObjectId) (st : Store) (p : Product.t) :
  products st !! id = Some p ->
  snd (revokeProduct id st) = json 200 (Some (Product_set_status "revoked" p))
  /\ products (fst (revokeProduct id st))
     = <[id := Product_set_status "revoked" p]> (products st)
  /\ carts (fst (revokeProduct id st)) = carts st
  /\ orders (fst (revokeProduct id st)) = orders st
  /\ (forall user quantity,
        1 <= default 1 quantity <= 100 ->
        addToCart user (Some id) quantity (fst (revokeProduct id st))
        = (fst (revokeProduct id st), next NotFound))
  /\ (forall user q,
        0 < q ->
        exists e,
          updateCartItem user id (Some q) (fst (revokeProduct id st))
          = (fst (revokeProduct id st), next e))
  /\ (forall now newId user body cart item,
        carts st !! user = Some cart ->
        In item (Cart.items cart) -> CartItem.product item = id ->
        exists e,
          createOrder now newId user body (fst (revokeProduct id st))
          = (fst (revokeProduct id st), next e))
  /\ (forall user cart,
        carts st !! user = Some cart -> Cart.validate cart = true ->
        stored_quantity (fst (getCart user (fst (revokeProduct id st)))) user id
        = 0).
Proof.
  intros Hp. rewrite (revokeProduct_known id st p Hp). cbn [fst snd].
  set (st' := set_products _ st).
  assert (Hp' : products st' !! id = Some (Product_set_status "revoked" p))
    by (unfold st'; simpl; by rewrite lookup_insert_eq).
  split; [done|]. split; [done|]. split; [done|]. split; [done|].
  split; [|split; [|split]].
  - intros user quantity Hq. apply addToCart_not_in_stock; [done|].
    unfold Product_findOne_inStock. by rewrite Hp'.
  - intros user q Hq. unfold updateCartItem.
    destruct ((q <? 0) || (100 <? q)); [by eexists|].
    destruct (carts st' !! user); [|by eexists].
    replace (0 <? q) with true by (symmetry; apply Z.ltb_lt; lia).
    unfold Product_findOne_active. rewrite Hp'. simpl. by eexists.
  - intros now newId user body cart item Hc Hin Hid.
    apply (createOrder_offending _ _ _ _ _ cart item); [done | done |].
    unfold offending. by rewrite Hid, Hp'.
  - intros user cart Hc Hv.
    assert (Hc' : carts st' !! user = Some cart) by done.
    destruct (getCart_valid_cart user st' cart Hc' Hv) as [total ->].
    unfold stored_quantity. simpl. rewrite lookup_insert_eq.
    unfold cart_quantity, Cart_findItem. simpl.
    destruct (List.find _ _) as [i|] eqn:Hfind; [|done].
    apply find_some in Hfind as [Hin Heq]. apply N.eqb_eq in Heq.
    apply filter_In in Hin as [_ Hact].
    apply line_is_active_spec in Hact as (p0 & Hp0 & Hs0).
    rewrite Heq, Hp' in Hp0. injection Hp0 as <-. discriminate Hs0.
Qed.

Lemma revokeProduct_takes_the_product_off_sale_witness :
  addToCart 7%N (Some 1%N) (Some 1)
    (fst (revokeProduct 1%N (sample_store 10 [CartItem.mk 1%N 2])))
  = (fst (revokeProduct 1%N (sample_store 10 [CartItem.mk 1%N 2])),
     next NotFound).
Proof.
  apply (revokeProduct_takes_the_product_off_sale 1%N
           (sample_store 10 [CartItem.mk 1%N 2]) (productA 10));
    [reflexivity | simpl; lia].
Defined.

(** [X20] [reactivateProduct] undoes [revokeProduct]: for a product that was
    active, revoking and then reactivating leaves the store exactly as it
    was, quantity on hand and price included.  Both answer 404 for an
    identifier the catalog does not have and change nothing, and both
    change nothing when repeated. *)
Theorem reactivateProduct_undoes_revokeProduct (id : ObjectId) (st : Store) :
  (forall p, products st !! id = Some p ->
     Product.status p = "active"%string ->
     fst (reactivateProduct id (fst (revokeProduct id st))) = st)
  /\ (products st !! id = None ->
      revokeProduct id st = (st, json 404 None)
      /\ reactivateProduct id st = (st, json 404 None))
  /\ fst (revokeProduct id (fst (revokeProduct id st)))
     = fst (revokeProduct id st)
  /\ fst (reactivateProduct id (fst (reactivateProduct id st)))
     = fst (reactivateProduct id st)
  /\ (forall other, other <> id ->
        products (fst (revokeProduct id st)) !! other = products st !! other
        /\ products (fst (reactivateProduct id st)) !! other
           = products st !! other).
Proof.
  unfold revokeProduct, reactivateProduct, Product_findByIdAndUpdate_status.
  split; [|split; [|split; [|split]]].
  - intros p Hp Hs. rewrite Hp. simpl. rewrite lookup_insert_eq. simpl.
    rewrite insert_insert_eq.
    assert (Hback : Product_set_status "active"
                      (Product_set_status "revoked" p) = p)
      by (destruct p; simpl in Hs; by rewrite Hs).
    rewrite Hback, (insert_id _ _ _ Hp). by destruct st.
  - by intros ->.
  - destruct (products st !! id) as [p|] eqn:Hp; simpl.
    + rewrite lookup_insert_eq. simpl. by rewrite insert_insert_eq.
    + by rewrite Hp.
  - destruct (products st !! id) as [p|] eqn:Hp; simpl.
    + rewrite lookup_insert_eq. simpl. by rewrite insert_insert_eq.
    + by rewrite Hp.
  - intros other Hne.
    destruct (products st !! id) as [p|]; simpl; [|done].
    by rewrite !lookup_insert_ne.
Qed.

(** ** [sanitizeFileNameHint] *)

Lemma alnum_not_dash (c : ascii) : is_alnum c = true -> is_dash c = false.
Proof.
  intros H. destruct (is_dash c) eqn:E; [|done].
  apply Ascii.eqb_eq in E. subst c. discriminate H.
Qed.

Lemma slug_char_lower (c : ascii) :
  is_alnum c || is_dash c = true -> lower_ascii c = c.
Proof.
  intros H. apply orb_true_iff in H as [H|H].
  - unfold is_alnum in H. unfold lower_ascii.
    destruct ((65 <=? N_of_ascii c)%N && (N_of_ascii c <=? 90)%N) eqn:E; [|done].
    apply andb_true_iff in E as [E1 E2].
    apply N.leb_le in E1, E2.
    apply orb_true_iff in H as [H|H]; apply andb_true_iff in H as [H1 H2];
      apply N.leb_le in H1, H2; lia.
  - apply Ascii.eqb_eq in H. by subst c.
Qed.

Lemma slug_char_class (c : ascii) :
  is_alnum c || is_dash c = true ->
  Bool.eqb (negb (is_alnum c)) (is_dash c) = true.
Proof.
  intros H. destruct (is_alnum c) eqn:Ha.
  - by rewrite (alnum_not_dash c Ha).
  - simpl in H. by rewrite H.
Qed.

Lemma replace_runs_chars (p q : ascii -> bool) (b : bool) (s : string) :
  q "-"%char = true ->
  (forall c, p c = false -> q c = true) ->
  all_chars q (replace_runs p b s) = true.
Proof.
  intros Hd Hq. revert b. induction s as [|c s IH]; intros b; simpl; [done|].
  destruct (p c) eqn:E.
  - destruct b; simpl; [apply IH|]. by rewrite Hd, IH.
  - simpl. by rewrite (Hq c E), IH.
Qed.

Lemma replace_runs_keeps (p q : ascii -> bool) (b : bool) (s : string) :
  q "-"%char = true -> all_chars q s = true ->
  all_chars q (replace_runs p b s) = true.
Proof.
  intros Hd. revert b. induction s as [|c s IH]; intros b; simpl; [done|].
  intros H. apply andb_true_iff in H as [Hc H].
  destruct (p c); [destruct b|]; simpl; rewrite ?Hd, ?Hc; by apply IH.
Qed.

Lemma replace_dash_runs_nodd (b : bool) (s : string) :
  no_double_dash (replace_runs is_dash b s) = true
  /\ (b = true -> starts_dash (replace_runs is_dash b s) = false).
Proof.
  revert b. induction s as [|c s IH]; intros b; simpl; [done|].
  destruct (is_dash c) eqn:E.
  - destruct b.
    + apply IH.
    + split; [|done]. simpl.
      destruct (IH true) as [H1 H2]. by rewrite H1, (H2 eq_refl).
  - split.
    + simpl. rewrite E. simpl. apply IH.
    + intros _. simpl. exact E.
Qed.

Lemma strip_leading_spec (q : ascii -> bool) (s : string) :
  starts_dash (strip_leading s) = false
  /\ (all_chars q s = true -> all_chars q (strip_leading s) = true)
  /\ (no_double_dash s = true -> no_double_dash (strip_leading s) = true).
Proof.
  induction s as [|c s IH]; simpl; [done|].
  destruct (is_dash c) eqn:E.
  - destruct IH as (H1 & H2 & H3). split; [done|]. split.
    + intros H. apply andb_true_iff in H as [_ H]. by apply H2.
    + intros H. apply andb_true_iff in H as [_ H]. by apply H3.
  - simpl. by rewrite E.
Qed.

Lemma strip_trailing_spec (q : ascii -> bool) (s : string) :
  ends_dash (strip_trailing s) = false
  /\ (starts_dash s = false -> starts_dash (strip_trailing s) = false)
  /\ (all_chars q s = true -> all_chars q (strip_trailing s) = true)
  /\ (no_double_dash s = true -> no_double_dash (strip_trailing s) = true)
  /\ (starts_dash (strip_trailing s) = true -> starts_dash s = true).
Proof.
  induction s as [|c s IH]; simpl; [done|].
  destruct IH as (H1 & H2 & H3 & H4 & H5).
  destruct (is_dash c) eqn:E; simpl.
  - destruct (String.eqb_spec (strip_trailing s) "") as [Hr|Hr]; simpl.
    + done.
    + rewrite E. split.
      * destruct (strip_trailing s); [done | exact H1].
      * split; [done|]. split.
        -- intros H. apply andb_true_iff in H as [Hc H]. by rewrite Hc, H3.
        -- split; [|done]. intros H. apply andb_true_iff in H as [Hc H].
           rewrite (H4 H), andb_true_r.
           destruct (starts_dash (strip_trailing s)) eqn:Hs; [|done].
           by rewrite (H5 eq_refl) in Hc.
  - rewrite E. split.
    + destruct (strip_trailing s) eqn:Hr; [done | exact H1].
    + split; [done|]. split.
      * intros H. apply andb_true_iff in H as [Hc H]. by rewrite Hc, H3.
      * split; [|done]. intros H. by rewrite (H4 H).
Qed.

Lemma toLowerCase_slug (s : string) :
  all_chars (fun c => is_alnum c || is_dash c) s = true -> toLowerCase s = s.
Proof.
  induction s as [|c s IH]; simpl; [done|].
  intros H. apply andb_true_iff in H as [Hc H].
  by rewrite (slug_char_lower c Hc), IH.
Qed.

Lemma replace_runs_slug (p : ascii -> bool) (b : bool) (s : string) :
  all_chars (fun c => Bool.eqb (p c) (is_dash c)) s = true ->
  no_double_dash s = true ->
  (b = true -> starts_dash s = false) ->
  replace_runs p b s = s.
Proof.
  revert b. induction s as [|c s IH]; intros b; simpl; [done|].
  intros Hp Hn Hb. apply andb_true_iff in Hp as [Hpc Hp].
  apply andb_true_iff in Hn as [Hc Hn]. apply Bool.eqb_prop in Hpc.
  destruct (p c) eqn:E.
  - symmetry in Hpc. destruct b; [by rewrite Hb in Hpc|].
    rewrite Hpc in Hc. apply Ascii.eqb_eq in Hpc. subst c. f_equal.
    apply IH; [done | done |]. intros _. by destruct (starts_dash s).
  - f_equal. apply IH; [done | done | discriminate].
Qed.

Lemma all_chars_impl (p q : ascii -> bool) (s : string) :
  (forall c, p c = true -> q c = true) ->
  all_chars p s = true -> all_chars q s = true.
Proof.
  intros Hpq. induction s as [|c s IH]; simpl; [done|].
  intros H. apply andb_true_iff in H as [Hc H]. by rewrite (Hpq c Hc), IH.
Qed.

Lemma strip_leading_slug (s : string) :
  starts_dash s = false -> strip_leading s = s.
Proof. destruct s as [|c s]; simpl; [done|]. by intros ->. Qed.

Lemma strip_trailing_slug (s : string) :
  ends_dash s = false -> strip_trailing s = s.
Proof.
  induction s as [|c s IH]; simpl; [done|].
  destruct s as [|c' s'].
  - intros ->. done.
  - intros H. rewrite (IH H).
    replace (String.eqb (String c' s') "") with false by done.
    by rewrite andb_false_r.
Qed.

(** [X21] [sanitizeFileNameHint] always returns a usable hint: the result is not
    empty, is made of [a-z], [0-9] and ["-"] only, has no dash at either
    end and no two dashes in a row.  A hint that is already of this form
    is returned as it is, so sanitizing twice is sanitizing once. *)
Theorem sanitizeFileNameHint_gives_a_slug (fileNameHint : string) :
  is_slug (sanitizeFileNameHint fileNameHint) = true
  /\ (is_slug fileNameHint = true ->
      sanitizeFileNameHint fileNameHint = fileNameHint)
  /\ sanitizeFileNameHint (sanitizeFileNameHint fileNameHint)
     = sanitizeFileNameHint fileNameHint.
Proof.
  assert (Hslug : forall s, is_slug (sanitizeFileNameHint s) = true).
  { intros s. unfold sanitizeFileNameHint.
    set (lowered := toLowerCase _).
    set (a := replace_runs (fun c => negb (is_alnum c)) false lowered).
    set (b := replace_runs is_dash false a).
    set (q := fun c => is_alnum c || is_dash c).
    assert (Ha : all_chars q a = true).
    { apply replace_runs_chars; [done|]. intros c Hc. unfold q.
      apply negb_false_iff in Hc. by rewrite Hc. }
    assert (Hb : all_chars q b = true) by (by apply replace_runs_keeps).
    destruct (replace_dash_runs_nodd false a) as [Hn _]. fold b in Hn.
    destruct (strip_leading_spec q b) as (L1 & L2 & L3).
    destruct (strip_trailing_spec q (strip_leading b)) as (T1 & T2 & T3 & T4 & _).
    destruct (String.eqb_spec (strip_trailing (strip_leading b)) "") as [E|E].
    - reflexivity.
    - pose proof (T3 (L2 Hb)) as Hq. unfold q in Hq.
      unfold is_slug. rewrite T1, (T2 L1), Hq, (T4 (L3 Hn)).
      by apply String.eqb_neq in E as ->. }
  assert (Hfix : forall s, is_slug s = true -> sanitizeFileNameHint s = s).
  { intros s H. unfold is_slug in H.
    apply andb_true_iff in H as [H Hn]. apply andb_true_iff in H as [H He].
    apply andb_true_iff in H as [H Hs]. apply andb_true_iff in H as [Hne Hq].
    apply negb_true_iff in Hne, Hs, He.
    unfold sanitizeFileNameHint. rewrite Hne, (toLowerCase_slug s Hq).
    rewrite (replace_runs_slug (fun c => negb (is_alnum c)) false s);
      [|apply (all_chars_impl _ _ s slug_char_class Hq) | done | done].
    rewrite (replace_runs_slug is_dash false s); [| |done|done].
    - by rewrite (strip_leading_slug s Hs), (strip_trailing_slug s He), Hne.
    - apply (all_chars_impl (fun _ => true)); [by intros c _; destruct (is_dash c)|].
      clear. by induction s. }
  split; [apply Hslug|]. split; [apply Hfix|]. apply Hfix, Hslug.
Qed.

(** ** [getOrderStats] *)

Lemma getOrderStats_eq (user : ObjectId) (st : Store) :
  getOrderStats user st
  = (st, json 200
           (OrderStats.mk
              (fold_right (fun _ acc => 1 + acc) 0 (match_user user st))
              (sum_total (match_user user st))
              (sum_cond_status "pending" (match_user user st))
              (sum_cond_status "delivered" (match_user user st))
              (sum_cond_status "cancelled" (match_user user st)))).
Proof.
  unfold getOrderStats, group_stats. by destruct (match_user user st).
Qed.




Lemma filter_Permutation_bool {A} (f : A -> bool) (l l' : list A) :
  Permutation l l' -> Permutation (List.filter f l) (List.filter f l').
Proof.
  induction 1 as [|x l l' _ IH|x y l|l l' l'' _ IH1 _ IH2]; simpl.
  - done.
  - destruct (f x); [by constructor | done].
  - destruct (f x), (f y); try done. apply perm_swap.
  - by etrans.
Qed.

Lemma sum_cond_status_Permutation (s : string) (l l' : list Order.t) :
  Permutation l l' -> sum_cond_status s l = sum_cond_status s l'.
Proof.
  induction 1 as [|x l l' _ IH|x y l|l l' l'' _ IH1 _ IH2]; simpl;
    [done | by rewrite IH | lia | congruence].
Qed.

Lemma count_Permutation (l l' : list Order.t) :
  Permutation l l' ->
  fold_right (fun _ acc => 1 + acc) 0 l = fold_right (fun _ acc => 1 + acc) 0 l'.
Proof.
  induction 1 as [|x l l' _ IH|x y l|l l' l'' _ IH1 _ IH2]; simpl;
    [done | by rewrite IH | lia | congruence].
Qed.

Lemma sum_total_Permutation (l l' : list Order.t) :
  Permutation l l' -> (sum_total l == sum_total l')%Q.
Proof.
  induction 1 as [|x l l' _ IH|x y l|l l' l'' _ IH1 _ IH2]; simpl.
  - reflexivity.
  - by rewrite IH.
  - ring.
  - by rewrite IH1.
Qed.

Lemma match_user_insert_fresh (user id : ObjectId) (o : Order.t) (st st' : Store) :
  orders st !! id = None ->
  orders st' = <[id := o]> (orders st) ->
  Permutation (match_user user st')
    (List.filter (fun o => N.eqb (Order.user o) user) [o] ++ match_user user st).
Proof.
  intros Hnone Ho. unfold match_user. rewrite Ho.
  rewrite <- List.filter_app. apply filter_Permutation_bool.
  change ([o] ++ map snd (map_to_list (orders st)))
    with (map snd ((id, o) :: map_to_list (orders st))).
  apply Permutation_map. by apply map_to_list_insert.
Qed.

Lemma match_user_insert_replace (user id : ObjectId) (o0 o : Order.t)
    (st st' : Store) :
  orders st !! id = Some o0 ->
  orders st' = <[id := o]> (orders st) ->
  exists rest,
    Permutation (match_user user st)
      (List.filter (fun o => N.eqb (Order.user o) user) [o0] ++ rest)
    /\ Permutation (match_user user st')
         (List.filter (fun o => N.eqb (Order.user o) user) [o] ++ rest).
Proof.
  intros Hsome Ho.
  exists (List.filter (fun o => N.eqb (Order.user o) user)
            (map snd (map_to_list (delete id (orders st))))).
  unfold match_user. rewrite Ho, <- !List.filter_app. split.
  - apply filter_Permutation_bool.
    change ([o0] ++ map snd (map_to_list (delete id (orders st))))
      with (map snd ((id, o0) :: map_to_list (delete id (orders st)))).
    apply Permutation_map. symmetry. by apply map_to_list_delete.
  - apply filter_Permutation_bool.
    change ([o] ++ map snd (map_to_list (delete id (orders st))))
      with (map snd ((id, o) :: map_to_list (delete id (orders st)))).
    apply Permutation_map. rewrite <- (insert_delete_eq (orders st)).
    apply map_to_list_insert. apply lookup_delete_eq.
Qed.

(** [X23] A checkout shows in the statistics of the user at once: after a
    [createOrder] that stored a new order, [getOrderStats] counts one
    order more and one pending order more, the amount spent has grown by
    the total of the order, and the counts of delivered and cancelled
    orders are what they were. *)
Theorem createOrder_shows_in_the_stats
    (now : Date) (newId user : ObjectId) (body : CreateOrder.body)
    (st st' : Store) (order : Order.t) :
  orders st !! newId = None ->
  createOrder now newId user body st = (st', json 201 order) ->
  exists s s',
    getOrderStats user st = (st, json 200 s)
    /\ getOrderStats user st' = (st', json 200 s')
    /\ OrderStats.totalOrders s' = OrderStats.totalOrders s + 1
    /\ OrderStats.pendingOrders s' = OrderStats.pendingOrders s + 1
    /\ OrderStats.deliveredOrders s' = OrderStats.deliveredOrders s
    /\ OrderStats.cancelledOrders s' = OrderStats.cancelledOrders s
    /\ (OrderStats.totalSpent s' == OrderStats.totalSpent s + Order.total order)%Q.
Proof.
  intros Hfresh H. apply createOrder_json_inv in H
    as (cart & _ & _ & _ & _ & Hu & Hs & _ & _ & _ & _ & Hst).
  assert (Ho : orders st' = <[newId := order]> (orders st)).
  { rewrite Hst. simpl. by rewrite (proj1 (reduce_quantities_others _ _)). }
  pose proof (match_user_insert_fresh user newId order st st' Hfresh Ho) as Hperm.
  simpl in Hperm. rewrite Hu, N.eqb_refl in Hperm. simpl in Hperm.
  do 2 eexists. split; [apply getOrderStats_eq|].
  split; [apply getOrderStats_eq|]. simpl.
  rewrite (count_Permutation _ _ Hperm), !(sum_cond_status_Permutation _ _ _ Hperm),
    (sum_total_Permutation _ _ Hperm). simpl. rewrite Hs. simpl.
  repeat split; try lia. ring.
Qed.

Lemma createOrder_shows_in_the_stats_witness :
  exists s s',
    getOrderStats 7%N (sample_store 10 [CartItem.mk 1%N 2])
    = (sample_store 10 [CartItem.mk 1%N 2], json 200 s)
    /\ getOrderStats 7%N checked_out_store = (checked_out_store, json 200 s')
    /\ OrderStats.totalOrders s' = OrderStats.totalOrders s + 1
    /\ OrderStats.pendingOrders s' = OrderStats.pendingOrders s + 1
    /\ OrderStats.deliveredOrders s' = OrderStats.deliveredOrders s
    /\ OrderStats.cancelledOrders s' = OrderStats.cancelledOrders s
    /\ (OrderStats.totalSpent s'
        == OrderStats.totalSpent s + Order.total sample_created)%Q.
Proof.
  apply (createOrder_shows_in_the_stats 0 9%N 7%N sample_body
           (sample_store 10 [CartItem.mk 1%N 2]) checked_out_store sample_created).
  - reflexivity.
  - vm_compute. reflexivity.
Defined.

(** [X24] A cancellation moves the order within the statistics and takes
    nothing out of them: after a successful [cancelOrder],
    [getOrderStats] counts the same number of orders and one cancelled
    order more, and the amount spent still includes the total of the
    cancelled order. *)
Theorem cancelOrder_shows_in_the_stats
    (user id : ObjectId) (st st' : Store) (o' : Order.t) :
  cancelOrder user id st = (st', json 200 o') ->
  exists s s',
    getOrderStats user st = (st, json 200 s)
    /\ getOrderStats user st' = (st', json 200 s')
    /\ OrderStats.totalOrders s' = OrderStats.totalOrders s
    /\ OrderStats.cancelledOrders s' = OrderStats.cancelledOrders s + 1
    /\ OrderStats.deliveredOrders s' = OrderStats.deliveredOrders s
    /\ OrderStats.pendingOrders s' <= OrderStats.pendingOrders s
    /\ (OrderStats.totalSpent s' == OrderStats.totalSpent s)%Q.
Proof.
  intros H.
  assert (Hstatus : exists o, Order_findOne id user st = Some o
            /\ (Order.status o = "pending"%string
                \/ Order.status o = "confirmed"%string)).
  { unfold cancelOrder in H.
    destruct (Order_findOne id user st) as [o|]; [|done].
    exists o. split; [done|].
    destruct (includes _ (Order.status o)) eqn:E; [|done].
    apply includes_In in E. simpl in E. destruct E as [E|[E|[]]]; auto. }
  destruct Hstatus as (o0 & Hfind0 & Hst0).
  apply cancelOrder_json_inv in H as (o & Hfind & -> & Ho & _).
  rewrite Hfind0 in Hfind. injection Hfind as <-.
  apply Order_findOne_Some in Hfind0 as [Hsome Hu].
  destruct (match_user_insert_replace user id o0 _ st st' Hsome Ho)
    as (rest & Hp & Hp').
  simpl in Hp, Hp'. rewrite Hu, N.eqb_refl in Hp, Hp'. simpl in Hp, Hp'.
  do 2 eexists. split; [apply getOrderStats_eq|].
  split; [apply getOrderStats_eq|]. simpl.
  rewrite (count_Permutation _ _ Hp), (count_Permutation _ _ Hp'),
    !(sum_cond_status_Permutation _ _ _ Hp),
    !(sum_cond_status_Permutation _ _ _ Hp'),
    (sum_total_Permutation _ _ Hp), (sum_total_Permutation _ _ Hp'). simpl.
  destruct Hst0 as [-> | ->]; simpl; repeat split; try lia; reflexivity.
Qed.

Lemma cancelOrder_shows_in_the_stats_witness :
  exists s s',
    getOrderStats 7%N (order_store (sample_order "pending" "pending" None))
    = (order_store (sample_order "pending" "pending" None), json 200 s)
    /\ getOrderStats 7%N
         (fst (cancelOrder 7%N 5%N
                 (order_store (sample_order "pending" "pending" None))))
       = (fst (cancelOrder 7%N 5%N
                 (order_store (sample_order "pending" "pending" None))),
          json 200 s')
    /\ OrderStats.totalOrders s' = OrderStats.totalOrders s
    /\ OrderStats.cancelledOrders s' = OrderStats.cancelledOrders s + 1
    /\ OrderStats.deliveredOrders s' = OrderStats.deliveredOrders s
    /\ OrderStats.pendingOrders s' <= OrderStats.pendingOrders s
    /\ (OrderStats.totalSpent s' == OrderStats.totalSpent s)%Q.
Proof.
  apply (cancelOrder_shows_in_the_stats 7%N 5%N
           (order_store (sample_order "pending" "pending" None))
           (fst (cancelOrder 7%N 5%N
                   (order_store (sample_order "pending" "pending" None))))
           (Order.set_paymentStatus "refunded"
              (Order.set_status "cancelled"
                 (sample_order "pending" "pending" None)))).
  vm_compute. reflexivity.
Defined.

(** ** Adding a product and removing it again *)

Lemma addToCart_json_inv (user pid : ObjectId) (quantity : option Z)
    (st st1 : Store) (cart : Cart.t) (code : Z) (b : CartBody.t) :
  carts st !! user = Some cart ->
  addToCart user (Some pid) quantity st = (st1, json code b) ->
  Cart.validate (with_added pid (default 1 quantity) cart) = true
  /\ st1 = set_carts
             (<[user := with_added pid (default 1 quantity) cart]> (carts st)) st.
Proof.
  intros Hc. unfold addToCart.
  destruct (_ || _); [done|].
  destruct (Product_findOne_inStock pid st); [|done].
  unfold Cart_getOrCreate. rewrite Hc.
  destruct (find_populated st pid (Cart.items cart)); [done|].
  destruct (_ <? _); [done|].
  destruct (Cart_addItem _ _ _ _ _) as [e|[cart' st2]] eqn:Ha; [done|].
  apply Cart_addItem_with_added in Ha as (-> & Hv & ->).
  destruct (reduce_totalPrice _); [|done].
  by intros [= <- _ _].
Qed.

Lemma remove_lines_app (pid : ObjectId) (l l' : list CartItem.t) :
  remove_lines pid (l ++ l') = remove_lines pid l ++ remove_lines pid l'.
Proof. apply List.filter_app. Qed.

(** [X25] Removing undoes adding.  When [addToCart] has put a product into a
    valid cart that had no line for it, [removeFromCart] for the product
    brings the store back to what it was before the product was added. *)
Theorem addToCart_then_removeFromCart_restores_the_cart
    (user pid : ObjectId) (quantity : option Z) (st st1 : Store)
    (cart : Cart.t) (b : CartBody.t) :
  carts st !! user = Some cart ->
  Cart.validate cart = true ->
  Cart_findItem pid cart = None ->
  addToCart user (Some pid) quantity st = (st1, json 200 b) ->
  fst (removeFromCart user pid st1) = st
  /\ stored_quantity st1 user pid = default 1 quantity.
Proof.
  intros Hc Hv Hnone H.
  apply (addToCart_json_inv _ _ _ _ _ cart) in H as [Hv1 ->]; [|done].
  unfold with_added in *. split.
  - unfold removeFromCart, Cart_removeItem. simpl. rewrite lookup_insert_eq.
    simpl. rewrite remove_lines_app. unfold Cart_findItem in Hnone.
    rewrite (remove_lines_absent _ _ Hnone). simpl. rewrite N.eqb_refl. simpl.
    rewrite app_nil_r, Cart_eta, (Cart_save_ok _ _ _ Hv). simpl.
    rewrite insert_insert_eq, (insert_id _ _ _ Hc). by destruct st.
  - unfold stored_quantity. simpl. rewrite lookup_insert_eq.
    unfold cart_quantity, Cart_findItem. simpl. unfold Cart_findItem in Hnone.
    rewrite find_app_new by done. done.
Qed.

Lemma addToCart_then_removeFromCart_restores_the_cart_witness :
  fst (removeFromCart 7%N 1%N
         (fst (addToCart 7%N (Some 1%N) (Some 3) (sample_store 10 []))))
  = sample_store 10 []
  /\ stored_quantity
       (fst (addToCart 7%N (Some 1%N) (Some 3) (sample_store 10 [])))
       7%N 1%N = default 1 (Some 3).
Proof.
  apply (addToCart_then_removeFromCart_restores_the_cart 7%N 1%N (Some 3)
           (sample_store 10 [])
           (fst (addToCart 7%N (Some 1%N) (Some 3) (sample_store 10 [])))
           (Cart.mk []) (CartBody.mk [CartItem.mk 1%N 3] 3 1500));
    [reflexivity | reflexivity | reflexivity | vm_compute; reflexivity].
Defined.

(** ** [deleteProduct] *)

Lemma find_populated_dangling (st : Store) (pid : ObjectId)
    (items : list CartItem.t) :
  List.find (fun item => N.eqb (CartItem.product item) pid) items = None ->
  (exists item, In item items /\ products st !! CartItem.product item = None) ->
  find_populated st pid items
  = inl (Error "Cannot read properties of null (reading 'toString')").
Proof.
  induction items as [|i items IH]; simpl; intros Hf (item & Hin & Hnone);
    [destruct Hin|].
  destruct (products st !! CartItem.product i) eqn:Hp; [|done].
  destruct (N.eqb (CartItem.product i) pid); [discriminate|].
  apply IH; [done|]. destruct Hin as [->|Hin]; [congruence|]. by exists item.
Qed.

(** [X26] [deleteProduct] takes the product out of the catalog and touches
    nothing else: the carts keep their lines for it and the orders their
    items.  From then on a checkout of a cart with such a line is
    refused, [addToCart] of another product into such a cart fails on the
    line that has lost its product, and [getCart] takes the line out of a
    valid cart.  Cancelling an order that holds the product still goes
    through and does not bring the product back. *)
Theorem deleteProduct_leaves_lines_and_orders
    (id : ObjectId) (st : Store) (p : Product.t) :
  products st !! id = Some p ->
  snd (deleteProduct id st) = json 200 tt
  /\ products (fst (deleteProduct id st)) = delete id (products st)
  /\ carts (fst (deleteProduct id st)) = carts st
  /\ orders (fst (deleteProduct id st)) = orders st
  /\ deleteProduct id (fst (deleteProduct id st))
     = (fst (deleteProduct id st), json 404 tt)
  /\ (forall now newId user body cart item,
        carts st !! user = Some cart ->
        In item (Cart.items cart) -> CartItem.product item = id ->
        exists e,
          createOrder now newId user body (fst (deleteProduct id st))
          = (fst (deleteProduct id st), next e))
  /\ (forall user cart item other quantity,
        carts st !! user = Some cart ->
        In item (Cart.items cart) -> CartItem.product item = id ->
        Cart_findItem other cart = None ->
        1 <= default 1 quantity <= 100 ->
        is_Some (Product_findOne_inStock other (fst (deleteProduct id st))) ->
        addToCart user (Some other) quantity (fst (deleteProduct id st))
        = (fst (deleteProduct id st),
           next (Error "Cannot read properties of null (reading 'toString')")))
  /\ (forall user cart,
        carts st !! user = Some cart -> Cart.validate cart = true ->
        stored_quantity (fst (getCart user (fst (deleteProduct id st)))) user id
        = 0)
  /\ (forall user oid o,
        Order_findOne oid user st = Some o ->
        Order.canBeCancelled o = true ->
        Order.validate o = true -> totals_consistent o ->
        exists st2 o',
          cancelOrder user oid (fst (deleteProduct id st)) = (st2, json 200 o')
          /\ products st2 !! id = None).
Proof.
  intros Hp. unfold deleteProduct at 1 2 3 4 5 6. rewrite Hp. cbn [fst snd].
  unfold deleteProduct. rewrite Hp. cbn [fst snd].
  set (st' := set_products _ st).
  assert (Hp' : products st' !! id = None)
    by (unfold st'; simpl; apply lookup_delete_eq).
  split; [done|]. split; [done|]. split; [done|]. split; [done|].
  split; [by rewrite Hp'|]. split; [|split; [|split]].
  - intros now newId user body cart item Hc Hin Hid.
    apply (createOrder_offending _ _ _ _ _ cart item); [done | done |].
    unfold offending. by rewrite Hid, Hp'.
  - intros user cart item other quantity Hc Hin Hid Hnone Hq [p' Hstock].
    unfold addToCart. rewrite (quantity_in_range _ Hq), Hstock.
    unfold Cart_getOrCreate.
    replace (carts st' !! user) with (Some cart) by done.
    rewrite (find_populated_dangling st' other (Cart.items cart)); [done|done|].
    exists item. split; [done|]. by rewrite Hid.
  - intros user cart Hc Hv.
    assert (Hc' : carts st' !! user = Some cart) by done.
    destruct (getCart_valid_cart user st' cart Hc' Hv) as [total ->].
    unfold stored_quantity. simpl. rewrite lookup_insert_eq.
    unfold cart_quantity, Cart_findItem. simpl.
    destruct (List.find _ _) as [i|] eqn:Hfind; [|done].
    apply find_some in Hfind as [Hin Heq]. apply N.eqb_eq in Heq.
    apply filter_In in Hin as [_ Hact].
    apply line_is_active_spec in Hact as (p0 & Hp0 & _).
    rewrite Heq in Hp0. simpl in Hp0. by rewrite lookup_delete_eq in Hp0.
  - intros user oid o Hfind Hcan Hv Hcons.
    assert (Hfind' : Order_findOne oid user st' = Some o) by done.
    unfold cancelOrder. rewrite Hfind'.
    unfold Order.canBeCancelled in Hcan. rewrite Hcan. simpl negb. cbv iota.
    rewrite Order_save_ok; [|by apply validate_cancelled|exact Hcons].
    do 2 eexists. split; [done|]. simpl.
    by rewrite restore_quantities_lookup, Hp'.
Qed.

Lemma deleteProduct_leaves_lines_and_orders_witness :
  stored_quantity
    (fst (getCart 7%N
            (fst (deleteProduct 1%N (sample_store 10 [CartItem.mk 1%N 2])))))
    7%N 1%N = 0.
Proof.
  eapply (deleteProduct_leaves_lines_and_orders 1%N
            (sample_store 10 [CartItem.mk 1%N 2]) (productA 10));
    reflexivity.
Defined.

(** ** [updateStatus] *)

Lemma validate_status (s : string) (o : Order.t) :
  includes Order.status_enum s = true ->
  Order.validate o = true ->
  Order.validate (Order.set_status s o) = true
  /\ Order.validate
       (Order.set_paymentStatus "paid"
          (Order_set_deliveredAt (Some 0) (Order.set_status s o))) = true.
Proof.
  intros Hs. unfold Order.validate.
  cbn [Order.set_paymentStatus Order.set_status Order_set_deliveredAt
       Order.items Order.shippingAddress Order.status Order.paymentStatus
       Order.paymentMethod Order.subtotal Order.shippingCost Order.tax
       Order.total Order.notes].
  rewrite Hs, !andb_true_iff. intros H. repeat split; try apply H; reflexivity.
Qed.

(** [X27] [updateStatus] checks the new status against the enum of the schema
    and against nothing else: without notes every status of the enum is
    accepted for a sound order, whatever status the order has, and a
    status outside the enum is rejected by the save.  Marking an order
    delivered stamps the delivery time and marks it paid, which opens the
    refund window: [processRefund] goes through for seven days from that
    moment and is refused with [RefundWindowExpired] after, and the order
    can no longer be cancelled. *)
Theorem updateStatus_delivered_opens_the_refund_window
    (now : Date) (user id : ObjectId) (o : Order.t) (st : Store) :
  orders st !! id = Some o ->
  Order.user o = user ->
  Order.validate o = true ->
  totals_consistent o ->
  (exists o' st',
     Order_updateStatus now id "delivered" "" o st = inr (o', st')
     /\ orders st' = <[id := o']> (orders st)
     /\ products st' = products st
     /\ Order.status o' = "delivered"%string
     /\ Order.paymentStatus o' = "paid"%string
     /\ Order.deliveredAt o' = Some now
     /\ Order.total o' = Order.total o
     /\ (forall now' reason,
           now' <= now + 7 * day ->
           exists st'' b,
             processRefund now' user id reason st' = (st'', json 200 b))
     /\ (forall now' reason,
           now + 7 * day < now' ->
           processRefund now' user id reason st'
           = (st', next RefundWindowExpired))
     /\ cancelOrder user id st' = (st', next InvalidTransition))
  /\ (forall s, includes Order.status_enum s = true ->
        exists o' st', Order_updateStatus now id s "" o st = inr (o', st')
                       /\ Order.status o' = s)
  /\ (forall s notes, includes Order.status_enum s = false ->
        exists e, Order_updateStatus now id s notes o st = inl e).
Proof.
  intros Ho Hu Hv Hcons. split; [|split].
  - set (o' := Order.set_paymentStatus "paid"
                 (Order_set_deliveredAt (Some now)
                    (Order.set_status "delivered" o))).
    assert (Hv' : Order.validate o' = true).
    { destruct (validate_status "delivered" o eq_refl Hv) as [_ H]. exact H. }
    assert (Hrun : Order_updateStatus now id "delivered" "" o st
              = inr (o', set_orders (<[id := o']> (orders st)) st)).
    { unfold Order_updateStatus. simpl String.eqb. simpl negb. cbv iota.
      simpl andb. cbv iota. fold o'. by rewrite (Order_save_ok id o' st Hv' Hcons). }
    set (st' := set_orders (<[id := o']> (orders st)) st) in *.
    assert (Hfind : Order_findOne id user st' = Some o')
      by (by apply (Order_findOne_insert id user st)).
    exists o', st'. split; [done|]. split; [done|]. split; [done|].
    split; [done|]. split; [done|]. split; [done|]. split; [done|].
    split; [|split].
    + intros now' reason Hle. unfold processRefund. rewrite Hfind. simpl.
      replace (now + refund_period <? now') with false
        by (symmetry; apply Z.ltb_ge; unfold refund_period, day in *; lia).
      rewrite Order_save_ok; [by eauto| |exact Hcons].
      by apply validate_refunded.
    + intros now' reason Hlt. unfold processRefund. rewrite Hfind. simpl.
      replace (now + refund_period <? now') with true
        by (symmetry; apply Z.ltb_lt; unfold refund_period, day in *; lia).
      done.
    + by apply (cancelOrder_canBeCancelled _ _ _ o').
  - intros s Hs. destruct (validate_status s o Hs Hv) as [H1 H2].
    unfold Order_updateStatus. simpl (negb (String.eqb "" "")). cbv iota.
    simpl andb. cbv iota.
    destruct (String.eqb s "delivered").
    + rewrite Order_save_ok; [by eauto| |exact Hcons].
      revert H2. unfold Order.validate. by simpl.
    + rewrite Order_save_ok; [by eauto|exact H1|exact Hcons].
  - intros s notes Hs. unfold Order_updateStatus.
    match goal with |- context [Order_save id ?x st] => set (o' := x) end.
    assert (Hst : Order.status o' = s).
    { unfold o'. destruct (String.eqb s "delivered"), (_ && _); done. }
    unfold Order_save.
    assert (Hbad : Order.validate o' = false).
    { unfold Order.validate. rewrite Hst, Hs.
      by rewrite !andb_false_r. }
    rewrite Hbad. simpl. by eexists.
Qed.

Lemma updateStatus_delivered_opens_the_refund_window_witness :
  exists e,
    Order_updateStatus 0 5%N "archived" ""
      (sample_order "pending" "pending" None)
      (order_store (sample_order "pending" "pending" None)) = inl e.
Proof.
  apply (updateStatus_delivered_opens_the_refund_window 0 7%N 5%N
           (sample_order "pending" "pending" None)
           (order_store (sample_order "pending" "pending" None)));
    [reflexivity | reflexivity | reflexivity | | reflexivity].
  unfold totals_consistent. vm_compute. discriminate.
Defined.

(** ** Verification of the e-mail address *)

Lemma show_Z_nonempty (z : Z) : show_Z z <> ""%string.
Proof.
  unfold show_Z. destruct (Z.to_int z) as [d|d]; simpl; [|discriminate].
  destruct d; discriminate.
Qed.

(** [X28] [verifyEmail] answers with the user only for the code the user is
    waiting for: the account was not verified, the code of the request is
    the stored one, and the stored expiry, if any, has not passed.  The
    user is then active and verified and the code is gone, so the code
    works once: every later [verifyEmail] for the address is refused with
    "already verified" and changes nothing. *)
Theorem verifyEmail_accepts_the_code_once
    (now : Date) (email otp : string) (users users' : gmap string User.t)
    (code : Z) (b : User.t) :
  verifyEmail now email otp users = (users', json code b) ->
  code = 200
  /\ (exists user,
        users !! normalize_email email = Some user
        /\ User.isEmailVerified user = false
        /\ User.emailVerificationOTP user = Some otp
        /\ (forall otpExpires, User.otpExpires user = Some otpExpires ->
              now <= otpExpires)
        /\ User.username b = User.username user
        /\ User.email b = User.email user)
  /\ User.status b = "active"%string
  /\ User.isEmailVerified b = true
  /\ User.emailVerificationOTP b = None
  /\ users' = <[normalize_email email := b]> users
  /\ (forall now' otp',
        otp' <> ""%string ->
        verifyEmail now' email otp' users'
        = (users',
           next (AppError "Email is already verified. Please login." 400))).
Proof.
  unfold verifyEmail.
  destruct (String.eqb email "" || String.eqb otp "") eqn:Hreq; [done|].
  apply orb_false_iff in Hreq as [He _].
  destruct (users !! normalize_email email) as [user|] eqn:Hu; [|done].
  destruct (User.isEmailVerified user) eqn:Hver; [done|].
  destruct (bool_decide (User.emailVerificationOTP user = Some otp)) eqn:Hotp;
    [|done].
  apply bool_decide_eq_true in Hotp. simpl negb. cbv iota.
  destruct (match User.otpExpires user with Some _ => _ | None => _ end)
    eqn:Hexp; [done|].
  intros [= <- <- <-]. split; [done|]. split.
  - exists user. repeat split; try done.
    intros t Ht. rewrite Ht in Hexp. by apply Z.ltb_ge in Hexp.
  - repeat split; try done.
    intros now' otp' Hotp'. rewrite He.
    apply String.eqb_neq in Hotp'. rewrite Hotp'. simpl orb. cbv iota.
    by rewrite lookup_insert_eq.
Qed.

Lemma verifyEmail_accepts_the_code_once_witness :
  200 = 200
  /\ (exists user,
        sample_users !! normalize_email "Ali@Example.com " = Some user
        /\ User.isEmailVerified user = false
        /\ User.emailVerificationOTP user = Some "123456"%string
        /\ (forall otpExpires, User.otpExpires user = Some otpExpires ->
              5 <= otpExpires)
        /\ User.username (User.mk "ali" "ali@example.com" "active" true None None)
           = User.username user
        /\ User.email (User.mk "ali" "ali@example.com" "active" true None None)
           = User.email user)
  /\ User.status (User.mk "ali" "ali@example.com" "active" true None None)
     = "active"%string
  /\ User.isEmailVerified
       (User.mk "ali" "ali@example.com" "active" true None None) = true
  /\ User.emailVerificationOTP
       (User.mk "ali" "ali@example.com" "active" true None None) = None
  /\ fst (verifyEmail 5 "Ali@Example.com " "123456" sample_users)
     = <[normalize_email "Ali@Example.com " :=
           User.mk "ali" "ali@example.com" "active" true None None]>
         sample_users
  /\ (forall now' otp',
        otp' <> ""%string ->
        verifyEmail now' "Ali@Example.com " otp'
          (fst (verifyEmail 5 "Ali@Example.com " "123456" sample_users))
        = (fst (verifyEmail 5 "Ali@Example.com " "123456" sample_users),
           next (AppError "Email is already verified. Please login." 400))).
Proof.
  apply (verifyEmail_accepts_the_code_once 5 "Ali@Example.com " "123456"
           sample_users).
  vm_compute. reflexivity.
Defined.

Lemma otp_range (random : Q) :
  (0 <= random)%Q -> (random < 1)%Q ->
  100000 <= Qfloor (100000 + random * 900000) <= 999999.
Proof.
  intros H0 H1.
  assert (Hlo : (inject_Z 100000 <= 100000 + random * 900000)%Q).
  { rewrite <- (Qplus_0_r (inject_Z 100000)) at 1.
    apply Qplus_le_compat; [apply Qle_refl|].
    apply Qmult_le_0_compat; [exact H0 | discriminate]. }
  assert (Hhi : (100000 + random * 900000 < inject_Z 1000000)%Q).
  { apply Qlt_le_trans with (100000 + 1 * 900000)%Q; [|discriminate].
    apply Qplus_lt_r. apply Qmult_lt_compat_r; [reflexivity | exact H1]. }
  split.
  - change 100000 with (Qfloor (inject_Z 100000)) at 1.
    apply Qfloor_resp_le. exact Hlo.
  - pose proof (Qfloor_le (100000 + random * 900000)) as Hfl.
    pose proof (Qle_lt_trans _ _ _ Hfl Hhi) as Hz.
    rewrite <- Zlt_Qlt in Hz. lia.
Qed.

(** [X29] [resendOTP] for a user who is not verified replaces the code and
    restarts the ten minutes.  The new code is a number from 100000 to
    999999; [verifyEmail] accepts it up to ten minutes after the request
    and refuses it as expired after; any other code, the one sent before
    included, is refused as invalid.  The new code is stored whether or
    not the e-mail that carries it could be sent. *)
Theorem resendOTP_replaces_the_code
    (now : Date) (random : Q) (sent : bool) (email : string)
    (users : gmap string User.t) (user : User.t) :
  email <> ""%string ->
  users !! normalize_email email = Some user ->
  User.isEmailVerified user = false ->
  (0 <= random)%Q -> (random < 1)%Q ->
  100000 <= Qfloor (100000 + random * 900000) <= 999999
  /\ fst (resendOTP now random sent email users)
     = <[normalize_email email :=
           User.mk (User.username user) (User.email user) (User.status user)
             false (Some (generateOTP random)) (Some (now + otp_period))]>
         users
  /\ (forall now',
        now' <= now + otp_period ->
        exists users'' b,
          verifyEmail now' email (generateOTP random)
            (fst (resendOTP now random sent email users))
          = (users'', json 200 b))
  /\ (forall now',
        now + otp_period < now' ->
        verifyEmail now' email (generateOTP random)
          (fst (resendOTP now random sent email users))
        = (fst (resendOTP now random sent email users),
           next (AppError "OTP has expired. Please request a new one." 400)))
  /\ (forall now' otp,
        otp <> ""%string -> otp <> generateOTP random ->
        verifyEmail now' email otp
          (fst (resendOTP now random sent email users))
        = (fst (resendOTP now random sent email users),
           next (AppError "Invalid OTP" 400))).
Proof.
  intros He Hu Hver H0 H1.
  assert (Hrun : fst (resendOTP now random sent email users)
    = <[normalize_email email :=
          User.mk (User.username user) (User.email user) (User.status user)
            false (Some (generateOTP random)) (Some (now + otp_period))]>
        users).
  { unfold resendOTP. apply String.eqb_neq in He. rewrite He, Hu, Hver.
    by destruct sent. }
  rewrite Hrun. apply String.eqb_neq in He.
  split; [|split; [done|split; [|split]]].
  - by apply otp_range.
  - intros now' Hle. unfold verifyEmail. rewrite He.
    pose proof (show_Z_nonempty (Qfloor (100000 + random * 900000))) as Hne.
    apply String.eqb_neq in Hne. fold (generateOTP random) in Hne.
    rewrite Hne. simpl orb. cbv iota. rewrite lookup_insert_eq.
    cbn [User.isEmailVerified User.emailVerificationOTP User.otpExpires].
    rewrite bool_decide_eq_true_2 by done. simpl negb. cbv iota.
    replace (now + otp_period <? now') with false
      by (symmetry; apply Z.ltb_ge; lia).
    by eauto.
  - intros now' Hlt. unfold verifyEmail. rewrite He.
    pose proof (show_Z_nonempty (Qfloor (100000 + random * 900000))) as Hne.
    apply String.eqb_neq in Hne. fold (generateOTP random) in Hne.
    rewrite Hne. simpl orb. cbv iota. rewrite lookup_insert_eq.
    cbn [User.isEmailVerified User.emailVerificationOTP User.otpExpires].
    rewrite bool_decide_eq_true_2 by done. simpl negb. cbv iota.
    replace (now + otp_period <? now') with true
      by (symmetry; apply Z.ltb_lt; lia).
    done.
  - intros now' otp Hotp Hdiff. unfold verifyEmail. rewrite He.
    apply String.eqb_neq in Hotp. rewrite Hotp. simpl orb. cbv iota.
    rewrite lookup_insert_eq.
    cbn [User.isEmailVerified User.emailVerificationOTP User.otpExpires].
    rewrite bool_decide_eq_false_2; [done|]. intros [= E]. by apply Hdiff.
Qed.

Lemma resendOTP_replaces_the_code_witness :
  100000 <= Qfloor (100000 + (1 # 2) * 900000) <= 999999.
Proof.
  apply (resendOTP_replaces_the_code 700000 (1 # 2) true "ali@example.com"
           sample_users
           (User.mk "ali" "ali@example.com" "pending" false
              (Some "123456"%string) (Some otp_period)));
    [discriminate | reflexivity | reflexivity | discriminate | reflexivity].
Defined.

(** ** [discountPercentage] *)

Lemma discount_ratio (op price : Q) :
  (0 <= price)%Q -> (price < op)%Q ->
  (0 <= (op - price) / op * 100)%Q /\ ((op - price) / op * 100 <= 100)%Q.
Proof.
  intros H0 Hlt.
  assert (Hop : (0 < op)%Q) by (eapply Qle_lt_trans; eauto).
  assert (Hd : (0 <= op - price)%Q).
  { unfold Qminus. rewrite <- (Qplus_opp_r price).
    apply Qplus_le_compat; [apply Qlt_le_weak; exact Hlt|apply Qle_refl]. }
  split.
  - apply Qmult_le_0_compat; [|discriminate].
    apply Qle_shift_div_l; [exact Hop|]. rewrite Qmult_0_l. exact Hd.
  - apply Qle_trans with (1 * 100)%Q; [|discriminate].
    apply Qmult_le_compat_r; [|discriminate].
    apply Qle_shift_div_r; [exact Hop|]. rewrite Qmult_1_l.
    unfold Qminus. rewrite <- (Qplus_0_r op) at 2.
    apply Qplus_le_compat; [apply Qle_refl|].
    apply (Qopp_le_compat 0 price). exact H0.
Qed.

(** [X30] For a price that is not negative, as the schema demands, the
    [discountPercentage] virtual is a whole number from 0 to 100; it is 0
    for a product without an original price and for one whose original
    price is not above the price. *)
Theorem discountPercentage_is_a_percentage (originalPrice : option Q) (price : Q) :
  (0 <= price)%Q ->
  (exists z, discountPercentage originalPrice price = inject_Z z
             /\ 0 <= z <= 100)
  /\ (originalPrice = None -> discountPercentage originalPrice price = 0%Q)
  /\ (forall op, originalPrice = Some op -> (op <= price)%Q ->
        discountPercentage originalPrice price = 0%Q).
Proof.
  intros H0. split; [|split].
  - unfold discountPercentage. destruct originalPrice as [op|]; [|by exists 0].
    destruct (negb (Qeq_bool op 0)); simpl; [|by exists 0].
    destruct (Qlt_bool price op) eqn:Hlt; [|by exists 0].
    apply Qlt_bool_true in Hlt.
    destruct (discount_ratio op price H0 Hlt) as [Hlo Hhi].
    eexists. split; [reflexivity|]. split.
    + change 0 with (Qfloor (inject_Z 0)). apply Qfloor_resp_le.
      apply Qle_trans with (0 + (1 # 2))%Q; [discriminate|].
      apply Qplus_le_compat; [exact Hlo | apply Qle_refl].
    + change 100 with (Qfloor (100 + (1 # 2))). apply Qfloor_resp_le.
      apply Qplus_le_compat; [exact Hhi | apply Qle_refl].
  - by intros ->.
  - intros op -> Hle. unfold discountPercentage.
    destruct (Qlt_bool price op) eqn:Hlt; [|by rewrite andb_false_r].
    apply Qlt_bool_true in Hlt. exfalso. exact (Qlt_not_le _ _ Hlt Hle).
Qed.

Lemma discountPercentage_is_a_percentage_witness :
  exists z, discountPercentage (Some 1500%Q) 1000%Q = inject_Z z
            /\ 0 <= z <= 100.
Proof.
  apply (discountPercentage_is_a_percentage (Some 1500%Q) 1000%Q).
  discriminate.
Defined.
